(** * Royal Tailors: the database migration and the list screens

    A shallow embedding of

    - the PostgreSQL migration "Complete Royal Tailors Database Schema"
      (tables, column defaults, constraints, the two trigger functions,
      the row level security policies), and
    - the in-memory list operations of the React screens
      ([filterFabrics], [filterGarments], [toggleFeatured]).

    The SQL is read with the semantics of PostgreSQL.  SQL values are
    [option]s ([None] is NULL), tables are lists of records in insertion
    order, statements are executed by explicit state passing and either
    commit a new database or are rejected with the violated constraint.
    The clock ([now()]) and the uuid generator ([uuid_generate_v4()]) are
    inputs of every statement. *)

From Stdlib Require Import ZArith NArith List String Ascii Bool Lia.
Import ListNotations.

Local Open Scope string_scope.
Local Open Scope list_scope.

(** ** PostgreSQL text functions used by the migration *)

Module Pg.

(** [n] characters taken cyclically from [fill], starting at [cur]
    (a suffix of [fill]); nothing when [fill] is empty. *)
Fixpoint cycle (n : nat) (fill cur : string) : string :=
  match n with
  | O => ""
  | S k =>
      match cur with
      | String c rest => String c (cycle k fill rest)
      | EmptyString =>
          match fill with
          | String c rest => String c (cycle k fill rest)
          | EmptyString => ""
          end
      end
  end.

(** [LPAD(s, len, fill)]: extends [s] to [len] characters by prepending
    [fill]; a string longer than [len] is truncated on the right. *)
Definition lpad (s : string) (len : nat) (fill : string) : string :=
  if Nat.leb len (String.length s) then substring 0 len s
  else cycle (len - String.length s) fill fill ++ s.

Definition digit (d : N) : ascii := ascii_of_N (48 + d).

Fixpoint to_digits (fuel : nat) (n : N) (acc : string) : string :=
  match fuel with
  | O => acc
  | S f =>
      let acc' := String (digit (n mod 10)) acc in
      if (n <? 10)%N then acc' else to_digits f (n / 10) acc'
  end.

(** Decimal text of a natural number, without leading zeros. *)
Definition decimal (n : N) : string :=
  to_digits (S (N.to_nat (N.log2 n))) n "".

(** A [timestamptz] is a count of microseconds since the Unix epoch. *)
Definition timestamptz := Z.
Bind Scope Z_scope with timestamptz.

(** Whole seconds of a timestamp. *)
Definition epoch_seconds (t : timestamptz) : Z := (t / 1000000)%Z.

(** [EXTRACT(epoch FROM t)::text]: since PostgreSQL 14 [EXTRACT] yields
    a [numeric] with six fractional digits, whose text is the sign, the
    integer part, a dot and the six digits of the microseconds.  (Before
    14 it is a [double precision], whose text has the same integer part
    and drops trailing zeros of the fraction.) *)
Definition epoch_text (t : timestamptz) : string :=
  let a := Z.abs_N t in
  (if (t <? 0)%Z then "-" else "")
    ++ decimal (a / 1000000) ++ "." ++ lpad (decimal (a mod 1000000)) 6 "0".

End Pg.

(** ** Column types and rows *)

(** A [uuid] is its 128-bit number, [jsonb] its text, a [date] a day
    count; [numeric] values are integral here (prices are stored and
    never computed with). *)
Definition uuid := N.
Definition jsonb := string.
Definition numeric := Z.
Definition date := Z.
Definition timestamptz := Pg.timestamptz.
Bind Scope N_scope with uuid.
Bind Scope Z_scope with timestamptz.

(** The [integer] column [fabrics.stock] is typed [Z]; the values of the
    type are the 32-bit ones.  A row or a value list holds values of the
    column types, so a number on its way into [stock] from outside has to
    be one of these. *)
Definition int4 (n : Z) : bool :=
  ((-2147483648 <=? n) && (n <=? 2147483647))%Z.

(** Likewise a [text] or [jsonb] value holds any character but NUL. *)
Fixpoint pg_text (s : string) : bool :=
  match s with
  | EmptyString => true
  | String a rest => negb (Ascii.eqb a zero) && pg_text rest
  end.

(** What an INSERT column list or an UPDATE SET list says about one
    column: the column is not mentioned, or it is given a value (which may
    be NULL). *)
Inductive supplied (A : Type) : Type :=
| Omitted
| Supplied (v : option A).
Arguments Omitted {A}.
Arguments Supplied {A} v.

Definition or_else {A : Type} (s : supplied A) (d : option A) : option A :=
  match s with
  | Omitted => d
  | Supplied v => v
  end.

(** Each table is a record of columns over a carrier [F]: [option] for a
    stored row (a column holds a value or NULL), [supplied] for the value
    list of a statement. *)

Module customers.
Record row_of (F : Type -> Type) : Type := mk {
  id : F uuid;
  name : F string;
  phone : F string;
  email : F string;
  measurements_json : F jsonb;
  created_at : F timestamptz;
  updated_at : F timestamptz }.
Arguments mk {F}.
Arguments id {F}.
Arguments name {F}.
Arguments phone {F}.
Arguments email {F}.
Arguments measurements_json {F}.
Arguments created_at {F}.
Arguments updated_at {F}.
Abbreviation row := (row_of option).
Abbreviation values := (row_of supplied).

(** Column defaults: [uuid_generate_v4()], ['{}'], [now()]. *)
Definition defaults (fresh : uuid) (now : timestamptz) : row :=
  mk (Some fresh) None None None (Some "{}") (Some now) (Some now).

(** The columns named by [v] take its values, the others those of [r]. *)
Definition fill (v : values) (r : row) : row :=
  mk (or_else (id v) (id r)) (or_else (name v) (name r))
     (or_else (phone v) (phone r)) (or_else (email v) (email r))
     (or_else (measurements_json v) (measurements_json r))
     (or_else (created_at v) (created_at r))
     (or_else (updated_at v) (updated_at r)).

Definition nothing : values :=
  mk Omitted Omitted Omitted Omitted Omitted Omitted Omitted.

Definition set_updated_at (t : option timestamptz) (r : row) : row :=
  mk (id r) (name r) (phone r) (email r) (measurements_json r)
     (created_at r) t.
End customers.

Module fabrics.
Record row_of (F : Type -> Type) : Type := mk {
  id : F uuid;
  name : F string;
  material : F string;
  price_per_meter : F numeric;
  color : F string;
  stock : F Z;
  images_json : F jsonb;
  featured : F bool;
  description : F string;
  created_at : F timestamptz;
  updated_at : F timestamptz }.
Arguments mk {F}.
Arguments id {F}.
Arguments name {F}.
Arguments material {F}.
Arguments price_per_meter {F}.
Arguments color {F}.
Arguments stock {F}.
Arguments images_json {F}.
Arguments featured {F}.
Arguments description {F}.
Arguments created_at {F}.
Arguments updated_at {F}.
Abbreviation row := (row_of option).
Abbreviation values := (row_of supplied).

Definition defaults (fresh : uuid) (now : timestamptz) : row :=
  mk (Some fresh) None None (Some 0%Z) None (Some 0%Z) (Some "[]")
     (Some false) None (Some now) (Some now).

Definition fill (v : values) (r : row) : row :=
  mk (or_else (id v) (id r)) (or_else (name v) (name r))
     (or_else (material v) (material r))
     (or_else (price_per_meter v) (price_per_meter r))
     (or_else (color v) (color r)) (or_else (stock v) (stock r))
     (or_else (images_json v) (images_json r))
     (or_else (featured v) (featured r))
     (or_else (description v) (description r))
     (or_else (created_at v) (created_at r))
     (or_else (updated_at v) (updated_at r)).

Definition nothing : values :=
  mk Omitted Omitted Omitted Omitted Omitted Omitted Omitted Omitted
     Omitted Omitted Omitted.

Definition set_updated_at (t : option timestamptz) (r : row) : row :=
  mk (id r) (name r) (material r) (price_per_meter r) (color r) (stock r)
     (images_json r) (featured r) (description r) (created_at r) t.
End fabrics.

Module garments.
Record row_of (F : Type -> Type) : Type := mk {
  id : F uuid;
  name : F string;
  category : F string;
  base_price : F numeric;
  description : F string;
  image_url : F string;
  customization_options : F jsonb;
  created_at : F timestamptz;
  updated_at : F timestamptz }.
Arguments mk {F}.
Arguments id {F}.
Arguments name {F}.
Arguments category {F}.
Arguments base_price {F}.
Arguments description {F}.
Arguments image_url {F}.
Arguments customization_options {F}.
Arguments created_at {F}.
Arguments updated_at {F}.
Abbreviation row := (row_of option).
Abbreviation values := (row_of supplied).

Definition defaults (fresh : uuid) (now : timestamptz) : row :=
  mk (Some fresh) None None (Some 0%Z) None None (Some "{}")
     (Some now) (Some now).

Definition fill (v : values) (r : row) : row :=
  mk (or_else (id v) (id r)) (or_else (name v) (name r))
     (or_else (category v) (category r))
     (or_else (base_price v) (base_price r))
     (or_else (description v) (description r))
     (or_else (image_url v) (image_url r))
     (or_else (customization_options v) (customization_options r))
     (or_else (created_at v) (created_at r))
     (or_else (updated_at v) (updated_at r)).

Definition nothing : values :=
  mk Omitted Omitted Omitted Omitted Omitted Omitted Omitted Omitted
     Omitted.

Definition set_updated_at (t : option timestamptz) (r : row) : row :=
  mk (id r) (name r) (category r) (base_price r) (description r)
     (image_url r) (customization_options r) (created_at r) t.
End garments.

Module orders.
Record row_of (F : Type -> Type) : Type := mk {
  id : F uuid;
  customer_id : F uuid;
  fabric_id : F uuid;
  garment_id : F uuid;
  tracking_id : F string;
  customizations_json : F jsonb;
  measurements_json : F jsonb;
  price : F numeric;
  status : F string;
  urgent : F bool;
  special_instructions : F string;
  estimated_completion : F date;
  created_at : F timestamptz;
  updated_at : F timestamptz }.
Arguments mk {F}.
Arguments id {F}.
Arguments customer_id {F}.
Arguments fabric_id {F}.
Arguments garment_id {F}.
Arguments tracking_id {F}.
Arguments customizations_json {F}.
Arguments measurements_json {F}.
Arguments price {F}.
Arguments status {F}.
Arguments urgent {F}.
Arguments special_instructions {F}.
Arguments estimated_completion {F}.
Arguments created_at {F}.
Arguments updated_at {F}.
Abbreviation row := (row_of option).
Abbreviation values := (row_of supplied).

(** Column defaults; [tracking_id] has none, [status] defaults to
    ['confirmed']. *)
Definition defaults (fresh : uuid) (now : timestamptz) : row :=
  mk (Some fresh) None None None None (Some "{}") (Some "{}") (Some 0%Z)
     (Some "confirmed") (Some false) None None (Some now) (Some now).

Definition fill (v : values) (r : row) : row :=
  mk (or_else (id v) (id r)) (or_else (customer_id v) (customer_id r))
     (or_else (fabric_id v) (fabric_id r))
     (or_else (garment_id v) (garment_id r))
     (or_else (tracking_id v) (tracking_id r))
     (or_else (customizations_json v) (customizations_json r))
     (or_else (measurements_json v) (measurements_json r))
     (or_else (price v) (price r)) (or_else (status v) (status r))
     (or_else (urgent v) (urgent r))
     (or_else (special_instructions v) (special_instructions r))
     (or_else (estimated_completion v) (estimated_completion r))
     (or_else (created_at v) (created_at r))
     (or_else (updated_at v) (updated_at r)).

Definition nothing : values :=
  mk Omitted Omitted Omitted Omitted Omitted Omitted Omitted Omitted
     Omitted Omitted Omitted Omitted Omitted Omitted.

Definition set_updated_at (t : option timestamptz) (r : row) : row :=
  mk (id r) (customer_id r) (fabric_id r) (garment_id r) (tracking_id r)
     (customizations_json r) (measurements_json r) (price r) (status r)
     (urgent r) (special_instructions r) (estimated_completion r)
     (created_at r) t.

Definition set_tracking (t : option string) (r : row) : row :=
  mk (id r) (customer_id r) (fabric_id r) (garment_id r) t
     (customizations_json r) (measurements_json r) (price r) (status r)
     (urgent r) (special_instructions r) (estimated_completion r)
     (created_at r) (updated_at r).

Definition set_status {F : Type -> Type} (s : F string) (r : row_of F)
    : row_of F :=
  mk (id r) (customer_id r) (fabric_id r) (garment_id r) (tracking_id r)
     (customizations_json r) (measurements_json r) (price r) s
     (urgent r) (special_instructions r) (estimated_completion r)
     (created_at r) (updated_at r).

(** Value lists that name one column only. *)
Definition only_status (s : supplied string) : values :=
  mk Omitted Omitted Omitted Omitted Omitted Omitted Omitted Omitted
     s Omitted Omitted Omitted Omitted Omitted.

Definition only_updated_at (s : supplied timestamptz) : values :=
  mk Omitted Omitted Omitted Omitted Omitted Omitted Omitted Omitted
     Omitted Omitted Omitted Omitted Omitted s.

Definition only_tracking (s : supplied string) : values :=
  mk Omitted Omitted Omitted Omitted s Omitted Omitted Omitted
     Omitted Omitted Omitted Omitted Omitted Omitted.
End orders.

Record database : Type := mkdb {
  tbl_customers : list customers.row;
  tbl_fabrics : list fabrics.row;
  tbl_garments : list garments.row;
  tbl_orders : list orders.row }.

Definition empty_db : database := mkdb [] [] [] [].


(** ** Trigger functions *)

(** The rows that carry an [updated_at] column. *)
Class Timestamped (R : Type) : Type := {
  get_updated_at : R -> option timestamptz;
  with_updated_at : option timestamptz -> R -> R;
  get_with_updated_at :
    forall t r, get_updated_at (with_updated_at t r) = t }.

#[global] Instance customers_timestamped : Timestamped customers.row :=
  {| get_updated_at := customers.updated_at;
     with_updated_at := customers.set_updated_at;
     get_with_updated_at := fun _ _ => eq_refl |}.
#[global] Instance fabrics_timestamped : Timestamped fabrics.row :=
  {| get_updated_at := fabrics.updated_at;
     with_updated_at := fabrics.set_updated_at;
     get_with_updated_at := fun _ _ => eq_refl |}.
#[global] Instance garments_timestamped : Timestamped garments.row :=
  {| get_updated_at := garments.updated_at;
     with_updated_at := garments.set_updated_at;
     get_with_updated_at := fun _ _ => eq_refl |}.
#[global] Instance orders_timestamped : Timestamped orders.row :=
  {| get_updated_at := orders.updated_at;
     with_updated_at := orders.set_updated_at;
     get_with_updated_at := fun _ _ => eq_refl |}.

(** [update_updated_at_column()]: [NEW.updated_at = now(); RETURN NEW]. *)
Definition update_updated_at_column {R : Type} `{Timestamped R}
    (now : timestamptz) (NEW : R) : R :=
  with_updated_at (Some now) NEW.

(** [set_tracking_id()]:
    [IF NEW.tracking_id IS NULL OR NEW.tracking_id = '' THEN
       NEW.tracking_id = 'RT' || LPAD(EXTRACT(epoch FROM now())::text, 10, '0')]. *)
Definition set_tracking_id (now : timestamptz) (NEW : orders.row)
    : orders.row :=
  match orders.tracking_id NEW with
  | None | Some EmptyString =>
      orders.set_tracking
        (Some ("RT" ++ Pg.lpad (Pg.epoch_text now) 10 "0")%string) NEW
  | Some (String _ _) => NEW
  end.

(** ** Constraints *)

Inductive error : Type :=
| not_null_violation (table column : string)
| check_violation (constraint : string)
| unique_violation (constraint : string)
| foreign_key_violation (constraint : string)
| insufficient_privilege (table : string).

Definition require {A : Type} (v : option A) (table column : string)
    : list error :=
  match v with
  | None => [not_null_violation table column]
  | Some _ => []
  end.

(** The value list of [CHECK (status IN (...))]. *)
Definition order_statuses : list string :=
  ["confirmed"; "fabric_ready"; "cutting"; "stitching"; "embroidery";
   "quality_check"; "ready"; "completed"].

(** [status IN (...)] in SQL's three-valued logic: NULL on a NULL status. *)
Definition status_in (s : option string) : option bool :=
  option_map (fun v => existsb (String.eqb v) order_statuses) s.

(** A CHECK constraint is violated only when its expression is false. *)
Definition check_passes (b : option bool) : bool :=
  match b with
  | Some false => false
  | _ => true
  end.

Definition status_check (s : option string) : bool :=
  check_passes (status_in s).

Definition customers_row_violations (r : customers.row) : list error :=
  require (customers.id r) "customers" "id"
  ++ require (customers.name r) "customers" "name"
  ++ require (customers.phone r) "customers" "phone"
  ++ require (customers.email r) "customers" "email".

Definition fabrics_row_violations (r : fabrics.row) : list error :=
  require (fabrics.id r) "fabrics" "id"
  ++ require (fabrics.name r) "fabrics" "name"
  ++ require (fabrics.material r) "fabrics" "material"
  ++ require (fabrics.price_per_meter r) "fabrics" "price_per_meter"
  ++ require (fabrics.color r) "fabrics" "color"
  ++ require (fabrics.stock r) "fabrics" "stock".

Definition garments_row_violations (r : garments.row) : list error :=
  require (garments.id r) "garments" "id"
  ++ require (garments.name r) "garments" "name"
  ++ require (garments.category r) "garments" "category"
  ++ require (garments.base_price r) "garments" "base_price".

Definition orders_row_violations (r : orders.row) : list error :=
  require (orders.id r) "orders" "id"
  ++ require (orders.tracking_id r) "orders" "tracking_id"
  ++ require (orders.price r) "orders" "price"
  ++ (if status_check (orders.status r) then []
      else [check_violation "orders_status_check"]).

Definition key_eqb {K : Type} (eqb : K -> K -> bool) (k : K)
    (k' : option K) : bool :=
  match k' with
  | Some x => eqb k x
  | None => false
  end.

(** A unique index: the keys that are not NULL are pairwise distinct. *)
Fixpoint unique_keys {K : Type} (eqb : K -> K -> bool)
    (ks : list (option K)) : bool :=
  match ks with
  | [] => true
  | None :: rest => unique_keys eqb rest
  | Some k :: rest =>
      negb (existsb (key_eqb eqb k) rest) && unique_keys eqb rest
  end.

(** A foreign key (MATCH SIMPLE): NULL, or the key of a referenced row. *)
Definition references (k : option uuid) (ids : list (option uuid)) : bool :=
  match k with
  | None => true
  | Some v => existsb (key_eqb N.eqb v) ids
  end.

Definition unless (ok : bool) (e : error) : list error :=
  if ok then [] else [e].

(** All constraint violations of a candidate database state: row
    constraints (NOT NULL, CHECK) first, then the unique indexes, then the
    foreign keys, which PostgreSQL checks at the end of the statement. *)
Definition violations (d : database) : list error :=
  flat_map customers_row_violations (tbl_customers d)
  ++ flat_map fabrics_row_violations (tbl_fabrics d)
  ++ flat_map garments_row_violations (tbl_garments d)
  ++ flat_map orders_row_violations (tbl_orders d)
  ++ unless (unique_keys N.eqb (map customers.id (tbl_customers d)))
       (unique_violation "customers_pkey")
  ++ unless (unique_keys N.eqb (map fabrics.id (tbl_fabrics d)))
       (unique_violation "fabrics_pkey")
  ++ unless (unique_keys N.eqb (map garments.id (tbl_garments d)))
       (unique_violation "garments_pkey")
  ++ unless (unique_keys N.eqb (map orders.id (tbl_orders d)))
       (unique_violation "orders_pkey")
  ++ unless (unique_keys String.eqb (map orders.tracking_id (tbl_orders d)))
       (unique_violation "orders_tracking_id_key")
  ++ unless (forallb (fun o => references (orders.customer_id o)
                                 (map customers.id (tbl_customers d)))
               (tbl_orders d))
       (foreign_key_violation "orders_customer_id_fkey")
  ++ unless (forallb (fun o => references (orders.fabric_id o)
                                 (map fabrics.id (tbl_fabrics d)))
               (tbl_orders d))
       (foreign_key_violation "orders_fabric_id_fkey")
  ++ unless (forallb (fun o => references (orders.garment_id o)
                                 (map garments.id (tbl_garments d)))
               (tbl_orders d))
       (foreign_key_violation "orders_garment_id_fkey").

Inductive result : Type :=
| Ok (d : database)
| Rejected (e : error).

(** A statement takes effect only if the state it leads to violates no
    constraint; otherwise it is rejected with the first violation. *)
Definition commit (d' : database) : result :=
  match violations d' with
  | [] => Ok d'
  | e :: _ => Rejected e
  end.

(** A state without violations, constraint by constraint. *)
Record consistent (d : database) : Prop := {
  customers_rows_ok :
    forall r, In r (tbl_customers d) -> customers_row_violations r = [];
  fabrics_rows_ok :
    forall r, In r (tbl_fabrics d) -> fabrics_row_violations r = [];
  garments_rows_ok :
    forall r, In r (tbl_garments d) -> garments_row_violations r = [];
  orders_rows_ok :
    forall r, In r (tbl_orders d) -> orders_row_violations r = [];
  customers_pkey :
    unique_keys N.eqb (map customers.id (tbl_customers d)) = true;
  fabrics_pkey :
    unique_keys N.eqb (map fabrics.id (tbl_fabrics d)) = true;
  garments_pkey :
    unique_keys N.eqb (map garments.id (tbl_garments d)) = true;
  orders_pkey :
    unique_keys N.eqb (map orders.id (tbl_orders d)) = true;
  orders_tracking_id_key :
    unique_keys String.eqb (map orders.tracking_id (tbl_orders d)) = true;
  orders_customer_id_fkey :
    forallb (fun o => references (orders.customer_id o)
                        (map customers.id (tbl_customers d)))
      (tbl_orders d) = true;
  orders_fabric_id_fkey :
    forallb (fun o => references (orders.fabric_id o)
                        (map fabrics.id (tbl_fabrics d)))
      (tbl_orders d) = true;
  orders_garment_id_fkey :
    forallb (fun o => references (orders.garment_id o)
                        (map garments.id (tbl_garments d)))
      (tbl_orders d) = true }.

(** The database after a statement: unchanged when it was rejected. *)
Definition state_after (d : database) (r : result) : database :=
  match r with
  | Ok d' => d'
  | Rejected _ => d
  end.


(** ** Row level security *)

Inductive role : Type := anon | authenticated.
Inductive command : Type := ALL | SELECT | INSERT | UPDATE | DELETE.
Inductive table : Type := t_customers | t_fabrics | t_garments | t_orders.

Definition role_eqb (a b : role) : bool :=
  match a, b with
  | anon, anon | authenticated, authenticated => true
  | _, _ => false
  end.

Definition table_eqb (a b : table) : bool :=
  match a, b with
  | t_customers, t_customers | t_fabrics, t_fabrics
  | t_garments, t_garments | t_orders, t_orders => true
  | _, _ => false
  end.

(** A policy declared for [p] applies to command [c]. *)
Definition command_matches (p c : command) : bool :=
  match p, c with
  | ALL, _ => true
  | SELECT, SELECT | INSERT, INSERT | UPDATE, UPDATE | DELETE, DELETE => true
  | _, _ => false
  end.

(** The request context: a caller holding the public key only, or a
    signed-in caller with the identity and the [role] claim of the token. *)
Inductive caller : Type :=
| Anonymous
| Authenticated (uid : uuid) (role_claim : option string).

Definition current_role (c : caller) : role :=
  match c with
  | Anonymous => anon
  | Authenticated _ _ => authenticated
  end.

(** [auth.uid()] *)
Definition auth_uid (c : caller) : option uuid :=
  match c with
  | Anonymous => None
  | Authenticated uid _ => Some uid
  end.

(** [auth.jwt() ->> 'role'] *)
Definition auth_jwt_role (c : caller) : option string :=
  match c with
  | Anonymous => Some "anon"
  | Authenticated _ claim => claim
  end.

Inductive anyrow : Type :=
| customer_row (r : customers.row)
| fabric_row (r : fabrics.row)
| garment_row (r : garments.row)
| order_row (r : orders.row).

Definition table_of (r : anyrow) : table :=
  match r with
  | customer_row _ => t_customers
  | fabric_row _ => t_fabrics
  | garment_row _ => t_garments
  | order_row _ => t_orders
  end.

(** A policy expression: an SQL boolean (NULL is [None]) over the request
    context and the row. *)
Definition expr : Type := caller -> anyrow -> option bool.

(** [a = b]: NULL when either side is NULL. *)
Definition sql_eq {A : Type} (eqb : A -> A -> bool) (a b : option A)
    : option bool :=
  match a, b with
  | Some x, Some y => Some (eqb x y)
  | _, _ => None
  end.

(** [(true)] *)
Definition sql_true : expr := fun _ _ => Some true.

(** [(auth.uid()::text = id::text)] on [customers] *)
Definition uid_is_id : expr := fun c r =>
  match r with
  | customer_row cu => sql_eq N.eqb (auth_uid c) (customers.id cu)
  | _ => None
  end.

(** [(customer_id = auth.uid())] on [orders] *)
Definition customer_id_is_uid : expr := fun c r =>
  match r with
  | order_row o => sql_eq N.eqb (orders.customer_id o) (auth_uid c)
  | _ => None
  end.

(** [(auth.jwt() ->> 'role' = 'admin')] *)
Definition jwt_role_is_admin : expr := fun c _ =>
  sql_eq String.eqb (auth_jwt_role c) (Some "admin").

(** A [CREATE POLICY] statement, with the field names of [pg_policy]:
    [polqual] is the USING expression, [polwithcheck] the WITH CHECK
    expression. *)
Record policy : Type := mkpolicy {
  polname : string;
  polrelid : table;
  polcmd : command;
  polroles : list role;
  polqual : option expr;
  polwithcheck : option expr }.

(** The eleven [CREATE POLICY] statements of the migration, in order. *)
Definition migration_policies : list policy :=
  [ mkpolicy "Anyone can insert customer data" t_customers INSERT
      [anon; authenticated] None (Some sql_true);
    mkpolicy "Customers can view their own data" t_customers SELECT
      [authenticated] (Some uid_is_id) None;
    mkpolicy "Admins can view all customers" t_customers ALL
      [authenticated] (Some jwt_role_is_admin) None;
    mkpolicy "Anyone can view fabrics" t_fabrics SELECT
      [anon; authenticated] None (Some sql_true);
    mkpolicy "Admins can manage fabrics" t_fabrics ALL
      [authenticated] (Some jwt_role_is_admin) None;
    mkpolicy "Anyone can view garments" t_garments SELECT
      [anon; authenticated] None (Some sql_true);
    mkpolicy "Admins can manage garments" t_garments ALL
      [authenticated] (Some jwt_role_is_admin) None;
    mkpolicy "Anyone can track orders by tracking_id" t_orders SELECT
      [anon; authenticated] None (Some sql_true);
    mkpolicy "Customers can create orders" t_orders INSERT
      [anon; authenticated] None (Some sql_true);
    mkpolicy "Customers can view their own orders" t_orders SELECT
      [authenticated] (Some customer_id_is_uid) None;
    mkpolicy "Admins can manage all orders" t_orders ALL
      [authenticated] (Some jwt_role_is_admin) None ].

(** What [CREATE POLICY] accepts: PostgreSQL raises "WITH CHECK cannot be
    applied to SELECT or DELETE" for a SELECT or DELETE policy that has a
    WITH CHECK expression, and "only WITH CHECK expression allowed for
    INSERT" for an INSERT policy that has a USING expression. *)
Definition create_policy_accepts (p : policy) : bool :=
  match polcmd p with
  | SELECT | DELETE =>
      match polwithcheck p with Some _ => false | None => true end
  | INSERT =>
      match polqual p with Some _ => false | None => true end
  | ALL | UPDATE => true
  end.

(** The policies in force after the migration: a rejected statement
    creates nothing, the statements after it still run. *)
Definition pg_policy : list policy :=
  filter create_policy_accepts migration_policies.

Definition is_true (b : option bool) : bool :=
  match b with
  | Some true => true
  | _ => false
  end.

(** One row-level request. *)
Inductive request : Type :=
| req_select (r : anyrow)
| req_insert (new : anyrow)
| req_update (old new : anyrow)
| req_delete (r : anyrow).

Section RowSecurity.

Variable pols : list policy.

(** The permissive policies of the row's table that apply to the caller's
    role and to the command. *)
Definition applicable (c : caller) (cmd : command) (r : anyrow)
    : list policy :=
  filter (fun p => table_eqb (polrelid p) (table_of r)
                   && command_matches (polcmd p) cmd
                   && existsb (role_eqb (current_role c)) (polroles p))
    pols.

Definition passes_using (c : caller) (r : anyrow) (p : policy) : bool :=
  match polqual p with
  | Some e => is_true (e c r)
  | None => true
  end.

(** Without a WITH CHECK expression the USING expression is checked. *)
Definition passes_check (c : caller) (r : anyrow) (p : policy) : bool :=
  match polwithcheck p with
  | Some e => is_true (e c r)
  | None => passes_using c r p
  end.

(** Row level security is enabled on all four tables: an existing row is
    visible to a command, and a new row is accepted, if some applicable
    policy passes; with no applicable policy the default is to deny. *)
Definition rls_using (c : caller) (cmd : command) (r : anyrow) : bool :=
  existsb (passes_using c r) (applicable c cmd r).

Definition rls_check (c : caller) (cmd : command) (r : anyrow) : bool :=
  existsb (passes_check c r) (applicable c cmd r).

(** The authorization decision for one request. *)
Definition authorized (c : caller) (q : request) : bool :=
  match q with
  | req_select r => rls_using c SELECT r
  | req_insert new => rls_check c INSERT new
  | req_update old new => rls_using c UPDATE old && rls_check c UPDATE new
  | req_delete r => rls_using c DELETE r
  end.

End RowSecurity.

(** ** Statements *)

Inductive statement : Type :=
| insert_customers (v : customers.values)
| insert_fabrics (v : fabrics.values)
| insert_garments (v : garments.values)
| insert_orders (v : orders.values)
| update_customers (set : customers.values) (where_ : customers.row -> bool)
| update_fabrics (set : fabrics.values) (where_ : fabrics.row -> bool)
| update_garments (set : garments.values) (where_ : garments.row -> bool)
| update_orders (set : orders.values) (where_ : orders.row -> bool)
| delete_customers (where_ : customers.row -> bool)
| delete_fabrics (where_ : fabrics.row -> bool)
| delete_garments (where_ : garments.row -> bool)
| delete_orders (where_ : orders.row -> bool).

Definition with_customers (l : list customers.row) (d : database) :=
  mkdb l (tbl_fabrics d) (tbl_garments d) (tbl_orders d).
Definition with_fabrics (l : list fabrics.row) (d : database) :=
  mkdb (tbl_customers d) l (tbl_garments d) (tbl_orders d).
Definition with_garments (l : list garments.row) (d : database) :=
  mkdb (tbl_customers d) (tbl_fabrics d) l (tbl_orders d).
Definition with_orders (l : list orders.row) (d : database) :=
  mkdb (tbl_customers d) (tbl_fabrics d) (tbl_garments d) l.

Section Execution.

Variable c : caller.
Variable now : timestamptz.
Variable fresh : uuid.

(** INSERT: column defaults, then the BEFORE INSERT triggers, then the
    WITH CHECK policies, then the constraints. *)
Definition insert_row {R : Type} (wrap : R -> anyrow) (tname : string)
    (new : R) (store : R -> database) : result :=
  if rls_check pg_policy c INSERT (wrap new) then commit (store new)
  else Rejected (insufficient_privilege tname).

(** The rows an UPDATE or DELETE acts on: those its WHERE clause selects
    among the rows the USING policies let the command see.  (The SELECT
    policies that PostgreSQL applies as well when the WHERE clause reads
    a column admit every such row: only the administrators' ALL policies
    admit a row to UPDATE or DELETE.) *)
Definition targets {R : Type} (wrap : R -> anyrow) (cmd : command)
    (where_ : R -> bool) (r : R) : bool :=
  where_ r && rls_using pg_policy c cmd (wrap r).

(** UPDATE: the SET list, then the BEFORE UPDATE trigger
    [update_updated_at_column], on every target row; each new row must
    pass the WITH CHECK policies. *)
Definition updated {R : Type} `{Timestamped R} (wrap : R -> anyrow)
    (fill : R -> R) (where_ : R -> bool) (r : R) : R :=
  if targets wrap UPDATE where_ r
  then update_updated_at_column now (fill r)
  else r.

Definition update_rows {R : Type} `{Timestamped R} (wrap : R -> anyrow)
    (tname : string) (fill : R -> R) (where_ : R -> bool) (rows : list R)
    (store : list R -> database) : result :=
  if forallb (fun r => negb (targets wrap UPDATE where_ r)
                       || rls_check pg_policy c UPDATE
                            (wrap (updated wrap fill where_ r))) rows
  then commit (store (map (updated wrap fill where_) rows))
  else Rejected (insufficient_privilege tname).

Definition remaining {R : Type} (wrap : R -> anyrow) (where_ : R -> bool)
    (rows : list R) : list R :=
  filter (fun r => negb (targets wrap DELETE where_ r)) rows.

(** [ON DELETE CASCADE] of [orders.customer_id]: the orders that
    reference none of the deleted customers. *)
Definition cascade (deleted : list customers.row) (os : list orders.row)
    : list orders.row :=
  filter (fun o =>
            match orders.customer_id o with
            | None => true
            | Some k => negb (existsb (key_eqb N.eqb k)
                                (map customers.id deleted))
            end) os.

Definition exec (st : statement) (d : database) : result :=
  match st with
  | insert_customers v =>
      insert_row customer_row "customers"
        (customers.fill v (customers.defaults fresh now))
        (fun new => with_customers (tbl_customers d ++ [new]) d)
  | insert_fabrics v =>
      insert_row fabric_row "fabrics"
        (fabrics.fill v (fabrics.defaults fresh now))
        (fun new => with_fabrics (tbl_fabrics d ++ [new]) d)
  | insert_garments v =>
      insert_row garment_row "garments"
        (garments.fill v (garments.defaults fresh now))
        (fun new => with_garments (tbl_garments d ++ [new]) d)
  | insert_orders v =>
      insert_row order_row "orders"
        (set_tracking_id now (orders.fill v (orders.defaults fresh now)))
        (fun new => with_orders (tbl_orders d ++ [new]) d)
  | update_customers set where_ =>
      update_rows customer_row "customers" (customers.fill set) where_
        (tbl_customers d) (fun l => with_customers l d)
  | update_fabrics set where_ =>
      update_rows fabric_row "fabrics" (fabrics.fill set) where_
        (tbl_fabrics d) (fun l => with_fabrics l d)
  | update_garments set where_ =>
      update_rows garment_row "garments" (garments.fill set) where_
        (tbl_garments d) (fun l => with_garments l d)
  | update_orders set where_ =>
      update_rows order_row "orders" (orders.fill set) where_
        (tbl_orders d) (fun l => with_orders l d)
  | delete_customers where_ =>
      commit
        (mkdb (remaining customer_row where_ (tbl_customers d))
           (tbl_fabrics d) (tbl_garments d)
           (cascade (filter (targets customer_row DELETE where_)
                       (tbl_customers d))
              (tbl_orders d)))
  | delete_fabrics where_ =>
      commit (with_fabrics (remaining fabric_row where_ (tbl_fabrics d)) d)
  | delete_garments where_ =>
      commit
        (with_garments (remaining garment_row where_ (tbl_garments d)) d)
  | delete_orders where_ =>
      commit (with_orders (remaining order_row where_ (tbl_orders d)) d)
  end.

End Execution.

(** Two order rows that agree on every column a key or a NOT NULL
    constraint mentions. *)
Definition agree (r r' : orders.row) : Prop :=
  orders.id r' = orders.id r
  /\ orders.customer_id r' = orders.customer_id r
  /\ orders.fabric_id r' = orders.fabric_id r
  /\ orders.garment_id r' = orders.garment_id r
  /\ orders.tracking_id r' = orders.tracking_id r
  /\ orders.price r' = orders.price r.

(** The statements that write the [tracking_id] of stored orders. *)
Definition assigns_tracking (st : statement) : Prop :=
  match st with
  | update_orders set _ => orders.tracking_id set <> Omitted
  | _ => False
  end.

(** [rows'] is [rows] after an UPDATE at time [now] of the rows [hit]:
    every target row carries [now] as its [updated_at], which is later
    than the value it replaces whenever the clock is; the other rows are
    as they were. *)
Definition stamped {R : Type} `{Timestamped R} (now : timestamptz)
    (hit : R -> bool) (rows rows' : list R) : Prop :=
  Forall2 (fun r r' =>
             if hit r then
               get_updated_at r' = Some now
               /\ (forall t, get_updated_at r = Some t -> (t < now)%Z ->
                   exists t', get_updated_at r' = Some t' /\ (t < t')%Z)
             else r' = r)
    rows rows'.

(** The states the store can be in: the empty schema, and whatever a
    committed statement of any caller, at any time, leads to. *)
Inductive reachable : database -> Prop :=
| reachable_empty : reachable empty_db
| reachable_exec (d d' : database) (c : caller) (now : timestamptz)
    (fresh : uuid) (st : statement) :
    reachable d -> exec c now fresh st d = Ok d' -> reachable d'.

(** ** The claims' wording, for comparison with the code *)

Definition no_tracking_supplied (v : orders.values) : Prop :=
  orders.tracking_id v = Omitted
  \/ orders.tracking_id v = Supplied None
  \/ orders.tracking_id v = Supplied (Some "").

(** The tracking code as the specification words it: ["RT"] followed by
    the whole seconds of the epoch time, zero-padded to 10 digits. *)
Definition spec_tracking_code (now : timestamptz) : string :=
  "RT" ++ Pg.lpad (Pg.decimal (Z.to_N (Pg.epoch_seconds now))) 10 "0".

(** The clock values whose whole seconds have exactly ten digits
    (2001-09-09 to 2286-11-20). *)
Definition ten_digit_epoch (now : timestamptz) : Prop :=
  (1000000000 <= Pg.epoch_seconds now < 10000000000)%Z.

(** The three caller classes of the access rule table. *)
Inductive caller_class : Type :=
| anonymous
| end_user (uid : uuid)
| administrator.

Definition class_of (c : caller) : caller_class :=
  match c with
  | Anonymous => anonymous
  | Authenticated uid claim =>
      if is_true (sql_eq String.eqb claim (Some "admin"))
      then administrator else end_user uid
  end.

(** The rule table as the specification words it: what an anonymous
    caller may do, what an end user may do in addition, and everything
    for an administrator. *)
Definition spec_anonymous_may (q : request) : bool :=
  match q with
  | req_insert (customer_row _) | req_insert (order_row _) => true
  | req_select (fabric_row _) | req_select (garment_row _)
  | req_select (order_row _) => true
  | _ => false
  end.

Definition spec_own (uid : uuid) (q : request) : bool :=
  match q with
  | req_select (customer_row r) => key_eqb N.eqb uid (customers.id r)
  | req_select (order_row o) => key_eqb N.eqb uid (orders.customer_id o)
  | _ => false
  end.

Definition spec_authorized (c : caller) (q : request) : bool :=
  match class_of c with
  | anonymous => spec_anonymous_may q
  | end_user uid => spec_anonymous_may q || spec_own uid q
  | administrator => true
  end.

Definition is_select (q : request) : bool :=
  match q with
  | req_select _ => true
  | _ => false
  end.

(** The policy a rejected [FOR SELECT ... WITH CHECK (e)] statement was
    written for: the same policy with [USING (e)]. *)
Definition with_using (p : policy) : policy :=
  match polcmd p, polqual p with
  | SELECT, None =>
      mkpolicy (polname p) (polrelid p) SELECT (polroles p)
        (polwithcheck p) None
  | _, _ => p
  end.

(** ** The list screens *)

(** [String.prototype.toLowerCase] is the host's function, over all of
    Unicode; the screens below take it as a parameter [toLowerCase], and
    what is proved of them holds whatever that function is. *)

Module Js.

(** [s.includes(t)].  A string is its UTF-8 text; in well-formed text a
    substring occurs as characters exactly where it occurs as bytes. *)
Fixpoint includes (s t : string) : bool :=
  String.prefix t s
  || match s with
     | EmptyString => false
     | String _ rest => includes rest t
     end.

(** A string used as a condition: true unless empty. *)
Definition truthy (s : string) : bool :=
  match s with
  | EmptyString => false
  | String _ _ => true
  end.

End Js.

(** [String.prototype.trim] is the host's as well, and is taken as a
    parameter [trim] where the screens use it. *)

(** Text of ASCII characters only.  There the host's [toLowerCase] maps
    [A] to [Z] onto [a] to [z] and leaves every other character as it is,
    and the host's [trim] removes tab, line feed, vertical tab, form feed,
    carriage return and space from both ends.  These functions stand for
    the host's in the examples, all of which are ASCII text; nothing
    general is stated of them. *)
Module AsciiText.

Definition lower (a : ascii) : ascii :=
  let n := nat_of_ascii a in
  if Nat.leb 65 n && Nat.leb n 90 then ascii_of_nat (n + 32) else a.

Fixpoint toLowerCase (s : string) : string :=
  match s with
  | EmptyString => EmptyString
  | String a rest => String (lower a) (toLowerCase rest)
  end.

Definition is_space (a : ascii) : bool :=
  let n := nat_of_ascii a in
  (Nat.leb 9 n && Nat.leb n 13) || Nat.eqb n 32.

Fixpoint trimStart (s : string) : string :=
  match s with
  | EmptyString => EmptyString
  | String a rest => if is_space a then trimStart rest else s
  end.

Fixpoint rev (s acc : string) : string :=
  match s with
  | EmptyString => acc
  | String a rest => rev rest (String a acc)
  end.

Definition trim (s : string) : string :=
  rev (trimStart (rev (trimStart s) "")) "".

End AsciiText.

Module Fabric.
(** Modelled from the spec: the [Fabric] type of [src/types] is not among
    the sources; its fields are the attributes of the Fabric entity of the
    data model, as the fabrics screen reads and writes them. *)
Record t : Type := mk {
  id : string;
  name : string;
  material : string;
  price_per_meter : Z;
  color : string;
  stock : Z;
  images_json : list string;
  featured : bool;
  description : string;
  created_at : string }.
End Fabric.

Module Garment.
(** Modelled from the spec: the [Garment] type of [src/types] is not among
    the sources; its fields are the attributes of the Garment entity of
    the data model, as the garment screens read and write them. *)
Record t : Type := mk {
  id : string;
  name : string;
  category : string;
  base_price : Z;
  description : string;
  image_url : string;
  customization_options : string;
  created_at : string }.
End Garment.

(** [src/pages/admin/Fabrics.tsx] *)
Module AdminFabrics.
Import Js.

Section Filter.

Variable toLowerCase : string -> string.

Definition filterFabrics (fabrics : list Fabric.t)
    (searchTerm materialFilter : string) : list Fabric.t :=
  let filtered := fabrics in
  let filtered :=
    if truthy searchTerm then
      filter (fun fabric =>
                includes (toLowerCase (Fabric.name fabric))
                  (toLowerCase searchTerm)
                || includes (toLowerCase (Fabric.material fabric))
                     (toLowerCase searchTerm)
                || includes (toLowerCase (Fabric.color fabric))
                     (toLowerCase searchTerm))
        filtered
    else filtered in
  let filtered :=
    if negb (String.eqb materialFilter "all") then
      filter (fun fabric => String.eqb (Fabric.material fabric)
                              materialFilter) filtered
    else filtered in
  filtered.

End Filter.

(** [{ ...f, featured: !f.featured }] *)
Definition flip (f : Fabric.t) : Fabric.t :=
  Fabric.mk (Fabric.id f) (Fabric.name f) (Fabric.material f)
    (Fabric.price_per_meter f) (Fabric.color f) (Fabric.stock f)
    (Fabric.images_json f) (negb (Fabric.featured f))
    (Fabric.description f) (Fabric.created_at f).

(** [toggleFeatured]: the new value of the [fabrics] state.  [error] is
    what the awaited update of the store reports; a missing fabric
    returns early and an error is caught, both without [setFabrics]. *)
Definition toggleFeatured (fabrics : list Fabric.t) (fabricId : string)
    (error : option string) : list Fabric.t :=
  match find (fun f => String.eqb (Fabric.id f) fabricId) fabrics with
  | None => fabrics
  | Some fabric =>
      match error with
      | Some _ => fabrics
      | None =>
          map (fun f => if String.eqb (Fabric.id f) fabricId
                        then flip f else f) fabrics
      end
  end.

End AdminFabrics.

(** The public garments page *)
Module Garments.
Import Js.

Section Filter.

Variable toLowerCase : string -> string.

Definition filterGarments (garments : list Garment.t)
    (searchTerm selectedCategory : string) : list Garment.t :=
  let filtered := garments in
  let filtered :=
    if truthy searchTerm then
      filter (fun garment =>
                includes (toLowerCase (Garment.name garment))
                  (toLowerCase searchTerm)
                || includes (toLowerCase (Garment.category garment))
                     (toLowerCase searchTerm)
                || includes (toLowerCase (Garment.description garment))
                     (toLowerCase searchTerm))
        filtered
    else filtered in
  let filtered :=
    if negb (String.eqb selectedCategory "all") then
      filter (fun garment => String.eqb (Garment.category garment)
                               selectedCategory) filtered
    else filtered in
  filtered.

End Filter.

End Garments.

(** [src/pages/admin/Products.tsx] *)
Module AdminProducts.
Import Js.

Section Filter.

Variable toLowerCase : string -> string.

Definition filterGarments (garments : list Garment.t)
    (searchTerm categoryFilter : string) : list Garment.t :=
  let filtered := garments in
  let filtered :=
    if truthy searchTerm then
      filter (fun garment =>
                includes (toLowerCase (Garment.name garment))
                  (toLowerCase searchTerm)
                || includes (toLowerCase (Garment.category garment))
                     (toLowerCase searchTerm))
        filtered
    else filtered in
  let filtered :=
    if negb (String.eqb categoryFilter "all") then
      filter (fun garment => String.eqb (Garment.category garment)
                               categoryFilter) filtered
    else filtered in
  filtered.

End Filter.

End AdminProducts.

(** The fields of a fabric other than [featured]. *)
Definition same_but_featured (f f' : Fabric.t) : Prop :=
  Fabric.id f' = Fabric.id f
  /\ Fabric.name f' = Fabric.name f
  /\ Fabric.material f' = Fabric.material f
  /\ Fabric.price_per_meter f' = Fabric.price_per_meter f
  /\ Fabric.color f' = Fabric.color f
  /\ Fabric.stock f' = Fabric.stock f
  /\ Fabric.images_json f' = Fabric.images_json f
  /\ Fabric.description f' = Fabric.description f
  /\ Fabric.created_at f' = Fabric.created_at f.

(** The search term occurs in the field, letter case ignored: the
    lower-cased term is a substring of the lower-cased field. *)
Definition occurs_in (toLowerCase : string -> string)
    (term field : string) : Prop :=
  exists pre post : string,
    toLowerCase field = (pre ++ toLowerCase term ++ post)%string.

(** ** The rest of the migration's surface *)

(** The table a statement is addressed to. *)
Definition table_of_statement (st : statement) : table :=
  match st with
  | insert_customers _ | update_customers _ _ | delete_customers _ =>
      t_customers
  | insert_fabrics _ | update_fabrics _ _ | delete_fabrics _ => t_fabrics
  | insert_garments _ | update_garments _ _ | delete_garments _ =>
      t_garments
  | insert_orders _ | update_orders _ _ | delete_orders _ => t_orders
  end.

Definition is_update_or_delete (st : statement) : bool :=
  match st with
  | insert_customers _ | insert_fabrics _ | insert_garments _
  | insert_orders _ => false
  | _ => true
  end.

(** The pattern of a tracking code: an ASCII decimal digit. *)
Definition is_digit (a : ascii) : bool :=
  let n := nat_of_ascii a in Nat.leb 48 n && Nat.leb n 57.

Fixpoint all_digits (s : string) : bool :=
  match s with
  | EmptyString => true
  | String a rest => is_digit a && all_digits rest
  end.

(** ** The rest of the list screens *)

(** [[...new Set(xs)]]: the elements of [xs] in the order of their first
    occurrence; a [Set] keeps insertion order and ignores a value it
    already holds. *)
Definition set_add (acc : list string) (x : string) : list string :=
  if existsb (String.eqb x) acc then acc else acc ++ [x].

Definition spread_set (xs : list string) : list string :=
  fold_left set_add xs [].

(** [xs.reduce((sum, x) => sum + x, 0)] over whole numbers. *)
Definition sum_of (xs : list Z) : Z := fold_left Z.add xs 0%Z.

(** The state and the handlers of [AdminFabrics] around the collection
    ([src/pages/admin/Fabrics.tsx]). *)
Module AdminFabricsPage.
Import Js.

(** [const materials = [...new Set(fabrics.map(f => f.material))]] *)
Definition materials (fabrics : list Fabric.t) : list string :=
  spread_set (map Fabric.material fabrics).

(** The figures of the statistics cards that are whole numbers. *)
Definition totalFabrics (fabrics : list Fabric.t) : nat :=
  List.length fabrics.

Definition featuredCount (fabrics : list Fabric.t) : nat :=
  List.length (filter Fabric.featured fabrics).

Definition totalStock (fabrics : list Fabric.t) : Z :=
  sum_of (map Fabric.stock fabrics).

(** The [newFabric] form. *)
Record form : Type := mkform {
  name : string;
  material : string;
  price_per_meter : Z;
  color : string;
  stock : Z;
  description : string;
  featured : bool;
  images_json : list string }.

Definition blank : form := mkform "" "" 0 "" 0 "" false [""].

Record state : Type := mkstate {
  fabrics : list Fabric.t;
  isAddModalOpen : bool;
  newFabric : form }.

(** What the awaited [insert(...).select().single()] resolves to. *)
Inductive response : Type :=
| inserted (data : Fabric.t)
| failed (error : string).

(** The object [handleAddFabric] passes to [insert]:
    [images_json.filter(img => img.trim() !== '')], the other fields as
    they are. *)
Definition payload (trim : string -> string) (f : form) : form :=
  mkform (name f) (material f) (price_per_meter f) (color f) (stock f)
    (description f) (featured f)
    (filter (fun img => negb (String.eqb (trim img) "")) (images_json f)).

(** The guard of [handleAddFabric]:
    [!newFabric.name || !newFabric.material || !newFabric.color]. *)
Definition incomplete (f : form) : bool :=
  negb (truthy (name f)) || negb (truthy (material f))
  || negb (truthy (color f)).

(** [handleAddFabric]: the state it leaves and the alert it raises, given
    what the store answers when it is asked. *)
Definition handleAddFabric (s : state) (r : response)
    : state * option string :=
  if incomplete (newFabric s)
  then (s, Some "Please fill in all required fields")
  else
    match r with
    | failed _ => (s, Some "Error adding fabric. Please try again.")
    | inserted data => (mkstate (data :: fabrics s) false blank, None)
    end.

(** The payload holds values of the column types: a 32-bit [stock] and
    text without NUL.  The store refuses any other payload before a row is
    formed. *)
Definition storable (p : form) : bool :=
  int4 (stock p)
  && pg_text (name p) && pg_text (material p) && pg_text (color p)
  && pg_text (description p) && forallb pg_text (images_json p).

(** The INSERT that a storable payload amounts to: the columns the
    object names, the other columns left to their defaults.  [json]
    renders the image list as a JSON array. *)
Definition insert_values (trim : string -> string)
    (json : list string -> jsonb) (f : form) : fabrics.values :=
  let p := payload trim f in
  fabrics.mk (F := supplied) Omitted
    (Supplied (Some (name p))) (Supplied (Some (material p)))
    (Supplied (Some (price_per_meter p))) (Supplied (Some (color p)))
    (Supplied (Some (stock p))) (Supplied (Some (json (images_json p))))
    (Supplied (Some (featured p))) (Supplied (Some (description p)))
    Omitted Omitted.

End AdminFabricsPage.

(** The public garments page, around the collection. *)
Module GarmentsPage.

(** [const categories = [...new Set(garments.map(g => g.category))]] *)
Definition categories (garments : list Garment.t) : list string :=
  spread_set (map Garment.category garments).

End GarmentsPage.

(** The state and the handlers of [AdminProducts] around the collection
    ([src/pages/admin/Products.tsx]). *)
Module AdminProductsPage.
Import Js.

Definition categories (garments : list Garment.t) : list string :=
  spread_set (map Garment.category garments).

(** [garments.filter(g => g.category === category).length] *)
Definition countIn (garments : list Garment.t) (category : string) : nat :=
  List.length
    (filter (fun g => String.eqb (Garment.category g) category) garments).

(** The category cards: [categories.slice(0, 3)] with their counts. *)
Definition categoryCards (garments : list Garment.t)
    : list (string * nat) :=
  map (fun category => (category, countIn garments category))
    (firstn 3 (categories garments)).

Record form : Type := mkform {
  name : string;
  category : string;
  base_price : Z;
  description : string;
  image_url : string;
  customization_options : string }.

Definition blank : form := mkform "" "" 0 "" "" "{}".

Record state : Type := mkstate {
  garments : list Garment.t;
  isAddModalOpen : bool;
  newGarment : form }.

Inductive response : Type :=
| inserted (data : Garment.t)
| failed (error : string).

(** The guard of [handleAddGarment]:
    [!newGarment.name || !newGarment.category]. *)
Definition incomplete (f : form) : bool :=
  negb (truthy (name f)) || negb (truthy (category f)).

(** [handleAddGarment], as [handleAddFabric] above.  (The screen has
    the handler on the button of its dialog; nothing on the screen sets
    [isAddModalOpen] to [true].) *)
Definition handleAddGarment (s : state) (r : response)
    : state * option string :=
  if incomplete (newGarment s)
  then (s, Some "Please fill in all required fields")
  else
    match r with
    | failed _ => (s, Some "Error adding garment. Please try again.")
    | inserted data => (mkstate (data :: garments s) false blank, None)
    end.

End AdminProductsPage.

(** * Proofs *)

(** ** Facts about the text functions *)

Lemma length_append (a b : string) :
  String.length (a ++ b)%string = String.length a + String.length b.
Proof. induction a as [|x a IH]; simpl; [reflexivity | now rewrite IH]. Qed.

Lemma substring_whole (a : string) :
  substring 0 (String.length a) a = a.
Proof. induction a as [|x a IH]; simpl; [reflexivity | now rewrite IH]. Qed.

Lemma substring_append (n : nat) : forall a b : string,
  n <= String.length a ->
  substring 0 n (a ++ b)%string = substring 0 n a.
Proof.
  induction n as [|n IH]; intros [|x a] b Hn; simpl in *;
    try reflexivity; try lia.
  - now destruct b.
  - rewrite IH by lia. reflexivity.
Qed.

Lemma to_digits_grows (f : nat) : forall (n : N) (acc : string),
  String.length acc <= String.length (Pg.to_digits f n acc).
Proof.
  induction f as [|f IH]; intros n acc; simpl; [lia|].
  destruct (n <? 10)%N; simpl; [lia|].
  specialize (IH (n / 10)%N (String (Pg.digit (n mod 10)) acc)).
  simpl in IH. lia.
Qed.

Lemma to_digits_length_ge (k : nat) : forall (f : nat) (n : N) (acc : string),
  k < f -> (10 ^ N.of_nat k <= n)%N ->
  k + 1 + String.length acc <= String.length (Pg.to_digits f n acc).
Proof.
  induction k as [|k IH]; intros [|f] n acc Hf Hn; try lia.
  - simpl. destruct (n <? 10)%N; simpl; [lia|].
    pose proof (to_digits_grows f (n / 10)%N
                  (String (Pg.digit (n mod 10)) acc)) as H.
    simpl in H. lia.
  - rewrite Nat2N.inj_succ, N.pow_succ_r' in Hn.
    pose proof (N.pow_nonzero 10 (N.of_nat k)) as Hpos.
    simpl. destruct (N.ltb_spec n 10) as [Hlt|Hge]; [lia|].
    assert (Hq : (10 ^ N.of_nat k <= n / 10)%N)
      by (apply N.div_le_lower_bound; lia).
    specialize (IH f (n / 10)%N (String (Pg.digit (n mod 10)) acc)
                  ltac:(lia) Hq).
    simpl in IH. lia.
Qed.

Lemma to_digits_length_le (k : nat) : forall (f : nat) (n : N) (acc : string),
  (n < 10 ^ N.of_nat (S k))%N ->
  String.length (Pg.to_digits f n acc) <= k + 1 + String.length acc.
Proof.
  induction k as [|k IH]; intros [|f] n acc Hn; simpl Pg.to_digits; try lia.
  - change (10 ^ N.of_nat 1)%N with 10%N in Hn.
    destruct (N.ltb_spec n 10) as [Hlt|Hge]; [simpl; lia | lia].
  - rewrite Nat2N.inj_succ, N.pow_succ_r' in Hn.
    destruct (N.ltb_spec n 10) as [Hlt|Hge]; [simpl; lia|].
    assert (Hq : (n / 10 < 10 ^ N.of_nat (S k))%N)
      by (apply N.Div0.div_lt_upper_bound; lia).
    specialize (IH f (n / 10)%N (String (Pg.digit (n mod 10)) acc) Hq).
    simpl in IH. lia.
Qed.

Lemma log2_fuel (k : nat) (n : N) :
  (10 ^ N.of_nat k <= n)%N -> k < S (N.to_nat (N.log2 n)).
Proof.
  intros Hn.
  assert (H2 : (2 ^ N.of_nat k <= 10 ^ N.of_nat k)%N)
    by (apply N.pow_le_mono_l; lia).
  pose proof (N.pow_nonzero 2 (N.of_nat k)) as Hpos.
  assert (Hk : (N.of_nat k <= N.log2 n)%N)
    by (apply N.log2_le_pow2; lia).
  lia.
Qed.

(** A number of at least [k + 1] digits. *)
Lemma decimal_length_ge (k : nat) (n : N) :
  (10 ^ N.of_nat k <= n)%N -> k + 1 <= String.length (Pg.decimal n).
Proof.
  intros Hn. unfold Pg.decimal.
  pose proof (to_digits_length_ge k _ n "" (log2_fuel k n Hn) Hn) as H.
  cbn [String.length] in H. lia.
Qed.

Lemma decimal_length (k : nat) (n : N) :
  (10 ^ N.of_nat k <= n < 10 ^ N.of_nat (S k))%N ->
  String.length (Pg.decimal n) = k + 1.
Proof.
  intros [Hlo Hhi].
  pose proof (decimal_length_ge k n Hlo) as Hge.
  pose proof (to_digits_length_le k (S (N.to_nat (N.log2 n))) n "" Hhi) as H.
  unfold Pg.decimal in *. cbn [String.length] in H. lia.
Qed.

Lemma lpad_exact (s : string) :
  Pg.lpad s (String.length s) "0" = s.
Proof.
  unfold Pg.lpad. rewrite Nat.leb_refl. apply substring_whole.
Qed.

(** Padding to the length of a prefix keeps that prefix only. *)
Lemma lpad_prefix (n : nat) (a b : string) :
  n <= String.length a ->
  Pg.lpad (a ++ b)%string n "0" = Pg.lpad a n "0".
Proof.
  intros Hn. unfold Pg.lpad. rewrite length_append.
  destruct (Nat.leb_spec n (String.length a)); [|lia].
  destruct (Nat.leb_spec n (String.length a + String.length b)); [|lia].
  now apply substring_append.
Qed.

(** The text of a non-negative epoch starts with its whole seconds. *)
Lemma epoch_text_nonneg (t : timestamptz) :
  (0 <= t)%Z ->
  exists frac : string,
    Pg.epoch_text t
    = (Pg.decimal (Z.to_N (Pg.epoch_seconds t)) ++ frac)%string.
Proof.
  intros Ht. unfold Pg.epoch_text, Pg.epoch_seconds.
  destruct (Z.ltb_spec t 0) as [|_]; [lia|].
  eexists. simpl String.append at 1.
  replace (Z.abs_N t / 1000000)%N with (Z.to_N (t / 1000000)).
  - reflexivity.
  - rewrite Z2N.inj_div by lia. rewrite Zabs2N.abs_N_nonneg by lia.
    reflexivity.
Qed.

Lemma epoch_seconds_nonneg (t : timestamptz) :
  (0 <= Pg.epoch_seconds t)%Z -> (0 <= t)%Z.
Proof.
  unfold Pg.epoch_seconds. intros H.
  destruct (Z.ltb_spec t 0) as [Hneg|]; [|assumption].
  assert (t / 1000000 < 0)%Z by (apply Z.div_lt_upper_bound; lia). lia.
Qed.

(** From 2001-09-09 on, the padded text is the first ten digits of the
    whole seconds. *)
Lemma lpad_epoch_text (t : timestamptz) :
  (1000000000 <= Pg.epoch_seconds t)%Z ->
  Pg.lpad (Pg.epoch_text t) 10 "0"
  = Pg.lpad (Pg.decimal (Z.to_N (Pg.epoch_seconds t))) 10 "0".
Proof.
  intros Hs.
  destruct (epoch_text_nonneg t) as [frac ->];
    [apply epoch_seconds_nonneg; lia|].
  apply lpad_prefix.
  pose proof (decimal_length_ge 9 (Z.to_N (Pg.epoch_seconds t))) as H.
  change (10 ^ N.of_nat 9)%N with 1000000000%N in H.
  specialize (H ltac:(lia)). lia.
Qed.

Lemma ten_digits (t : timestamptz) :
  ten_digit_epoch t ->
  Pg.lpad (Pg.decimal (Z.to_N (Pg.epoch_seconds t))) 10 "0"
  = Pg.decimal (Z.to_N (Pg.epoch_seconds t)).
Proof.
  intros [Hlo Hhi].
  pose proof (decimal_length 9 (Z.to_N (Pg.epoch_seconds t))) as H.
  change (10 ^ N.of_nat 9)%N with 1000000000%N in H.
  change (10 ^ N.of_nat 10)%N with 10000000000%N in H.
  specialize (H ltac:(lia)).
  rewrite <- (lpad_exact (Pg.decimal _)) at 2. now rewrite H.
Qed.

(** ** Facts about statement execution *)

Lemma commit_ok (x d' : database) :
  commit x = Ok d' -> d' = x /\ violations x = [].
Proof.
  unfold commit. destruct (violations x); [|discriminate].
  intros [= <-]. now split.
Qed.

Lemma insert_row_ok {R : Type} (c : caller) (wrap : R -> anyrow)
    (tname : string) (new : R) (store : R -> database) (d' : database) :
  insert_row c wrap tname new store = Ok d' ->
  d' = store new /\ violations (store new) = [].
Proof.
  unfold insert_row. destruct (rls_check _ _ _ _); [|discriminate].
  apply commit_ok.
Qed.

Lemma set_tracking_id_missing (now : timestamptz) (NEW : orders.row) :
  orders.tracking_id NEW = None \/ orders.tracking_id NEW = Some "" ->
  orders.tracking_id (set_tracking_id now NEW)
  = Some ("RT" ++ Pg.lpad (Pg.epoch_text now) 10 "0")%string.
Proof. unfold set_tracking_id. intros [-> | ->]; reflexivity. Qed.

Lemma set_tracking_id_given (now : timestamptz) (NEW : orders.row)
    (s : string) :
  orders.tracking_id NEW = Some s -> s <> "" ->
  set_tracking_id now NEW = NEW.
Proof.
  unfold set_tracking_id. intros -> Hs. destruct s; [contradiction|].
  reflexivity.
Qed.

(** C1, as stated, fails: at 5.5 seconds after the epoch the stored code
    is the padded text of [5.500000], not the padded whole seconds. *)
Lemma tracking_code_at_epoch_5 :
  exists new : orders.row,
    exec Anonymous 5500000%Z 1%N (insert_orders orders.nothing) empty_db
    = Ok (with_orders [new] empty_db)
    /\ orders.tracking_id new = Some "RT005.500000"
    /\ spec_tracking_code 5500000%Z = "RT0000000005"
    /\ orders.tracking_id new <> Some (spec_tracking_code 5500000%Z).
Proof.
  eexists. split; [vm_compute; reflexivity|].
  split; [reflexivity|]. split; [reflexivity | discriminate].
Qed.

(** C1 (amended): a committed order insert appends one row.  When the
    caller names no tracking code, or an empty one, and the whole seconds
    of the clock have ten digits, the row's code is ["RT"] followed by
    those seconds; a non-empty code given by the caller is stored as
    given. *)
Theorem tracking_code_on_insert :
  forall (c : caller) (now : timestamptz) (fresh : uuid)
         (v : orders.values) (d d' : database),
    exec c now fresh (insert_orders v) d = Ok d' ->
    exists new : orders.row,
      tbl_orders d' = tbl_orders d ++ [new]
      /\ (no_tracking_supplied v -> ten_digit_epoch now ->
          orders.tracking_id new = Some (spec_tracking_code now)
          /\ spec_tracking_code now
             = ("RT" ++ Pg.decimal (Z.to_N (Pg.epoch_seconds now)))%string)
      /\ (forall s : string,
             orders.tracking_id v = Supplied (Some s) -> s <> "" ->
             orders.tracking_id new = Some s).
Proof.
  intros c now fresh v d d' Hexec. simpl in Hexec.
  apply insert_row_ok in Hexec as [-> _].
  eexists. split; [reflexivity|]. split.
  - intros Hno Hrange. unfold spec_tracking_code.
    rewrite (ten_digits now Hrange). split; [|reflexivity].
    rewrite set_tracking_id_missing.
    + rewrite lpad_epoch_text by (destruct Hrange; assumption).
      now rewrite (ten_digits now Hrange).
    + destruct Hno as [H | [H | H]]; cbn; rewrite H; cbn; auto.
  - intros s Hs Hne.
    assert (Hfill : orders.tracking_id
                      (orders.fill v (orders.defaults fresh now)) = Some s)
      by (cbn; rewrite Hs; reflexivity).
    now rewrite (set_tracking_id_given now _ s Hfill Hne).
Qed.

Lemma tracking_code_on_insert_witness :
  exists new : orders.row,
    tbl_orders
      (state_after empty_db
         (exec Anonymous 1700000000000000%Z 1%N (insert_orders orders.nothing)
            empty_db))
    = [new]
    /\ orders.tracking_id new = Some "RT1700000000".
Proof.
  destruct (tracking_code_on_insert Anonymous 1700000000000000%Z 1%N
              orders.nothing empty_db
              (state_after empty_db
                 (exec Anonymous 1700000000000000%Z 1%N
                    (insert_orders orders.nothing) empty_db))
              eq_refl) as (new & Hrows & Hno & _).
  exists new. split; [exact Hrows|].
  destruct Hno as [Hcode _].
  - left. reflexivity.
  - vm_compute. split; [discriminate | reflexivity].
  - rewrite Hcode. reflexivity.
Defined.

(** ** Consistency of committed states *)

Lemma unless_nil (b : bool) (e : error) : unless b e = [] <-> b = true.
Proof. destruct b; simpl; split; intros H; try reflexivity; discriminate. Qed.

Lemma flat_map_nil {A B : Type} (f : A -> list B) (l : list A) :
  flat_map f l = [] <-> forall x, In x l -> f x = [].
Proof.
  induction l as [|a l IH]; simpl.
  - split; [intros _ x [] | reflexivity].
  - split.
    + intros H x [<- | Hx]; apply app_eq_nil in H as [Ha Hl];
        [assumption | now apply IH].
    + intros H. rewrite (H a) by now left. simpl. apply IH.
      intros x Hx. apply H. now right.
Qed.

Lemma violations_nil (d : database) : violations d = [] <-> consistent d.
Proof.
  unfold violations. split.
  - intros H.
    repeat (apply app_eq_nil in H as [?H H]).
    repeat match goal with
           | H : flat_map _ _ = [] |- _ => rewrite flat_map_nil in H
           | H : unless _ _ = [] |- _ => rewrite unless_nil in H
           end.
    constructor; assumption.
  - intros [].
    repeat match goal with
           | H : forall r, In r _ -> _ = [] |- _ =>
               rewrite <- flat_map_nil in H; rewrite H; clear H
           | H : _ = true |- _ => rewrite H; clear H
           end.
    reflexivity.
Qed.

Lemma update_rows_ok {R : Type} `{Timestamped R} (c : caller)
    (now : timestamptz) (wrap : R -> anyrow) (tname : string)
    (fill : R -> R) (where_ : R -> bool) (rows : list R)
    (store : list R -> database) (d' : database) :
  update_rows c now wrap tname fill where_ rows store = Ok d' ->
  d' = store (map (updated c now wrap fill where_) rows)
  /\ violations d' = [].
Proof.
  unfold update_rows. destruct (forallb _ _); [|discriminate].
  intros Hc. apply commit_ok in Hc as [-> Hv]. now split.
Qed.

Lemma exec_consistent (c : caller) (now : timestamptz) (fresh : uuid)
    (st : statement) (d d' : database) :
  exec c now fresh st d = Ok d' -> consistent d'.
Proof.
  intros Hexec. apply violations_nil.
  destruct st; simpl in Hexec;
    first [ apply insert_row_ok in Hexec as [-> Hv]
          | apply update_rows_ok in Hexec as [_ Hv]
          | apply commit_ok in Hexec as [-> Hv] ];
    exact Hv.
Qed.

Lemma reachable_consistent (d : database) : reachable d -> consistent d.
Proof.
  intros [|d0 d1 c now fresh st _ Hexec].
  - apply violations_nil. reflexivity.
  - exact (exec_consistent c now fresh st d0 d1 Hexec).
Qed.

Lemma string_eqb_iff (x y : string) : String.eqb x y = true <-> x = y.
Proof. apply String.eqb_eq. Qed.

Lemma existsb_key_eqb {K : Type} (eqb : K -> K -> bool)
    (eqb_eq : forall x y, eqb x y = true <-> x = y)
    (k : K) (ks : list (option K)) :
  existsb (key_eqb eqb k) ks = true <-> In (Some k) ks.
Proof.
  rewrite existsb_exists. split.
  - intros ([x|] & Hin & Hx); simpl in Hx; [|discriminate].
    apply eqb_eq in Hx as <-. exact Hin.
  - intros Hin. exists (Some k). split; [exact Hin|]. simpl.
    now apply eqb_eq.
Qed.

(** A unique index without NULL keys has no duplicate key. *)
Lemma unique_keys_NoDup {K : Type} (eqb : K -> K -> bool)
    (eqb_eq : forall x y, eqb x y = true <-> x = y)
    (ks : list (option K)) :
  unique_keys eqb ks = true -> ~ In None ks -> NoDup ks.
Proof.
  induction ks as [|[k|] ks IH]; simpl; intros Hu Hn.
  - constructor.
  - apply andb_true_iff in Hu as [Hk Hu]. constructor.
    + rewrite <- (existsb_key_eqb eqb eqb_eq).
      now destruct (existsb _ ks).
    + apply IH; [exact Hu | tauto].
  - exfalso. apply Hn. now left.
Qed.

Lemma orders_row_ok (r : orders.row) :
  orders_row_violations r = [] ->
  orders.id r <> None /\ orders.tracking_id r <> None
  /\ orders.price r <> None /\ status_check (orders.status r) = true.
Proof.
  unfold orders_row_violations.
  destruct (orders.id r), (orders.tracking_id r), (orders.price r),
    (status_check (orders.status r)); simpl; intros H;
    try discriminate; repeat split; discriminate.
Qed.

Lemma status_check_iff (s : option string) :
  status_check s = true <->
  s = None \/ exists v, s = Some v /\ In v order_statuses.
Proof.
  unfold status_check, status_in. destruct s as [v|]; cbn [option_map].
  - destruct (existsb (String.eqb v) order_statuses) eqn:E;
      cbn [check_passes].
    + apply existsb_exists in E as (x & Hin & Hx).
      apply String.eqb_eq in Hx as <-.
      split; [intros _; right; now exists v | reflexivity].
    + split; [discriminate|]. intros [H | (x & [= <-] & Hin)];
        [discriminate|].
      assert (existsb (String.eqb v) order_statuses = true)
        by (apply existsb_exists; exists v; split;
            [exact Hin | apply String.eqb_refl]).
      congruence.
  - cbn [check_passes]. split; [now left | reflexivity].
Qed.

(** ** Rows that differ in columns no constraint relates *)

Lemma set_tracking_id_shape (now : timestamptz) (r : orders.row) :
  set_tracking_id now r
  = orders.set_tracking (orders.tracking_id (set_tracking_id now r)) r.
Proof.
  unfold set_tracking_id. destruct r as [? ? ? ? [[|a s]|]]; reflexivity.
Qed.

Lemma set_tracking_id_status (now : timestamptz) (s : option string)
    (r : orders.row) :
  set_tracking_id now (orders.set_status s r)
  = orders.set_status s (set_tracking_id now r).
Proof.
  unfold set_tracking_id. destruct r as [? ? ? ? [[|a x]|]]; reflexivity.
Qed.

Lemma fill_set_status (s : supplied string) (v : orders.values)
    (r : orders.row) :
  orders.fill (orders.set_status s v) r
  = orders.set_status (or_else s (orders.status r)) (orders.fill v r).
Proof. reflexivity. Qed.

Lemma agree_refl (r : orders.row) : agree r r.
Proof. repeat split. Qed.

Lemma agree_set_status (s : option string) (r : orders.row) :
  agree r (orders.set_status s r).
Proof. repeat split. Qed.

Lemma agree_map {A : Type} (f : orders.row -> A) (os os' : list orders.row) :
  (forall r r', agree r r' -> f r' = f r) ->
  Forall2 agree os os' -> map f os' = map f os.
Proof.
  intros Hf H. induction H as [|r r' os os' Hr _ IH]; simpl;
    [reflexivity|]. now rewrite IH, (Hf r r' Hr).
Qed.

Lemma agree_forallb (p : orders.row -> bool) (os os' : list orders.row) :
  (forall r r', agree r r' -> p r' = p r) ->
  Forall2 agree os os' -> forallb p os' = forallb p os.
Proof.
  intros Hp H. induction H as [|r r' os os' Hr _ IH]; simpl;
    [reflexivity|]. now rewrite IH, (Hp r r' Hr).
Qed.

Lemma agree_row_ok (r r' : orders.row) :
  agree r r' -> status_check (orders.status r') = true ->
  orders_row_violations r = [] -> orders_row_violations r' = [].
Proof.
  intros (Hid & _ & _ & _ & Ht & Hp) Hs Hr.
  apply orders_row_ok in Hr as (H1 & H2 & H3 & _).
  unfold orders_row_violations. rewrite Hid, Ht, Hp, Hs.
  destruct (orders.id r), (orders.tracking_id r), (orders.price r);
    try contradiction; reflexivity.
Qed.

(** Replacing the orders by rows that agree with them, and whose status
    passes the check, keeps the state consistent. *)
Lemma consistent_agree (d : database) (os os' : list orders.row) :
  consistent (with_orders os d) ->
  Forall2 agree os os' ->
  (forall r', In r' os' -> status_check (orders.status r') = true) ->
  consistent (with_orders os' d).
Proof.
  intros [] Hagree Hstatus. simpl in *.
  constructor; simpl; try assumption.
  - intros r' Hin.
    assert (Hex : exists r, In r os /\ agree r r').
    { clear - Hagree Hin. induction Hagree as [|x y l l' Hxy _ IH];
        [destruct Hin|].
      destruct Hin as [<- | Hin]; [exists x; split; [now left|exact Hxy]|].
      destruct (IH Hin) as (r & Hr & Ha). exists r. split; [now right|].
      exact Ha. }
    destruct Hex as (r & Hr & Ha).
    apply (agree_row_ok r r' Ha); auto.
  - rewrite (agree_map orders.id os os'); auto. now intros r r' [].
  - rewrite (agree_map orders.tracking_id os os'); auto.
    now intros r r' (_&_&_&_&?&_).
  - rewrite (agree_forallb _ os os'); auto.
    intros r r' (_&H&_). now rewrite H.
  - rewrite (agree_forallb _ os os'); auto.
    intros r r' (_&_&H&_). now rewrite H.
  - rewrite (agree_forallb _ os os'); auto.
    intros r r' (_&_&_&H&_). now rewrite H.
Qed.

(** ** What the policies in force decide for [orders] *)

Lemma rls_insert_orders (c : caller) (r : orders.row) :
  rls_check pg_policy c INSERT (order_row r) = true.
Proof. destruct c; reflexivity. Qed.

Lemma rls_check_update_orders (c : caller) (r r' : orders.row) :
  rls_check pg_policy c UPDATE (order_row r)
  = rls_check pg_policy c UPDATE (order_row r').
Proof. destruct c; reflexivity. Qed.

Lemma exec_insert_orders (c : caller) (now : timestamptz) (fresh : uuid)
    (v : orders.values) (d : database) :
  exec c now fresh (insert_orders v) d
  = commit (with_orders
              (tbl_orders d
               ++ [set_tracking_id now
                     (orders.fill v (orders.defaults fresh now))]) d).
Proof.
  simpl. unfold insert_row. now rewrite rls_insert_orders.
Qed.

Lemma commit_consistent (x : database) : consistent x -> commit x = Ok x.
Proof.
  intros H. apply violations_nil in H. unfold commit. now rewrite H.
Qed.

Lemma not_ok_rejected (r : result) :
  (forall d', r <> Ok d') -> exists e, r = Rejected e.
Proof.
  destruct r as [d'|e]; intros H; [now elim (H d') | now exists e].
Qed.

Lemma in_app_last {A : Type} (l : list A) (x : A) : In x (l ++ [x]).
Proof. apply in_or_app. right. now left. Qed.

Lemma forall2_app_last {A : Type} (P : A -> A -> Prop) (l : list A)
    (x y : A) :
  (forall a, P a a) -> P x y -> Forall2 P (l ++ [x]) (l ++ [y]).
Proof.
  intros Hrefl Hxy. apply Forall2_app.
  - induction l; constructor; auto.
  - constructor; [exact Hxy | constructor].
Qed.

Lemma forall2_map {A : Type} (P : A -> A -> Prop) (f g : A -> A)
    (l : list A) :
  (forall a, P (f a) (g a)) -> Forall2 P (map f l) (map g l).
Proof. intros H. induction l; simpl; constructor; auto. Qed.

Lemma forallb_eq {A : Type} (p q : A -> bool) (l : list A) :
  (forall a, p a = q a) -> forallb p l = forallb q l.
Proof.
  intros H. induction l as [|a l IH]; simpl; [reflexivity|].
  now rewrite H, IH.
Qed.

(** C2, as stated, fails: NULL is none of the eight strings, yet an order
    insert that supplies it commits and the row stores it. *)
Lemma null_status_is_stored :
  exists new : orders.row,
    exec Anonymous 1700000000000000%Z 1%N
      (insert_orders (orders.only_status (Supplied None))) empty_db
    = Ok (with_orders [new] empty_db)
    /\ orders.status new = None
    /\ reachable (with_orders [new] empty_db).
Proof.
  eexists. split; [vm_compute; reflexivity|]. split; [reflexivity|].
  eapply reachable_exec; [apply reachable_empty|].
  instantiate (1 := insert_orders (orders.only_status (Supplied None))).
  instantiate (1 := 1%N). instantiate (1 := 1700000000000000%Z).
  instantiate (1 := Anonymous). vm_compute. reflexivity.
Qed.

Lemma updated_target_status (c : caller) (now : timestamptz)
    (set : orders.values) (where_ : orders.row -> bool) (o : orders.row)
    (s : option string) :
  orders.status set = Supplied s ->
  targets c order_row UPDATE where_ o = true ->
  orders.status (updated c now order_row (orders.fill set) where_ o) = s.
Proof.
  intros Hs Ht. unfold updated. rewrite Ht. cbn. now rewrite Hs.
Qed.

(** C2 (amended): the CHECK accepts exactly NULL and the eight strings;
    a reachable state stores no other status; an insert or an update that
    writes any other string is rejected; and a write that commits with
    one status commits with every accepted status. *)
Theorem order_status_writes :
  (forall s : option string,
      status_check s = true <->
      s = None \/ exists v, s = Some v /\ In v order_statuses)
  /\ (forall d : database, reachable d ->
        forall o, In o (tbl_orders d) ->
                  status_check (orders.status o) = true)
  /\ (forall c now fresh v d x,
        orders.status v = Supplied (Some x) -> ~ In x order_statuses ->
        exists e, exec c now fresh (insert_orders v) d = Rejected e)
  /\ (forall c now fresh set where_ d x o,
        orders.status set = Supplied (Some x) -> ~ In x order_statuses ->
        In o (tbl_orders d) ->
        targets c order_row UPDATE where_ o = true ->
        exists e, exec c now fresh (update_orders set where_) d = Rejected e)
  /\ (forall c now fresh v d d' s,
        exec c now fresh (insert_orders v) d = Ok d' ->
        status_check s = true ->
        exists d'',
          exec c now fresh
            (insert_orders (orders.set_status (Supplied s) v)) d = Ok d'')
  /\ (forall c now fresh set where_ d d' s,
        exec c now fresh (update_orders set where_) d = Ok d' ->
        status_check s = true ->
        exists d'',
          exec c now fresh
            (update_orders (orders.set_status (Supplied s) set) where_) d
          = Ok d'').
Proof.
  assert (Hbad : forall x, ~ In x order_statuses ->
                           status_check (Some x) <> true).
  { intros x Hx Hc. apply status_check_iff in Hc as [Hc | (v & [= <-] & Hv)];
      [discriminate | contradiction]. }
  split; [exact status_check_iff|]. split; [|split; [|split; [|split]]].
  - intros d Hd o Ho.
    apply reachable_consistent in Hd.
    destruct (orders_row_ok o (orders_rows_ok d Hd o Ho)) as (_ & _ & _ & H).
    exact H.
  - intros c now fresh v d x Hs Hx. apply not_ok_rejected.
    intros d' Hexec.
    pose proof (exec_consistent _ _ _ _ _ _ Hexec) as Hcons.
    simpl in Hexec. apply insert_row_ok in Hexec as [-> _].
    destruct Hcons as [_ _ _ Hrows _ _ _ _ _ _ _ _]. simpl in Hrows.
    specialize (Hrows _ (in_app_last _ _)).
    apply orders_row_ok in Hrows as (_ & _ & _ & Hc).
    rewrite set_tracking_id_shape in Hc. cbn in Hc. rewrite Hs in Hc.
    exact (Hbad x Hx Hc).
  - intros c now fresh set where_ d x o Hs Hx Ho Ht. apply not_ok_rejected.
    intros d' Hexec.
    pose proof (exec_consistent _ _ _ _ _ _ Hexec) as Hcons.
    simpl in Hexec. apply update_rows_ok in Hexec as [-> _].
    destruct Hcons as [_ _ _ Hrows _ _ _ _ _ _ _ _]. simpl in Hrows.
    specialize (Hrows _ (in_map _ _ _ Ho)).
    apply orders_row_ok in Hrows as (_ & _ & _ & Hc).
    rewrite (updated_target_status c now set where_ o (Some x) Hs Ht) in Hc.
    exact (Hbad x Hx Hc).
  - intros c now fresh v d d' s Hexec Hs.
    pose proof (exec_consistent _ _ _ _ _ _ Hexec) as Hcons.
    rewrite exec_insert_orders in Hexec. apply commit_ok in Hexec as [-> _].
    rewrite exec_insert_orders. eexists. apply commit_consistent.
    eapply consistent_agree; [exact Hcons | |].
    + apply forall2_app_last; [apply agree_refl|].
      rewrite fill_set_status, set_tracking_id_status.
      apply agree_set_status.
    + intros r' Hin. apply in_app_or in Hin as [Hin | [<- | []]].
      * destruct Hcons as [_ _ _ Hrows _ _ _ _ _ _ _ _]. simpl in Hrows.
        specialize (Hrows r' (in_or_app _ _ _ (or_introl Hin))).
        now apply orders_row_ok in Hrows.
      * rewrite fill_set_status, set_tracking_id_status. exact Hs.
  - intros c now fresh set where_ d d' s Hexec Hs.
    pose proof (exec_consistent _ _ _ _ _ _ Hexec) as Hcons.
    simpl in Hexec. unfold update_rows in Hexec.
    destruct (forallb _ _) eqn:Hrls in Hexec; [|discriminate].
    apply commit_ok in Hexec as [-> _].
    simpl. unfold update_rows.
    replace (forallb _ (tbl_orders d)) with true.
    + eexists. apply commit_consistent.
      eapply consistent_agree; [exact Hcons | |].
      * apply forall2_map. intros a. unfold updated.
        destruct (targets _ _ _ _ a); [|apply agree_refl].
        rewrite fill_set_status. repeat split.
      * intros r' Hin. apply in_map_iff in Hin as (a & <- & Ha).
        unfold updated. destruct (targets _ _ _ _ a) eqn:Ht; [exact Hs|].
        destruct Hcons as [_ _ _ Hrows _ _ _ _ _ _ _ _]. simpl in Hrows.
        specialize (Hrows _ (in_map _ _ _ Ha)). unfold updated in Hrows.
        rewrite Ht in Hrows. now apply orders_row_ok in Hrows.
    + rewrite <- Hrls. apply forallb_eq. intros a. f_equal.
      apply rls_check_update_orders.
Qed.

Lemma order_status_writes_witness :
  (exists e,
      exec Anonymous 1700000000000000%Z 1%N
        (insert_orders (orders.only_status (Supplied (Some "shipped"))))
        empty_db = Rejected e)
  /\ (exists d'',
         exec Anonymous 1700000000000000%Z 1%N
           (insert_orders
              (orders.set_status (Supplied (Some "ready")) orders.nothing))
           empty_db = Ok d'').
Proof.
  destruct order_status_writes as (_ & _ & Hreject & _ & Haccept & _).
  split.
  - apply (Hreject Anonymous 1700000000000000%Z 1%N _ empty_db "shipped").
    + reflexivity.
    + simpl. intros H.
      repeat (destruct H as [H | H]; [discriminate H|]). exact H.
  - apply (Haccept Anonymous 1700000000000000%Z 1%N orders.nothing empty_db
             (state_after empty_db
                (exec Anonymous 1700000000000000%Z 1%N
                   (insert_orders orders.nothing) empty_db))
             (Some "ready")).
    + vm_compute. reflexivity.
    + reflexivity.
Defined.

(** C9: an order insert that names no status stores ['confirmed']. *)
Theorem default_status_confirmed :
  forall (c : caller) (now : timestamptz) (fresh : uuid)
         (v : orders.values) (d d' : database),
    orders.status v = Omitted ->
    exec c now fresh (insert_orders v) d = Ok d' ->
    exists new : orders.row,
      tbl_orders d' = tbl_orders d ++ [new]
      /\ orders.status new = Some "confirmed".
Proof.
  intros c now fresh v d d' Hs Hexec.
  rewrite exec_insert_orders in Hexec. apply commit_ok in Hexec as [-> _].
  eexists. split; [reflexivity|].
  rewrite set_tracking_id_shape. cbn. now rewrite Hs.
Qed.

Lemma default_status_confirmed_witness :
  exists new : orders.row,
    tbl_orders
      (state_after empty_db
         (exec Anonymous 1700000000000000%Z 1%N
            (insert_orders (orders.only_tracking (Supplied (Some "A1"))))
            empty_db))
    = tbl_orders empty_db ++ [new]
    /\ orders.status new = Some "confirmed".
Proof.
  apply (default_status_confirmed Anonymous 1700000000000000%Z 1%N
           (orders.only_tracking (Supplied (Some "A1"))) empty_db).
  - reflexivity.
  - vm_compute. reflexivity.
Defined.

(** ** Tracking codes *)

Lemma tracking_never_missing (now : timestamptz) (r : orders.row) :
  orders.tracking_id (set_tracking_id now r) <> None
  /\ orders.tracking_id (set_tracking_id now r) <> Some "".
Proof.
  unfold set_tracking_id.
  destruct (orders.tracking_id r) as [[|a s]|] eqn:E; cbn;
    try rewrite E; split; discriminate.
Qed.

Lemma updated_tracking (c : caller) (now : timestamptz)
    (set : orders.values) (where_ : orders.row -> bool) (o : orders.row) :
  orders.tracking_id set = Omitted ->
  orders.tracking_id (updated c now order_row (orders.fill set) where_ o)
  = orders.tracking_id o.
Proof.
  intros Hs. unfold updated. destruct (targets _ _ _ _ o); [|reflexivity].
  cbn. now rewrite Hs.
Qed.

Lemma filter_all {A : Type} (l : list A) : filter (fun _ => true) l = l.
Proof. induction l as [|a l IH]; simpl; [reflexivity | now rewrite IH]. Qed.

(** C5, as stated, fails: an administrator's UPDATE replaces an issued
    tracking code, here by the empty string, and the state commits. *)
Lemma tracking_code_overwritten :
  exists d d' : database,
    reachable d
    /\ map orders.tracking_id (tbl_orders d) = [Some "RT1700000000"]
    /\ exec (Authenticated 7 (Some "admin")) 1700000060000000%Z 2%N
         (update_orders (orders.only_tracking (Supplied (Some "")))
            (fun _ => true)) d = Ok d'
    /\ reachable d'
    /\ map orders.tracking_id (tbl_orders d') = [Some ""].
Proof.
  pose (d := state_after empty_db
               (exec Anonymous 1700000000000000%Z 1%N
                  (insert_orders orders.nothing) empty_db)).
  pose (d' := state_after d
                (exec (Authenticated 7 (Some "admin")) 1700000060000000%Z
                   2%N
                   (update_orders (orders.only_tracking (Supplied (Some "")))
                      (fun _ => true)) d)).
  assert (Hd : reachable d).
  { apply (reachable_exec empty_db d Anonymous 1700000000000000%Z 1%N
             (insert_orders orders.nothing) reachable_empty).
    vm_compute. reflexivity. }
  assert (Hexec : exec (Authenticated 7 (Some "admin")) 1700000060000000%Z
                    2%N
                    (update_orders
                       (orders.only_tracking (Supplied (Some "")))
                       (fun _ => true)) d = Ok d')
    by (vm_compute; reflexivity).
  exists d, d'. split; [exact Hd|]. split; [reflexivity|].
  split; [exact Hexec|]. split; [|reflexivity].
  exact (reachable_exec d d' _ _ _ _ Hd Hexec).
Qed.

(** C5 (amended): in every reachable state the tracking codes are not
    NULL and pairwise distinct; an inserted order's code is neither NULL
    nor empty; and a committed statement other than an UPDATE of [orders]
    that names [tracking_id] changes no stored code: an insert appends a
    row, every other statement keeps the codes of the orders it keeps. *)
Theorem tracking_codes_kept :
  (forall d : database, reachable d ->
      NoDup (map orders.tracking_id (tbl_orders d))
      /\ forall o, In o (tbl_orders d) -> orders.tracking_id o <> None)
  /\ (forall c now fresh v d d',
        exec c now fresh (insert_orders v) d = Ok d' ->
        exists new : orders.row,
          tbl_orders d' = tbl_orders d ++ [new]
          /\ orders.tracking_id new <> None
          /\ orders.tracking_id new <> Some "")
  /\ (forall c now fresh st d d',
        exec c now fresh st d = Ok d' ->
        ~ assigns_tracking st ->
        (forall v, st <> insert_orders v) ->
        exists keep : orders.row -> bool,
          map orders.tracking_id (tbl_orders d')
          = map orders.tracking_id (filter keep (tbl_orders d))).
Proof.
  split; [|split].
  - intros d Hd. apply reachable_consistent in Hd.
    assert (Hnn : forall o, In o (tbl_orders d) ->
                            orders.tracking_id o <> None).
    { intros o Ho.
      now destruct (orders_row_ok o (orders_rows_ok d Hd o Ho))
        as (_ & H & _). }
    split; [|exact Hnn].
    apply (unique_keys_NoDup String.eqb string_eqb_iff).
    + apply (orders_tracking_id_key d Hd).
    + intros Hin. apply in_map_iff in Hin as (o & Ho & Hin).
      exact (Hnn o Hin Ho).
  - intros c now fresh v d d' Hexec.
    rewrite exec_insert_orders in Hexec. apply commit_ok in Hexec as [-> _].
    eexists. split; [reflexivity|]. apply tracking_never_missing.
  - intros c now fresh st d d' Hexec Hassign Hins.
    destruct st; simpl in Hexec;
      try (apply insert_row_ok in Hexec as [-> _]);
      try (apply update_rows_ok in Hexec as [-> _]);
      try (apply commit_ok in Hexec as [-> _]);
      simpl;
      try (exists (fun _ => true); now rewrite filter_all).
    + now elim (Hins v).
    + exists (fun _ => true). rewrite filter_all, map_map.
      apply map_ext. intros o. apply updated_tracking.
      simpl in Hassign. destruct (orders.tracking_id set);
        [reflexivity | elim Hassign; discriminate].
    + unfold cascade. eexists. reflexivity.
    + unfold remaining. eexists. reflexivity.
Qed.

Lemma tracking_codes_kept_witness :
  NoDup (map orders.tracking_id (tbl_orders empty_db))
  /\ exists new : orders.row,
       tbl_orders
         (state_after empty_db
            (exec Anonymous 1700000000000000%Z 1%N
               (insert_orders orders.nothing) empty_db))
       = tbl_orders empty_db ++ [new]
       /\ orders.tracking_id new <> None
       /\ orders.tracking_id new <> Some "".
Proof.
  destruct tracking_codes_kept as (Hinv & Hins & _). split.
  - exact (proj1 (Hinv empty_db reachable_empty)).
  - apply (Hins Anonymous 1700000000000000%Z 1%N orders.nothing empty_db).
    vm_compute. reflexivity.
Defined.

Lemma consistent_tracking_NoDup (d : database) :
  consistent d -> NoDup (map orders.tracking_id (tbl_orders d)).
Proof.
  intros Hd. apply (unique_keys_NoDup String.eqb string_eqb_iff).
  - apply (orders_tracking_id_key d Hd).
  - intros Hin. apply in_map_iff in Hin as (o & Ho & Hin).
    now destruct (orders_row_ok o (orders_rows_ok d Hd o Hin)) as (_ & H & _).
Qed.

Lemma derived_code (now : timestamptz) (f : uuid) (v : orders.values) :
  no_tracking_supplied v ->
  orders.tracking_id
    (set_tracking_id now (orders.fill v (orders.defaults f now)))
  = Some ("RT" ++ Pg.lpad (Pg.epoch_text now) 10 "0")%string.
Proof.
  intros Hno. apply set_tracking_id_missing.
  destruct Hno as [H | [H | H]]; cbn; rewrite H; cbn; auto.
Qed.

Lemma unique_keys_repeat {K : Type} (eqb : K -> K -> bool) (k : K)
    (l : list (option K)) :
  eqb k k = true -> unique_keys eqb ((l ++ [Some k]) ++ [Some k]) = false.
Proof.
  intros Hk. induction l as [|[x|] l IH]; simpl.
  - now rewrite Hk.
  - rewrite IH. apply andb_false_r.
  - exact IH.
Qed.

(** C7, as stated, fails: 5.1 and 5.2 seconds after the epoch lie in the
    same whole second, the two derived codes differ and the second insert
    commits. *)
Lemma no_collision_at_epoch_5 :
  Pg.epoch_seconds 5100000 = Pg.epoch_seconds 5200000
  /\ exists d1 d2 : database,
       exec Anonymous 5100000 1 (insert_orders orders.nothing) empty_db
       = Ok d1
       /\ exec Anonymous 5200000 2 (insert_orders orders.nothing) d1 = Ok d2
       /\ map orders.tracking_id (tbl_orders d2)
          = [Some "RT005.100000"; Some "RT005.200000"].
Proof.
  split; [reflexivity|]. eexists. eexists.
  split; [vm_compute; reflexivity|].
  split; [vm_compute; reflexivity|]. reflexivity.
Qed.

(** C7 (amended): from 2001-09-09 on (whole seconds of ten digits or
    more), two order inserts without a tracking code in the same whole
    second derive the same code; once the first has committed, the second
    violates the unique index on [tracking_id], is rejected and leaves
    the store as it was. *)
Theorem same_second_collision :
  forall (c1 c2 : caller) (t1 t2 : timestamptz) (f1 f2 : uuid)
         (v1 v2 : orders.values) (d d1 : database),
    no_tracking_supplied v1 -> no_tracking_supplied v2 ->
    Pg.epoch_seconds t1 = Pg.epoch_seconds t2 ->
    (1000000000 <= Pg.epoch_seconds t1)%Z ->
    exec c1 t1 f1 (insert_orders v1) d = Ok d1 ->
    orders.tracking_id
      (set_tracking_id t1 (orders.fill v1 (orders.defaults f1 t1)))
    = orders.tracking_id
        (set_tracking_id t2 (orders.fill v2 (orders.defaults f2 t2)))
    /\ In (unique_violation "orders_tracking_id_key")
         (violations
            (with_orders
               (tbl_orders d1
                ++ [set_tracking_id t2
                      (orders.fill v2 (orders.defaults f2 t2))]) d1))
    /\ (exists e, exec c2 t2 f2 (insert_orders v2) d1 = Rejected e)
    /\ state_after d1 (exec c2 t2 f2 (insert_orders v2) d1) = d1.
Proof.
  intros c1 c2 t1 t2 f1 f2 v1 v2 d d1 Hv1 Hv2 Hsec Hlo Hexec.
  assert (Hsame :
            orders.tracking_id
              (set_tracking_id t1 (orders.fill v1 (orders.defaults f1 t1)))
            = orders.tracking_id
                (set_tracking_id t2
                   (orders.fill v2 (orders.defaults f2 t2)))).
  { rewrite !derived_code by assumption.
    rewrite !lpad_epoch_text by lia. now rewrite Hsec. }
  assert (Hrej : exists e, exec c2 t2 f2 (insert_orders v2) d1 = Rejected e).
  { apply not_ok_rejected. intros d2 Hexec2.
    pose proof (exec_consistent _ _ _ _ _ _ Hexec2) as Hcons.
    apply consistent_tracking_NoDup in Hcons.
    rewrite exec_insert_orders in Hexec, Hexec2.
    apply commit_ok in Hexec as [-> _]. apply commit_ok in Hexec2 as [-> _].
    simpl in Hcons. rewrite !map_app in Hcons. simpl in Hcons.
    rewrite <- app_assoc in Hcons. simpl in Hcons.
    apply NoDup_remove_2 in Hcons. apply Hcons.
    apply in_or_app. right. left. symmetry. exact Hsame. }
  split; [exact Hsame|]. split; [|split; [exact Hrej|]].
  - rewrite exec_insert_orders in Hexec. apply commit_ok in Hexec as [-> _].
    unfold violations. simpl tbl_orders.
    rewrite !map_app. simpl map.
    rewrite <- Hsame, derived_code by assumption.
    rewrite unique_keys_repeat by apply String.eqb_refl.
    do 8 (apply in_or_app; right). apply in_or_app. left. now left.
  - destruct Hrej as [e ->]. reflexivity.
Qed.

Lemma same_second_collision_witness :
  exec Anonymous 1700000000500000 2 (insert_orders orders.nothing)
    (state_after empty_db
       (exec Anonymous 1700000000000000 1 (insert_orders orders.nothing)
          empty_db))
  = Rejected (unique_violation "orders_tracking_id_key").
Proof.
  destruct (same_second_collision Anonymous Anonymous 1700000000000000
              1700000000500000 1 2 orders.nothing orders.nothing empty_db
              (state_after empty_db
                 (exec Anonymous 1700000000000000 1
                    (insert_orders orders.nothing) empty_db)))
    as (_ & _ & [e He] & _).
  - left. reflexivity.
  - left. reflexivity.
  - reflexivity.
  - vm_compute. discriminate.
  - vm_compute. reflexivity.
  - rewrite He. vm_compute in He. exact (eq_sym He).
Defined.

(** ** The [updated_at] trigger *)

Lemma updated_stamped {R : Type} `{Timestamped R} (c : caller)
    (now : timestamptz) (wrap : R -> anyrow) (fill : R -> R)
    (where_ : R -> bool) (rows : list R) :
  stamped now (targets c wrap UPDATE where_) rows
    (map (updated c now wrap fill where_) rows).
Proof.
  unfold stamped. induction rows as [|r rows IH]; simpl; constructor;
    [|exact IH].
  unfold updated, update_updated_at_column.
  destruct (targets c wrap UPDATE where_ r); [|reflexivity].
  rewrite get_with_updated_at. split; [reflexivity|].
  intros t _ Hlt. now exists now.
Qed.

(** C4, as stated, fails: an order inserted with an [updated_at] in the
    future (no trigger touches it on INSERT) is stamped with the clock on
    its next UPDATE, which is earlier than the value it replaces. *)
Lemma updated_at_can_decrease :
  exists d d' : database,
    exec Anonymous 1700000000000000 1
      (insert_orders
         (orders.only_updated_at (Supplied (Some 9000000000000000%Z))))
      empty_db = Ok d
    /\ exec (Authenticated 7 (Some "admin")) 1700000060000000 2
         (update_orders (orders.only_status (Supplied (Some "ready")))
            (fun _ => true)) d = Ok d'
    /\ map orders.updated_at (tbl_orders d) = [Some 9000000000000000%Z]
    /\ map orders.updated_at (tbl_orders d') = [Some 1700000060000000%Z]
    /\ ~ (9000000000000000 < 1700000060000000)%Z.
Proof.
  eexists. eexists. split; [vm_compute; reflexivity|].
  split; [vm_compute; reflexivity|].
  split; [reflexivity|]. split; [reflexivity|]. lia.
Qed.

(** C4 (amended): a committed UPDATE of any of the four tables leaves
    every row it acts on with [updated_at] equal to the clock of the
    statement, whatever the SET list says; that is later than the value it
    replaces whenever the clock is later than that value.  The rows it
    does not act on are as they were. *)
Theorem updated_at_on_update :
  forall (c : caller) (now : timestamptz) (fresh : uuid) (d d' : database),
    (forall set where_,
        exec c now fresh (update_customers set where_) d = Ok d' ->
        stamped now (targets c customer_row UPDATE where_)
          (tbl_customers d) (tbl_customers d'))
    /\ (forall set where_,
           exec c now fresh (update_fabrics set where_) d = Ok d' ->
           stamped now (targets c fabric_row UPDATE where_)
             (tbl_fabrics d) (tbl_fabrics d'))
    /\ (forall set where_,
           exec c now fresh (update_garments set where_) d = Ok d' ->
           stamped now (targets c garment_row UPDATE where_)
             (tbl_garments d) (tbl_garments d'))
    /\ (forall set where_,
           exec c now fresh (update_orders set where_) d = Ok d' ->
           stamped now (targets c order_row UPDATE where_)
             (tbl_orders d) (tbl_orders d')).
Proof.
  intros c now fresh d d'.
  repeat split; intros set where_ Hexec; simpl in Hexec;
    apply update_rows_ok in Hexec as [-> _]; apply updated_stamped.
Qed.

Lemma updated_at_on_update_witness :
  stamped 1700000060000000
    (targets (Authenticated 7 (Some "admin")) order_row UPDATE
       (fun _ => true))
    [orders.set_tracking (Some "A1") (orders.defaults 1 1700000000000000)]
    [orders.set_updated_at (Some 1700000060000000%Z)
       (orders.set_tracking (Some "A1")
          (orders.defaults 1 1700000000000000))].
Proof.
  apply (proj2 (proj2 (proj2
           (updated_at_on_update (Authenticated 7 (Some "admin"))
              1700000060000000 2
              (with_orders
                 [orders.set_tracking (Some "A1")
                    (orders.defaults 1 1700000000000000)] empty_db)
              (with_orders
                 [orders.set_updated_at (Some 1700000060000000%Z)
                    (orders.set_tracking (Some "A1")
                       (orders.defaults 1 1700000000000000))] empty_db))))
           (orders.only_updated_at (Supplied (Some 5%Z))) (fun _ => true)).
  vm_compute. reflexivity.
Defined.

(** ** Deleting rows *)

Lemma N_eqb_iff (x y : N) : N.eqb x y = true <-> x = y.
Proof. apply N.eqb_eq. Qed.

Lemma existsb_filter_false {A B : Type} (q : B -> bool) (f : A -> B)
    (p : A -> bool) (l : list A) :
  existsb q (map f l) = false -> existsb q (map f (filter p l)) = false.
Proof.
  induction l as [|a l IH]; simpl; [reflexivity|].
  intros H. apply orb_false_iff in H as [Ha Hl].
  destruct (p a); simpl; [rewrite Ha|]; auto.
Qed.

Lemma unique_keys_filter {A K : Type} (eqb : K -> K -> bool)
    (f : A -> option K) (p : A -> bool) (l : list A) :
  unique_keys eqb (map f l) = true ->
  unique_keys eqb (map f (filter p l)) = true.
Proof.
  induction l as [|a l IH]; simpl; [reflexivity|].
  destruct (f a) as [k|] eqn:E; intros H.
  - apply andb_true_iff in H as [Hk Hl].
    destruct (p a); simpl; [rewrite E|]; auto.
    apply andb_true_iff. split; [|auto].
    apply negb_true_iff. apply existsb_filter_false.
    now apply negb_true_iff.
  - destruct (p a); simpl; [rewrite E|]; auto.
Qed.

Lemma NoDup_map_eq {A B : Type} (f : A -> B) (l : list A) (x y : A) :
  NoDup (map f l) -> In x l -> In y l -> f x = f y -> x = y.
Proof.
  induction l as [|a l IH]; simpl; [intros _ []|].
  intros Hnd Hx Hy Hxy. apply NoDup_cons_iff in Hnd as [Ha Hnd].
  destruct Hx as [<- | Hx], Hy as [<- | Hy]; auto.
  - elim Ha. rewrite Hxy. now apply in_map.
  - elim Ha. rewrite <- Hxy. now apply in_map.
Qed.

Lemma references_in (k : uuid) (ids : list (option uuid)) :
  references (Some k) ids = true <-> In (Some k) ids.
Proof. apply (existsb_key_eqb N.eqb N_eqb_iff). Qed.

Lemma customers_row_ok (r : customers.row) :
  customers_row_violations r = [] -> customers.id r <> None.
Proof.
  unfold customers_row_violations. destruct (customers.id r);
    [discriminate | discriminate].
Qed.

Lemma fabrics_row_ok (r : fabrics.row) :
  fabrics_row_violations r = [] -> fabrics.id r <> None.
Proof.
  unfold fabrics_row_violations. destruct (fabrics.id r);
    [discriminate | discriminate].
Qed.

Lemma garments_row_ok (r : garments.row) :
  garments_row_violations r = [] -> garments.id r <> None.
Proof.
  unfold garments_row_violations. destruct (garments.id r);
    [discriminate | discriminate].
Qed.

(** Keys of a table with a primary key: no NULL, no duplicate. *)
Lemma pkey_NoDup {A : Type} (f : A -> option uuid) (l : list A) :
  unique_keys N.eqb (map f l) = true ->
  (forall r, In r l -> f r <> None) -> NoDup (map f l).
Proof.
  intros Hu Hnn. apply (unique_keys_NoDup N.eqb N_eqb_iff); [exact Hu|].
  intros Hin. apply in_map_iff in Hin as (r & Hr & Hin).
  exact (Hnn r Hin Hr).
Qed.

(** Rows that are not deleted keep their foreign keys satisfied as long
    as no deleted row was referenced. *)
Lemma references_remaining {A : Type} (f : A -> option uuid)
    (hit : A -> bool) (l : list A) (k : option uuid) :
  references k (map f l) = true ->
  (forall r, In r l -> hit r = true -> k <> f r \/ k = None) ->
  references k (map f (filter (fun r => negb (hit r)) l)) = true.
Proof.
  destruct k as [k|]; [|reflexivity].
  rewrite !references_in. intros Hin Hfree.
  apply in_map_iff in Hin as (r & Hr & Hin).
  apply in_map_iff. exists r. split; [exact Hr|].
  apply filter_In. split; [exact Hin|].
  destruct (hit r) eqn:E; [|reflexivity].
  destruct (Hfree r Hin E) as [H | H]; [now elim H | discriminate].
Qed.

(** A referenced row that is deleted leaves a dangling foreign key. *)
Lemma references_deleted {A : Type} (f : A -> option uuid)
    (hit : A -> bool) (l : list A) (r : A) :
  NoDup (map f l) -> In r l -> hit r = true -> f r <> None ->
  references (f r) (map f (filter (fun r => negb (hit r)) l)) = false.
Proof.
  intros Hnd Hr Hhit Hnn. destruct (f r) as [k|] eqn:E; [|now elim Hnn].
  destruct (references (Some k) _) eqn:Href; [|reflexivity].
  apply references_in in Href. apply in_map_iff in Href as (r' & Hk & Hin).
  apply filter_In in Hin as [Hin Hkeep].
  assert (r' = r) by (apply (NoDup_map_eq f l); congruence).
  subst r'. rewrite Hhit in Hkeep. discriminate.
Qed.

(** A fabric deletion can violate one constraint only: the foreign key
    of [orders.fabric_id]. *)
Lemma violations_delete_fabrics (c : caller) (w : fabrics.row -> bool)
    (d : database) :
  consistent d ->
  violations (with_fabrics (remaining c fabric_row w (tbl_fabrics d)) d)
  = unless
      (forallb (fun o => references (orders.fabric_id o)
                           (map fabrics.id
                              (remaining c fabric_row w (tbl_fabrics d))))
         (tbl_orders d))
      (foreign_key_violation "orders_fabric_id_fkey").
Proof.
  intros [Hcr Hfr Hgr Hor Hcp Hfp Hgp Hop Htk Hcf Hff Hgf].
  assert (Hfr' : forall r, In r (remaining c fabric_row w (tbl_fabrics d)) ->
                           fabrics_row_violations r = []).
  { intros r Hr. apply filter_In in Hr as [Hr _]. auto. }
  apply flat_map_nil in Hcr, Hfr', Hgr, Hor.
  unfold violations. simpl.
  rewrite Hcr, Hfr', Hgr, Hor, Hcp, Hgp, Hop, Htk, Hcf, Hgf.
  unfold remaining. rewrite (unique_keys_filter _ _ _ _ Hfp). simpl.
  apply app_nil_r.
Qed.

Lemma delete_fabrics_free (c : caller) (w : fabrics.row -> bool)
    (d : database) :
  consistent d ->
  (forall o f, In o (tbl_orders d) -> In f (tbl_fabrics d) ->
               targets c fabric_row DELETE w f = true ->
               orders.fabric_id o <> fabrics.id f) ->
  forallb (fun o => references (orders.fabric_id o)
                      (map fabrics.id
                         (remaining c fabric_row w (tbl_fabrics d))))
    (tbl_orders d) = true.
Proof.
  intros Hd Hfree. apply forallb_forall. intros o Ho.
  apply references_remaining.
  - pose proof (orders_fabric_id_fkey d Hd) as Hff.
    rewrite forallb_forall in Hff. auto.
  - intros f Hf Hhit. left. now apply Hfree.
Qed.

Lemma delete_fabrics_dangling (c : caller) (w : fabrics.row -> bool)
    (d : database) (o : orders.row) (f : fabrics.row) :
  consistent d -> In o (tbl_orders d) -> In f (tbl_fabrics d) ->
  targets c fabric_row DELETE w f = true ->
  orders.fabric_id o = fabrics.id f ->
  forallb (fun o => references (orders.fabric_id o)
                      (map fabrics.id
                         (remaining c fabric_row w (tbl_fabrics d))))
    (tbl_orders d) = false.
Proof.
  intros Hd Ho Hf Hhit Href.
  apply not_true_iff_false. intros Hfk.
  rewrite forallb_forall in Hfk. specialize (Hfk o Ho).
  rewrite Href in Hfk. unfold remaining in Hfk.
  rewrite references_deleted in Hfk; try assumption; [discriminate| |].
  - apply pkey_NoDup; [apply (fabrics_pkey d Hd)|].
    intros r Hr. apply fabrics_row_ok, (fabrics_rows_ok d Hd r Hr).
  - apply fabrics_row_ok, (fabrics_rows_ok d Hd f Hf).
Qed.

(** Likewise for garments and [orders.garment_id]. *)
Lemma violations_delete_garments (c : caller) (w : garments.row -> bool)
    (d : database) :
  consistent d ->
  violations (with_garments (remaining c garment_row w (tbl_garments d)) d)
  = unless
      (forallb (fun o => references (orders.garment_id o)
                           (map garments.id
                              (remaining c garment_row w (tbl_garments d))))
         (tbl_orders d))
      (foreign_key_violation "orders_garment_id_fkey").
Proof.
  intros [Hcr Hfr Hgr Hor Hcp Hfp Hgp Hop Htk Hcf Hff Hgf].
  assert (Hgr' : forall r,
             In r (remaining c garment_row w (tbl_garments d)) ->
             garments_row_violations r = []).
  { intros r Hr. apply filter_In in Hr as [Hr _]. auto. }
  apply flat_map_nil in Hcr, Hfr, Hgr', Hor.
  unfold violations. simpl.
  rewrite Hcr, Hfr, Hgr', Hor, Hcp, Hfp, Hop, Htk, Hcf, Hff.
  unfold remaining. rewrite (unique_keys_filter _ _ _ _ Hgp). simpl.
  reflexivity.
Qed.

Lemma delete_garments_free (c : caller) (w : garments.row -> bool)
    (d : database) :
  consistent d ->
  (forall o g, In o (tbl_orders d) -> In g (tbl_garments d) ->
               targets c garment_row DELETE w g = true ->
               orders.garment_id o <> garments.id g) ->
  forallb (fun o => references (orders.garment_id o)
                      (map garments.id
                         (remaining c garment_row w (tbl_garments d))))
    (tbl_orders d) = true.
Proof.
  intros Hd Hfree. apply forallb_forall. intros o Ho.
  apply references_remaining.
  - pose proof (orders_garment_id_fkey d Hd) as Hgf.
    rewrite forallb_forall in Hgf. auto.
  - intros g Hg Hhit. left. now apply Hfree.
Qed.

Lemma delete_garments_dangling (c : caller) (w : garments.row -> bool)
    (d : database) (o : orders.row) (g : garments.row) :
  consistent d -> In o (tbl_orders d) -> In g (tbl_garments d) ->
  targets c garment_row DELETE w g = true ->
  orders.garment_id o = garments.id g ->
  forallb (fun o => references (orders.garment_id o)
                      (map garments.id
                         (remaining c garment_row w (tbl_garments d))))
    (tbl_orders d) = false.
Proof.
  intros Hd Ho Hg Hhit Href.
  apply not_true_iff_false. intros Hfk.
  rewrite forallb_forall in Hfk. specialize (Hfk o Ho).
  rewrite Href in Hfk. unfold remaining in Hfk.
  rewrite references_deleted in Hfk; try assumption; [discriminate| |].
  - apply pkey_NoDup; [apply (garments_pkey d Hd)|].
    intros r Hr. apply garments_row_ok, (garments_rows_ok d Hd r Hr).
  - apply garments_row_ok, (garments_rows_ok d Hd g Hg).
Qed.

(** The orders that survive the cascade of a customer deletion. *)
Lemma in_cascade (c : caller) (w : customers.row -> bool) (d : database)
    (o : orders.row) :
  consistent d ->
  In o (cascade (filter (targets c customer_row DELETE w) (tbl_customers d))
          (tbl_orders d))
  <-> In o (tbl_orders d)
      /\ ~ exists cu, In cu (tbl_customers d)
                      /\ targets c customer_row DELETE w cu = true
                      /\ orders.customer_id o = customers.id cu.
Proof.
  intros Hd. unfold cascade. rewrite filter_In.
  apply and_iff_compat_l.
  destruct (orders.customer_id o) as [k|] eqn:E.
  - rewrite negb_true_iff, <- not_true_iff_false.
    rewrite (existsb_key_eqb N.eqb N_eqb_iff), in_map_iff.
    split; intros H (cu & Hcu); apply H; exists cu.
    + destruct Hcu as (Hin & Hhit & Hid). split; [now symmetry|].
      apply filter_In. now split.
    + destruct Hcu as (Hid & Hin). apply filter_In in Hin as [Hin Hhit].
      repeat split; auto.
  - split; [|reflexivity]. intros _ (cu & Hin & _ & Hid).
    apply (customers_row_ok cu); [apply (customers_rows_ok d Hd cu Hin)|].
    now symmetry.
Qed.

Lemma delete_customers_consistent (c : caller) (w : customers.row -> bool)
    (d : database) :
  consistent d ->
  consistent
    (mkdb (remaining c customer_row w (tbl_customers d)) (tbl_fabrics d)
       (tbl_garments d)
       (cascade (filter (targets c customer_row DELETE w) (tbl_customers d))
          (tbl_orders d))).
Proof.
  intros Hd. pose proof Hd as Hd'. destruct Hd'
    as [Hcr Hfr Hgr Hor Hcp Hfp Hgp Hop Htk Hcf Hff Hgf].
  constructor; simpl; try assumption.
  - intros r Hr. apply filter_In in Hr as [Hr _]. auto.
  - intros r Hr. apply filter_In in Hr as [Hr _]. auto.
  - now apply unique_keys_filter.
  - now apply unique_keys_filter.
  - now apply unique_keys_filter.
  - apply forallb_forall. intros o Ho.
    pose proof (proj1 (in_cascade c w d o Hd) Ho) as [Hin Hnone].
    unfold remaining. apply references_remaining.
    + rewrite forallb_forall in Hcf. auto.
    + intros cu Hcu Hhit. left. intros Hid. apply Hnone. now exists cu.
  - apply forallb_forall. intros o Ho. apply filter_In in Ho as [Ho _].
    rewrite forallb_forall in Hff. auto.
  - apply forallb_forall. intros o Ho. apply filter_In in Ho as [Ho _].
    rewrite forallb_forall in Hgf. auto.
Qed.

(** C6, as stated, fails: a fabric that an order references cannot be
    deleted; the foreign key of [orders.fabric_id] has no ON DELETE
    action and the statement is rejected. *)
Lemma referenced_fabric_not_deletable :
  exists d : database,
    reachable d
    /\ map fabrics.id (tbl_fabrics d) = [Some 10%N]
    /\ map orders.fabric_id (tbl_orders d) = [Some 10%N]
    /\ exec (Authenticated 7 (Some "admin")) 1700000060000000 12
         (delete_fabrics (fun _ => true)) d
       = Rejected (foreign_key_violation "orders_fabric_id_fkey").
Proof.
  pose (fab := fabrics.mk (F := supplied) Omitted
                 (Supplied (Some "Premium Silk")) (Supplied (Some "Silk"))
                 (Supplied (Some 2500%Z)) (Supplied (Some "Golden"))
                 (Supplied (Some 50%Z)) Omitted Omitted Omitted Omitted
                 Omitted).
  pose (ord := orders.mk (F := supplied) Omitted Omitted
                 (Supplied (Some 10%N)) Omitted Omitted Omitted Omitted
                 Omitted Omitted Omitted Omitted Omitted Omitted Omitted).
  pose (d1 := state_after empty_db
                (exec (Authenticated 7 (Some "admin")) 1700000000000000 10
                   (insert_fabrics fab) empty_db)).
  pose (d2 := state_after d1
                (exec Anonymous 1700000001000000 11 (insert_orders ord) d1)).
  exists d2. split; [|split; [reflexivity | split; [reflexivity|]]].
  - apply (reachable_exec d1 d2 Anonymous 1700000001000000 11
             (insert_orders ord)); [|vm_compute; reflexivity].
    apply (reachable_exec empty_db d1 (Authenticated 7 (Some "admin"))
             1700000000000000 10 (insert_fabrics fab) reachable_empty).
    vm_compute. reflexivity.
  - vm_compute. reflexivity.
Qed.

(** C6 (amended): in a reachable state, a customer deletion commits and
    removes, with the deleted customers, exactly the orders that
    reference one of them.  A fabric or garment deletion is rejected with
    a foreign key violation when an order references a row it would
    delete; otherwise it commits and removes those rows only. *)
Theorem deletes_and_references :
  forall (c : caller) (now : timestamptz) (fresh : uuid) (d : database),
    reachable d ->
    (forall w, exists d',
        exec c now fresh (delete_customers w) d = Ok d'
        /\ (forall cu, In cu (tbl_customers d') <->
                       In cu (tbl_customers d)
                       /\ targets c customer_row DELETE w cu = false)
        /\ (forall o, In o (tbl_orders d') <->
                      In o (tbl_orders d)
                      /\ ~ exists cu,
                            In cu (tbl_customers d)
                            /\ targets c customer_row DELETE w cu = true
                            /\ orders.customer_id o = customers.id cu))
    /\ (forall w,
           ((exists o f, In o (tbl_orders d) /\ In f (tbl_fabrics d)
                         /\ targets c fabric_row DELETE w f = true
                         /\ orders.fabric_id o = fabrics.id f) ->
            exec c now fresh (delete_fabrics w) d
            = Rejected (foreign_key_violation "orders_fabric_id_fkey"))
           /\ ((forall o f, In o (tbl_orders d) -> In f (tbl_fabrics d) ->
                            targets c fabric_row DELETE w f = true ->
                            orders.fabric_id o <> fabrics.id f) ->
               exists d',
                 exec c now fresh (delete_fabrics w) d = Ok d'
                 /\ tbl_orders d' = tbl_orders d
                 /\ forall f, In f (tbl_fabrics d') <->
                              In f (tbl_fabrics d)
                              /\ targets c fabric_row DELETE w f = false))
    /\ (forall w,
           ((exists o g, In o (tbl_orders d) /\ In g (tbl_garments d)
                         /\ targets c garment_row DELETE w g = true
                         /\ orders.garment_id o = garments.id g) ->
            exec c now fresh (delete_garments w) d
            = Rejected (foreign_key_violation "orders_garment_id_fkey"))
           /\ ((forall o g, In o (tbl_orders d) -> In g (tbl_garments d) ->
                            targets c garment_row DELETE w g = true ->
                            orders.garment_id o <> garments.id g) ->
               exists d',
                 exec c now fresh (delete_garments w) d = Ok d'
                 /\ tbl_orders d' = tbl_orders d
                 /\ forall g, In g (tbl_garments d') <->
                              In g (tbl_garments d)
                              /\ targets c garment_row DELETE w g = false)).
Proof.
  intros c now fresh d Hd. apply reachable_consistent in Hd.
  split; [|split].
  - intros w. eexists. split; [|split].
    + simpl. apply commit_consistent. now apply delete_customers_consistent.
    + intros cu. simpl. unfold remaining. rewrite filter_In.
      now rewrite negb_true_iff.
    + intros o. simpl. now apply in_cascade.
  - intros w. split.
    + intros (o & f & Ho & Hf & Hhit & Href). simpl. unfold commit.
      rewrite (violations_delete_fabrics c w d Hd).
      now rewrite (delete_fabrics_dangling c w d o f Hd Ho Hf Hhit Href).
    + intros Hfree. eexists. split; [|split].
      * simpl. unfold commit.
        rewrite (violations_delete_fabrics c w d Hd).
        rewrite (delete_fabrics_free c w d Hd Hfree). reflexivity.
      * reflexivity.
      * intros f. simpl. unfold remaining. rewrite filter_In.
        now rewrite negb_true_iff.
  - intros w. split.
    + intros (o & g & Ho & Hg & Hhit & Href). simpl. unfold commit.
      rewrite (violations_delete_garments c w d Hd).
      now rewrite (delete_garments_dangling c w d o g Hd Ho Hg Hhit Href).
    + intros Hfree. eexists. split; [|split].
      * simpl. unfold commit.
        rewrite (violations_delete_garments c w d Hd).
        rewrite (delete_garments_free c w d Hd Hfree). reflexivity.
      * reflexivity.
      * intros g. simpl. unfold remaining. rewrite filter_In.
        now rewrite negb_true_iff.
Qed.

Lemma deletes_and_references_witness :
  exists d' : database,
    exec (Authenticated 7 (Some "admin")) 1700000060000000 3
      (delete_customers (fun _ => true))
      (state_after
         (state_after empty_db
            (exec (Authenticated 7 (Some "admin")) 1700000000000000 20
               (insert_customers
                  (customers.mk (F := supplied) Omitted
                     (Supplied (Some "Asha")) (Supplied (Some "555"))
                     (Supplied (Some "asha@example.org")) Omitted Omitted
                     Omitted))
               empty_db))
         (exec Anonymous 1700000001000000 21
            (insert_orders
               (orders.mk (F := supplied) Omitted (Supplied (Some 20%N))
                  Omitted Omitted Omitted Omitted Omitted Omitted Omitted
                  Omitted Omitted Omitted Omitted Omitted))
            (state_after empty_db
               (exec (Authenticated 7 (Some "admin")) 1700000000000000 20
                  (insert_customers
                     (customers.mk (F := supplied) Omitted
                        (Supplied (Some "Asha")) (Supplied (Some "555"))
                        (Supplied (Some "asha@example.org")) Omitted Omitted
                        Omitted))
                  empty_db))))
    = Ok d'
    /\ tbl_orders d' = [].
Proof.
  set (cust := customers.mk (F := supplied) Omitted
                 (Supplied (Some "Asha")) (Supplied (Some "555"))
                 (Supplied (Some "asha@example.org")) Omitted Omitted
                 Omitted).
  set (ord := orders.mk (F := supplied) Omitted (Supplied (Some 20%N))
                Omitted Omitted Omitted Omitted Omitted Omitted Omitted
                Omitted Omitted Omitted Omitted Omitted).
  set (d1 := state_after empty_db
               (exec (Authenticated 7 (Some "admin")) 1700000000000000 20
                  (insert_customers cust) empty_db)).
  set (d2 := state_after d1
               (exec Anonymous 1700000001000000 21 (insert_orders ord) d1)).
  assert (Hd2 : reachable d2).
  { apply (reachable_exec d1 d2 Anonymous 1700000001000000 21
             (insert_orders ord)); [|vm_compute; reflexivity].
    apply (reachable_exec empty_db d1 (Authenticated 7 (Some "admin"))
             1700000000000000 20 (insert_customers cust) reachable_empty).
    vm_compute. reflexivity. }
  destruct (deletes_and_references (Authenticated 7 (Some "admin"))
              1700000060000000 3 d2 Hd2) as (Hcust & _).
  destruct (Hcust (fun _ => true)) as (d' & Hexec & _ & Hord).
  exists d'. split; [exact Hexec|].
  destruct (tbl_orders d') as [|o rest]; [reflexivity|]. exfalso.
  destruct (proj1 (Hord o) (or_introl eq_refl)) as [Hin Hnone].
  apply Hnone. destruct Hin as [<- | []].
  exists (customers.fill cust (customers.defaults 20 1700000000000000)).
  split; [left; reflexivity|]. split; reflexivity.
Defined.

(** ** Row level security decisions *)

Ltac decide_rows uid :=
  repeat match goal with
         | r : anyrow |- _ => destruct r
         end;
  cbn;
  repeat match goal with
         | E : String.eqb ?s "admin" = _ |- _ => rewrite !E; cbn
         end;
  repeat match goal with
         | |- context [customers.id ?r] => destruct (customers.id r); cbn
         | |- context [orders.customer_id ?r] =>
             destruct (orders.customer_id r); cbn
         end;
  rewrite ?(N.eqb_sym _ uid);
  repeat match goal with
         | |- context [N.eqb ?a ?b] => destruct (N.eqb a b); cbn
         end;
  reflexivity.

Ltac decide_request :=
  intros c q; unfold spec_authorized, class_of;
  destruct c as [|uid [s|]]; cbn [sql_eq is_true];
  [ | destruct (String.eqb s "admin") eqn:E | ];
  destruct q; decide_rows uid.

(** With [USING] in place of the rejected [WITH CHECK] of the three
    public read policies, the decisions are those of the rule table. *)
Lemma authorized_with_using :
  forall (c : caller) (q : request),
    authorized (map with_using migration_policies) c q
    = spec_authorized c q.
Proof. decide_request. Qed.

(** The policies in force decide as the rule table does, except that the
    three public reads are denied to every caller but an administrator
    (an end user still reads the rows that are their own). *)
Lemma authorized_in_force :
  forall (c : caller) (q : request),
    authorized pg_policy c q
    = match class_of c with
      | anonymous => spec_anonymous_may q && negb (is_select q)
      | end_user uid =>
          spec_anonymous_may q && negb (is_select q) || spec_own uid q
      | administrator => true
      end.
Proof. decide_request. Qed.

(** C3 (code defect): no policy in force lets an anonymous caller read a
    fabric, a garment or an order, which the rule table allows; the
    statements that were to create those policies carry WITH CHECK on a
    SELECT policy and are rejected. *)
Theorem anonymous_reads_denied :
  forall (f : fabrics.row) (g : garments.row) (o : orders.row),
    map create_policy_accepts
      (filter (fun p => match polcmd p, polroles p with
                        | SELECT, [anon; authenticated] => true
                        | _, _ => false
                        end) migration_policies)
    = [false; false; false]
    /\ authorized pg_policy Anonymous (req_select (fabric_row f)) = false
    /\ authorized pg_policy Anonymous (req_select (garment_row g)) = false
    /\ authorized pg_policy Anonymous (req_select (order_row o)) = false
    /\ spec_authorized Anonymous (req_select (fabric_row f)) = true
    /\ spec_authorized Anonymous (req_select (garment_row g)) = true
    /\ spec_authorized Anonymous (req_select (order_row o)) = true.
Proof.
  intros f g o. repeat split.
Qed.

(** ** The list screens *)

Lemma prefix_iff (t : string) : forall s : string,
  String.prefix t s = true <-> exists post, s = (t ++ post)%string.
Proof.
  induction t as [|a t IH]; intros [|b s]; simpl.
  - split; [intros _; now exists "" | reflexivity].
  - split; [intros _; now exists (String b s) | reflexivity].
  - split; [discriminate | intros [post H]; discriminate].
  - destruct (ascii_dec a b) as [<- | Hne].
    + rewrite IH. split; intros [post H]; exists post; congruence.
    + split; [discriminate | intros [post H]; injection H as H _].
      now elim Hne.
Qed.

Lemma includes_iff (t : string) : forall s : string,
  Js.includes s t = true <->
  exists pre post, s = (pre ++ t ++ post)%string.
Proof.
  induction s as [|a s IH]; cbn [Js.includes];
    rewrite orb_true_iff, prefix_iff.
  - split.
    + intros [[post H] | H]; [|discriminate]. now exists "", post.
    + intros ([|b pre] & post & H); [|discriminate]. left. now exists post.
  - rewrite IH. split.
    + intros [[post H] | (pre & post & H)].
      * now exists "", post.
      * exists (String a pre), post. simpl. now rewrite H.
    + intros ([|b pre] & post & H); simpl in H.
      * left. now exists post.
      * right. injection H as _ H. now exists pre, post.
Qed.

Lemma includes_occurs (toLowerCase : string -> string)
    (term field : string) :
  Js.includes (toLowerCase field) (toLowerCase term) = true
  <-> occurs_in toLowerCase term field.
Proof. apply includes_iff. Qed.

Lemma truthy_iff (s : string) : Js.truthy s = true <-> s <> "".
Proof. destruct s; simpl; split; congruence. Qed.

Lemma differs_iff (s t : string) : negb (String.eqb s t) = true <-> s <> t.
Proof.
  rewrite negb_true_iff. destruct (String.eqb_spec s t); split; congruence.
Qed.

(** The shape shared by the three filters: an optional search step
    followed by an optional category step. *)
Lemma in_two_filters {A : Type} (search cat : bool) (p q : A -> bool)
    (l : list A) (x : A) :
  In x (let filtered := l in
        let filtered := if search then filter p filtered else filtered in
        let filtered := if cat then filter q filtered else filtered in
        filtered)
  <-> In x l /\ (search = true -> p x = true) /\ (cat = true -> q x = true).
Proof.
  cbv zeta. destruct search, cat; rewrite ?filter_In; intuition congruence.
Qed.

(** C8, as stated, fails: the fabrics screen does not search the
    description.  The first seed fabric mentions "wedding" there only,
    and the search for it keeps nothing.  (The text is ASCII, where the
    host's [toLowerCase] is [AsciiText.toLowerCase].) *)
Lemma description_not_searched :
  occurs_in AsciiText.toLowerCase "wedding"
    "Luxurious silk fabric perfect for wedding wear and special occasions"
  /\ AdminFabrics.filterFabrics AsciiText.toLowerCase
       [Fabric.mk "f1" "Premium Silk" "Silk" 2500 "Golden" 50
          ["https://images.pexels.com/photos/6069107/pexels-photo-6069107.jpeg"]
          true
          "Luxurious silk fabric perfect for wedding wear and special occasions"
          "2024-01-01T00:00:00Z"]
       "wedding" "all"
     = [].
Proof.
  split; [|reflexivity].
  exists "luxurious silk fabric perfect for ", " wear and special occasions".
  reflexivity.
Qed.

(** C8 (amended): whatever the host's [toLowerCase] is, for a non-empty
    search term each filter keeps exactly the rows in which the term
    occurs, letter case ignored (the lower-cased term is a substring of
    the lower-cased field), in one of the fields that screen searches
    (fabrics: name, material, color; public garments: name, category,
    description; admin garments: name, category) and, when a category
    other than ['all'] is selected, whose material (fabrics) or category
    (garments) is the selected value. *)
Theorem list_filters :
  forall (toLowerCase : string -> string) (term cat : string),
    term <> "" ->
    (forall (fabrics : list Fabric.t) (f : Fabric.t),
        In f (AdminFabrics.filterFabrics toLowerCase fabrics term cat) <->
        In f fabrics
        /\ (occurs_in toLowerCase term (Fabric.name f)
            \/ occurs_in toLowerCase term (Fabric.material f)
            \/ occurs_in toLowerCase term (Fabric.color f))
        /\ (cat <> "all" -> Fabric.material f = cat))
    /\ (forall (garments : list Garment.t) (g : Garment.t),
           In g (Garments.filterGarments toLowerCase garments term cat) <->
           In g garments
           /\ (occurs_in toLowerCase term (Garment.name g)
               \/ occurs_in toLowerCase term (Garment.category g)
               \/ occurs_in toLowerCase term (Garment.description g))
           /\ (cat <> "all" -> Garment.category g = cat))
    /\ (forall (garments : list Garment.t) (g : Garment.t),
           In g (AdminProducts.filterGarments toLowerCase garments term cat)
           <->
           In g garments
           /\ (occurs_in toLowerCase term (Garment.name g)
               \/ occurs_in toLowerCase term (Garment.category g))
           /\ (cat <> "all" -> Garment.category g = cat)).
Proof.
  intros lc term cat Hterm. apply truthy_iff in Hterm.
  split; [|split]; intros l x.
  - unfold AdminFabrics.filterFabrics. rewrite in_two_filters.
    rewrite !orb_true_iff, !includes_occurs, differs_iff, String.eqb_eq.
    intuition.
  - unfold Garments.filterGarments. rewrite in_two_filters.
    rewrite !orb_true_iff, !includes_occurs, differs_iff, String.eqb_eq.
    intuition.
  - unfold AdminProducts.filterGarments. rewrite in_two_filters.
    rewrite !orb_true_iff, !includes_occurs, differs_iff, String.eqb_eq.
    intuition.
Qed.

Lemma list_filters_witness :
  In (Fabric.mk "f1" "Premium Silk" "Silk" 2500 "Golden" 50 [] true
        "Luxurious silk fabric" "2024-01-01T00:00:00Z")
    (AdminFabrics.filterFabrics AsciiText.toLowerCase
       [Fabric.mk "f1" "Premium Silk" "Silk" 2500 "Golden" 50 [] true
          "Luxurious silk fabric" "2024-01-01T00:00:00Z";
        Fabric.mk "f2" "Italian Wool" "Wool" 3200 "Navy Blue" 30 [] true
          "Premium Italian wool" "2024-01-01T00:00:00Z"]
       "silk" "Silk").
Proof.
  assert (Hterm : "silk" <> "") by discriminate.
  apply (proj1 (list_filters AsciiText.toLowerCase "silk" "Silk" Hterm)).
  split; [left; reflexivity|]. split; [|reflexivity].
  left. exists "premium ", "". reflexivity.
Defined.

Lemma flip_flip (f : Fabric.t) : AdminFabrics.flip (AdminFabrics.flip f) = f.
Proof. destruct f. unfold AdminFabrics.flip. simpl. now rewrite negb_involutive. Qed.

Lemma find_present {A : Type} (p : A -> bool) (l : list A) (x : A) :
  In x l -> p x = true -> exists y, find p l = Some y.
Proof.
  induction l as [|a l IH]; simpl; [intros []|].
  intros [<- | Hx] Hp.
  - rewrite Hp. now exists a.
  - destruct (p a); [now exists a | auto].
Qed.

Lemma toggle_map (fabrics : list Fabric.t) (f0 : Fabric.t) :
  In f0 fabrics ->
  AdminFabrics.toggleFeatured fabrics (Fabric.id f0) None
  = map (fun f => if String.eqb (Fabric.id f) (Fabric.id f0)
                  then AdminFabrics.flip f else f) fabrics.
Proof.
  intros Hin. unfold AdminFabrics.toggleFeatured.
  destruct (find_present (fun f => String.eqb (Fabric.id f) (Fabric.id f0))
              fabrics f0 Hin (String.eqb_refl _)) as [y ->].
  reflexivity.
Qed.

(** C10, as stated, fails: when the store reports an error the awaited
    update throws, the handler logs it, and the collection keeps the
    flag as it was. *)
Lemma toggle_with_store_error :
  AdminFabrics.toggleFeatured
    [Fabric.mk "f2" "Italian Wool" "Wool" 3200 "Navy Blue" 30 [] true
       "Premium Italian wool" "2024-01-01T00:00:00Z"]
    "f2" (Some "Failed to fetch")
  = [Fabric.mk "f2" "Italian Wool" "Wool" 3200 "Navy Blue" 30 [] true
       "Premium Italian wool" "2024-01-01T00:00:00Z"].
Proof. reflexivity. Qed.

(** C10 (amended): when the store reports no error, [toggleFeatured] on
    the id of a fabric of the collection negates the [featured] flag of
    the fabric with that id, keeps its other fields, keeps every fabric
    with another id as it is, and applied twice gives the collection
    back; when the store reports an error the collection stays as it
    is. *)
Theorem toggleFeatured_flips :
  forall (fabrics : list Fabric.t) (f0 : Fabric.t),
    In f0 fabrics ->
    Forall2 (fun f f' =>
               if String.eqb (Fabric.id f) (Fabric.id f0)
               then Fabric.featured f' = negb (Fabric.featured f)
                    /\ same_but_featured f f'
               else f' = f)
      fabrics (AdminFabrics.toggleFeatured fabrics (Fabric.id f0) None)
    /\ AdminFabrics.toggleFeatured
         (AdminFabrics.toggleFeatured fabrics (Fabric.id f0) None)
         (Fabric.id f0) None
       = fabrics
    /\ (forall e : string,
           AdminFabrics.toggleFeatured fabrics (Fabric.id f0) (Some e)
           = fabrics).
Proof.
  intros fabrics f0 Hin. split; [|split].
  - rewrite (toggle_map fabrics f0 Hin). clear Hin.
    induction fabrics as [|f l IH]; simpl; constructor; [|exact IH].
    destruct (String.eqb (Fabric.id f) (Fabric.id f0)); [|reflexivity].
    split; [reflexivity | repeat split].
  - rewrite (toggle_map fabrics f0 Hin).
    assert (Hin' : In (AdminFabrics.flip f0)
                     (map (fun f => if String.eqb (Fabric.id f) (Fabric.id f0)
                                    then AdminFabrics.flip f else f)
                        fabrics)).
    { apply in_map_iff. exists f0. split; [|exact Hin].
      now rewrite String.eqb_refl. }
    pose proof (toggle_map _ (AdminFabrics.flip f0) Hin') as H.
    change (Fabric.id (AdminFabrics.flip f0)) with (Fabric.id f0) in H.
    rewrite H, map_map. rewrite <- (map_id fabrics) at 2.
    apply map_ext. intros f.
    destruct (String.eqb (Fabric.id f) (Fabric.id f0)) eqn:E.
    + change (Fabric.id (AdminFabrics.flip f)) with (Fabric.id f).
      rewrite E. apply flip_flip.
    + now rewrite E.
  - intros e. unfold AdminFabrics.toggleFeatured.
    now destruct (find _ fabrics).
Qed.

Lemma toggleFeatured_flips_witness :
  map Fabric.featured
    (AdminFabrics.toggleFeatured
       [Fabric.mk "f1" "Premium Silk" "Silk" 2500 "Golden" 50 [] true
          "Luxurious silk fabric" "2024-01-01T00:00:00Z";
        Fabric.mk "f2" "Italian Wool" "Wool" 3200 "Navy Blue" 30 [] true
          "Premium Italian wool" "2024-01-01T00:00:00Z"]
       "f2" None)
  = [true; false]
  /\ AdminFabrics.toggleFeatured
       (AdminFabrics.toggleFeatured
          [Fabric.mk "f1" "Premium Silk" "Silk" 2500 "Golden" 50 [] true
             "Luxurious silk fabric" "2024-01-01T00:00:00Z";
           Fabric.mk "f2" "Italian Wool" "Wool" 3200 "Navy Blue" 30 [] true
             "Premium Italian wool" "2024-01-01T00:00:00Z"]
          "f2" None)
       "f2" None
     = [Fabric.mk "f1" "Premium Silk" "Silk" 2500 "Golden" 50 [] true
          "Luxurious silk fabric" "2024-01-01T00:00:00Z";
        Fabric.mk "f2" "Italian Wool" "Wool" 3200 "Navy Blue" 30 [] true
          "Premium Italian wool" "2024-01-01T00:00:00Z"].
Proof.
  split; [reflexivity|].
  refine (proj1 (proj2
            (toggleFeatured_flips
               [Fabric.mk "f1" "Premium Silk" "Silk" 2500 "Golden" 50 []
                  true "Luxurious silk fabric" "2024-01-01T00:00:00Z";
                Fabric.mk "f2" "Italian Wool" "Wool" 3200 "Navy Blue" 30 []
                  true "Premium Italian wool" "2024-01-01T00:00:00Z"]
               (Fabric.mk "f2" "Italian Wool" "Wool" 3200 "Navy Blue" 30 []
                  true "Premium Italian wool" "2024-01-01T00:00:00Z")
               _))).
  right. left. reflexivity.
Defined.

(** The paths of [toggleFeatured] that do not reach [setFabrics]. *)
Lemma toggleFeatured_no_change (fabrics : list Fabric.t) (fabricId : string)
    (error : option string) :
  find (fun f => String.eqb (Fabric.id f) fabricId) fabrics = None
  \/ error <> None ->
  AdminFabrics.toggleFeatured fabrics fabricId error = fabrics.
Proof.
  unfold AdminFabrics.toggleFeatured. intros [-> | He]; [reflexivity|].
  destruct (find _ fabrics); [|reflexivity].
  destruct error; [reflexivity | now elim He].
Qed.

(** * Further properties of the migration *)

(** ** The format of issued tracking codes *)

Lemma cycle_length (fill : string) : fill <> "" ->
  forall (n : nat) (cur : string), String.length (Pg.cycle n fill cur) = n.
Proof.
  intros Hfill. induction n as [|n IH]; intros cur; simpl; [reflexivity|].
  destruct cur as [|a cur]; [destruct fill as [|b fill]|]; simpl;
    try now rewrite IH.
  now elim Hfill.
Qed.

Lemma substring_length (n : nat) : forall s : string,
  n <= String.length s -> String.length (substring 0 n s) = n.
Proof.
  induction n as [|n IH]; intros [|a s] Hn; simpl in *; try reflexivity;
    try lia.
  now rewrite IH by lia.
Qed.

(** [LPAD] with a non-empty fill returns exactly [len] characters. *)
Lemma lpad_length (s fill : string) (len : nat) :
  fill <> "" -> String.length (Pg.lpad s len fill) = len.
Proof.
  intros Hfill. unfold Pg.lpad.
  destruct (Nat.leb_spec len (String.length s)).
  - now apply substring_length.
  - rewrite length_append, cycle_length by assumption. lia.
Qed.

Lemma digit_is_digit (d : N) : (d < 10)%N -> is_digit (Pg.digit d) = true.
Proof.
  intros Hd.
  assert (H : (d = 0 \/ d = 1 \/ d = 2 \/ d = 3 \/ d = 4 \/ d = 5
               \/ d = 6 \/ d = 7 \/ d = 8 \/ d = 9)%N) by lia.
  repeat (destruct H as [-> | H]; [reflexivity|]). now subst d.
Qed.

Lemma to_digits_all_digits (f : nat) : forall (n : N) (acc : string),
  all_digits acc = true -> all_digits (Pg.to_digits f n acc) = true.
Proof.
  induction f as [|f IH]; intros n acc Hacc; simpl; [exact Hacc|].
  assert (Hd : all_digits (String (Pg.digit (n mod 10)) acc) = true).
  { simpl. rewrite Hacc, digit_is_digit; [reflexivity|].
    apply N.mod_lt. discriminate. }
  destruct (n <? 10)%N; [exact Hd | now apply IH].
Qed.

Lemma decimal_all_digits (n : N) : all_digits (Pg.decimal n) = true.
Proof. now apply to_digits_all_digits. Qed.

Lemma substring_all_digits (n : nat) : forall s : string,
  all_digits s = true -> all_digits (substring 0 n s) = true.
Proof.
  induction n as [|n IH]; intros [|a s] Hs; simpl in *; try reflexivity.
  apply andb_true_iff in Hs as [Ha Hs]. now rewrite Ha, IH.
Qed.

(** X1: whatever the clock, an order inserted without a tracking code is
    stored with a code of twelve characters, ["RT"] and ten more; from
    2001-09-09 on the ten are decimal digits. *)
Theorem issued_code_format :
  forall (c : caller) (now : timestamptz) (fresh : uuid)
         (v : orders.values) (d d' : database),
    no_tracking_supplied v ->
    exec c now fresh (insert_orders v) d = Ok d' ->
    exists (new : orders.row) (code : string),
      tbl_orders d' = tbl_orders d ++ [new]
      /\ orders.tracking_id new = Some ("RT" ++ code)%string
      /\ String.length code = 10
      /\ ((1000000000 <= Pg.epoch_seconds now)%Z ->
          all_digits code = true).
Proof.
  intros c now fresh v d d' Hno Hexec.
  rewrite exec_insert_orders in Hexec. apply commit_ok in Hexec as [-> _].
  eexists. exists (Pg.lpad (Pg.epoch_text now) 10 "0").
  split; [reflexivity|]. split; [now apply derived_code|].
  split; [apply lpad_length; discriminate|].
  intros Hlo. rewrite lpad_epoch_text by assumption.
  unfold Pg.lpad.
  pose proof (decimal_length_ge 9 (Z.to_N (Pg.epoch_seconds now))) as Hlen.
  change (10 ^ N.of_nat 9)%N with 1000000000%N in Hlen.
  specialize (Hlen ltac:(lia)).
  destruct (Nat.leb_spec 10
              (String.length (Pg.decimal (Z.to_N (Pg.epoch_seconds now)))));
    [|lia].
  apply substring_all_digits, decimal_all_digits.
Qed.

Lemma issued_code_format_witness :
  exists (new : orders.row) (code : string),
    tbl_orders
      (state_after empty_db
         (exec Anonymous 1700000000123456 1 (insert_orders orders.nothing)
            empty_db))
    = tbl_orders empty_db ++ [new]
    /\ orders.tracking_id new = Some ("RT" ++ code)%string
    /\ String.length code = 10
    /\ ((1000000000 <= Pg.epoch_seconds 1700000000123456)%Z ->
        all_digits code = true).
Proof.
  apply (issued_code_format Anonymous 1700000000123456 1 orders.nothing
           empty_db).
  - left. reflexivity.
  - vm_compute. reflexivity.
Defined.

(** ** What a caller who is not an administrator can change *)

Lemma non_admin_sees_nothing_to_change (c : caller) (r : anyrow) :
  class_of c <> administrator ->
  rls_using pg_policy c UPDATE r = false
  /\ rls_using pg_policy c DELETE r = false.
Proof.
  unfold class_of. destruct c as [|uid [s|]]; cbn [sql_eq is_true];
    [ | destruct (String.eqb s "admin") eqn:E | ]; intros Hclass;
    try (now elim Hclass); destruct r; cbn; rewrite ?E; split; reflexivity.
Qed.

Lemma no_targets {R : Type} (c : caller) (wrap : R -> anyrow)
    (w : R -> bool) (r : R) :
  class_of c <> administrator ->
  targets c wrap UPDATE w r = false /\ targets c wrap DELETE w r = false.
Proof.
  intros Hc. unfold targets.
  destruct (non_admin_sees_nothing_to_change c (wrap r) Hc) as [-> ->].
  now rewrite andb_false_r.
Qed.

Lemma update_rows_no_targets {R : Type} `{Timestamped R} (c : caller)
    (now : timestamptz) (wrap : R -> anyrow) (tname : string)
    (fill : R -> R) (w : R -> bool) (rows : list R)
    (store : list R -> database) :
  class_of c <> administrator ->
  update_rows c now wrap tname fill w rows store = commit (store rows).
Proof.
  intros Hc. unfold update_rows.
  replace (forallb _ rows) with true.
  - f_equal. f_equal. rewrite <- (map_id rows) at 2. apply map_ext.
    intros r. unfold updated.
    now destruct (no_targets c wrap w r Hc) as [-> _].
  - symmetry. apply forallb_forall. intros r _.
    now destruct (no_targets c wrap w r Hc) as [-> _].
Qed.

Lemma remaining_no_targets {R : Type} (c : caller) (wrap : R -> anyrow)
    (w : R -> bool) (rows : list R) :
  class_of c <> administrator -> remaining c wrap w rows = rows.
Proof.
  intros Hc. unfold remaining. rewrite <- (filter_all rows) at 2.
  apply filter_ext. intros r.
  now destruct (no_targets c wrap w r Hc) as [_ ->].
Qed.

Lemma filter_no_targets {R : Type} (c : caller) (wrap : R -> anyrow)
    (w : R -> bool) (rows : list R) :
  class_of c <> administrator ->
  filter (targets c wrap DELETE w) rows = [].
Proof.
  intros Hc. induction rows as [|r rows IH]; simpl; [reflexivity|].
  now destruct (no_targets c wrap w r Hc) as [_ ->].
Qed.

Lemma cascade_nil (os : list orders.row) : cascade [] os = os.
Proof.
  unfold cascade. rewrite <- (filter_all os) at 2. apply filter_ext.
  intros o. now destruct (orders.customer_id o).
Qed.

(** X2: an UPDATE or DELETE by a caller who is not an administrator
    commits and changes nothing, on any table and whatever its WHERE
    clause and SET list: no policy lets such a caller see a row to
    change. *)
Theorem non_admin_changes_nothing :
  forall (c : caller) (now : timestamptz) (fresh : uuid) (st : statement)
         (d : database),
    reachable d ->
    class_of c <> administrator ->
    is_update_or_delete st = true ->
    exec c now fresh st d = Ok d.
Proof.
  intros c now fresh st d Hd Hc Hst.
  apply reachable_consistent in Hd. apply commit_consistent in Hd.
  destruct d as [cs fs gs os].
  destruct st; try discriminate Hst; simpl;
    rewrite ?update_rows_no_targets, ?remaining_no_targets,
      ?filter_no_targets, ?cascade_nil by assumption;
    exact Hd.
Qed.

Lemma non_admin_changes_nothing_witness :
  exec (Authenticated 9 (Some "authenticated")) 1700000060000000 2
    (delete_orders (fun _ => true))
    (state_after empty_db
       (exec Anonymous 1700000000000000 1 (insert_orders orders.nothing)
          empty_db))
  = Ok (state_after empty_db
          (exec Anonymous 1700000000000000 1 (insert_orders orders.nothing)
             empty_db)).
Proof.
  apply non_admin_changes_nothing.
  - apply (reachable_exec empty_db _ Anonymous 1700000000000000 1
             (insert_orders orders.nothing) reachable_empty).
    vm_compute. reflexivity.
  - discriminate.
  - reflexivity.
Defined.

(** X3: only an administrator can add to the catalogue: an INSERT into
    [fabrics] or [garments] by any other caller is refused by row level
    security, whatever the row, and leaves the store as it is. *)
Theorem catalogue_insert_needs_admin :
  forall (c : caller) (now : timestamptz) (fresh : uuid) (d : database),
    class_of c <> administrator ->
    (forall v,
        exec c now fresh (insert_fabrics v) d
        = Rejected (insufficient_privilege "fabrics")
        /\ state_after d (exec c now fresh (insert_fabrics v) d) = d)
    /\ (forall v,
           exec c now fresh (insert_garments v) d
           = Rejected (insufficient_privilege "garments")
           /\ state_after d (exec c now fresh (insert_garments v) d) = d).
Proof.
  intros c now fresh d. unfold class_of.
  destruct c as [|uid [s|]]; cbn [sql_eq is_true];
    [ | destruct (String.eqb s "admin") eqn:E | ]; intros Hc;
    try (now elim Hc); split; intros v; simpl; unfold insert_row; cbn;
    rewrite ?E; cbn; split; reflexivity.
Qed.

Lemma catalogue_insert_needs_admin_witness :
  exec Anonymous 1700000000000000 1
    (insert_fabrics
       (fabrics.mk (F := supplied) Omitted (Supplied (Some "Tweed"))
          (Supplied (Some "Wool")) (Supplied (Some 900%Z))
          (Supplied (Some "Grey")) (Supplied (Some 5%Z)) Omitted Omitted
          Omitted Omitted Omitted))
    empty_db
  = Rejected (insufficient_privilege "fabrics").
Proof.
  apply (catalogue_insert_needs_admin Anonymous 1700000000000000 1
           empty_db).
  discriminate.
Defined.

(** ** Constraints on INSERT *)

Lemma rls_insert_customers (c : caller) (r : customers.row) :
  rls_check pg_policy c INSERT (customer_row r) = true.
Proof. destruct c; reflexivity. Qed.

(** X4: a customer cannot be stored without a name, a phone and an
    email.  An INSERT by any caller, in any reachable state, that leaves
    the name out or gives NULL for it is rejected with the NOT NULL
    violation of [name]; one that gives a name but no phone, with that of
    [phone]; one that gives a name and a phone but no email, with that of
    [email]: the violation reported is that of the first such column. *)
Theorem customer_needs_contact :
  forall (c : caller) (now : timestamptz) (fresh : uuid)
         (v : customers.values) (d : database),
    reachable d ->
    customers.id v <> Supplied None ->
    (or_else (customers.name v) None = None ->
     exec c now fresh (insert_customers v) d
     = Rejected (not_null_violation "customers" "name"))
    /\ (or_else (customers.name v) None <> None ->
        or_else (customers.phone v) None = None ->
        exec c now fresh (insert_customers v) d
        = Rejected (not_null_violation "customers" "phone"))
    /\ (or_else (customers.name v) None <> None ->
        or_else (customers.phone v) None <> None ->
        or_else (customers.email v) None = None ->
        exec c now fresh (insert_customers v) d
        = Rejected (not_null_violation "customers" "email")).
Proof.
  intros c now fresh v d Hd Hid.
  apply reachable_consistent in Hd.
  pose proof (customers_rows_ok d Hd) as Hrows.
  apply flat_map_nil in Hrows.
  simpl. unfold insert_row. rewrite rls_insert_customers.
  unfold commit, violations. simpl tbl_customers.
  rewrite flat_map_app, Hrows. cbn [flat_map app].
  unfold customers_row_violations. cbn.
  destruct (customers.id v) as [|[i|]]; [| |now elim Hid]; cbn;
    destruct (customers.name v) as [|[n|]]; cbn;
    destruct (customers.phone v) as [|[p|]]; cbn;
    destruct (customers.email v) as [|[e|]]; cbn;
    (split; [|split]); intros; try reflexivity; congruence.
Qed.

Lemma customer_needs_contact_witness :
  exec Anonymous 1700000000000000 1
    (insert_customers
       (customers.mk (F := supplied) Omitted (Supplied (Some "Asha"))
          Omitted (Supplied (Some "asha@example.org")) Omitted Omitted
          Omitted))
    empty_db
  = Rejected (not_null_violation "customers" "phone").
Proof.
  refine (proj1 (proj2 (customer_needs_contact Anonymous 1700000000000000 1
                          _ empty_db reachable_empty _)) _ _).
  - discriminate.
  - discriminate.
  - reflexivity.
Defined.

Lemma forallb_last {A : Type} (p : A -> bool) (l : list A) (x : A) :
  forallb p (l ++ [x]) = true -> p x = true.
Proof.
  rewrite forallb_app. intros H. apply andb_true_iff in H as [_ H].
  simpl in H. now rewrite andb_true_r in H.
Qed.

(** X5: an order cannot be stored with a reference to a customer, fabric
    or garment that is not stored: such an INSERT is rejected and leaves
    the store as it is. *)
Theorem order_references_must_exist :
  forall (c : caller) (now : timestamptz) (fresh : uuid)
         (v : orders.values) (d : database) (k : uuid),
    (orders.customer_id v = Supplied (Some k)
     /\ ~ In (Some k) (map customers.id (tbl_customers d)))
    \/ (orders.fabric_id v = Supplied (Some k)
        /\ ~ In (Some k) (map fabrics.id (tbl_fabrics d)))
    \/ (orders.garment_id v = Supplied (Some k)
        /\ ~ In (Some k) (map garments.id (tbl_garments d))) ->
    (exists e, exec c now fresh (insert_orders v) d = Rejected e)
    /\ state_after d (exec c now fresh (insert_orders v) d) = d.
Proof.
  intros c now fresh v d k Hdangling.
  assert (Hrej : exists e, exec c now fresh (insert_orders v) d = Rejected e).
  { apply not_ok_rejected. intros d' Hexec.
    pose proof (exec_consistent _ _ _ _ _ _ Hexec) as Hc.
    rewrite exec_insert_orders in Hexec. apply commit_ok in Hexec as [-> _].
    destruct Hc as [_ _ _ _ _ _ _ _ _ Hcf Hff Hgf]. simpl in Hcf, Hff, Hgf.
    apply forallb_last in Hcf, Hff, Hgf.
    rewrite set_tracking_id_shape in Hcf, Hff, Hgf. cbn in Hcf, Hff, Hgf.
    destruct Hdangling as [[Hv Hk] | [[Hv Hk] | [Hv Hk]]]; apply Hk;
      apply references_in; rewrite Hv in *; assumption. }
  split; [exact Hrej|]. destruct Hrej as [e ->]. reflexivity.
Qed.

Lemma order_references_must_exist_witness :
  exec Anonymous 1700000000000000 1
    (insert_orders
       (orders.mk (F := supplied) Omitted (Supplied (Some 20%N)) Omitted
          Omitted Omitted Omitted Omitted Omitted Omitted Omitted Omitted
          Omitted Omitted Omitted))
    empty_db
  = Rejected (foreign_key_violation "orders_customer_id_fkey").
Proof.
  destruct (order_references_must_exist Anonymous 1700000000000000 1
              (orders.mk (F := supplied) Omitted (Supplied (Some 20%N))
                 Omitted Omitted Omitted Omitted Omitted Omitted Omitted
                 Omitted Omitted Omitted Omitted Omitted)
              empty_db 20) as [[e He] _].
  - left. split; [reflexivity | intros []].
  - rewrite He. vm_compute in He. exact (eq_sym He).
Defined.

Lemma unique_keys_last {K : Type} (eqb : K -> K -> bool)
    (eqb_eq : forall x y, eqb x y = true <-> x = y) (k : K)
    (ks : list (option K)) :
  unique_keys eqb (ks ++ [Some k]) = true -> ~ In (Some k) ks.
Proof.
  induction ks as [|[x|] ks IH]; simpl; intros Hu.
  - intros [].
  - apply andb_true_iff in Hu as [Hx Hu]. intros [[= ->] | Hin].
    + apply negb_true_iff in Hx.
      rewrite existsb_app in Hx. apply orb_false_iff in Hx as [_ Hx].
      simpl in Hx. rewrite orb_false_r in Hx.
      assert (eqb k k = true) by now apply eqb_eq. congruence.
    + now apply IH.
  - intros [H | Hin]; [discriminate | now apply IH].
Qed.

(** X6: the primary key of [orders] holds on INSERT: when the id of the
    new order, given by the caller or generated, is the id of a stored
    order, the INSERT is rejected and leaves the store as it is. *)
Theorem order_id_must_be_new :
  forall (c : caller) (now : timestamptz) (fresh : uuid)
         (v : orders.values) (d : database) (o : orders.row),
    In o (tbl_orders d) ->
    orders.id o = or_else (orders.id v) (Some fresh) ->
    (exists e, exec c now fresh (insert_orders v) d = Rejected e)
    /\ state_after d (exec c now fresh (insert_orders v) d) = d.
Proof.
  intros c now fresh v d o Ho Hid.
  assert (Hrej : exists e, exec c now fresh (insert_orders v) d = Rejected e).
  { apply not_ok_rejected. intros d' Hexec.
    pose proof (exec_consistent _ _ _ _ _ _ Hexec) as Hc.
    rewrite exec_insert_orders in Hexec. apply commit_ok in Hexec as [-> _].
    pose proof (orders_rows_ok _ Hc _ (in_app_last _ _)) as Hnew.
    apply orders_row_ok in Hnew as (Hnn & _).
    pose proof (orders_pkey _ Hc) as Hpk. simpl in Hpk, Hnn.
    rewrite map_app in Hpk. simpl in Hpk.
    rewrite set_tracking_id_shape in Hpk, Hnn. cbn in Hpk, Hnn.
    rewrite <- Hid in Hpk, Hnn.
    destruct (orders.id o) as [k|] eqn:E; [|now elim Hnn].
    apply (unique_keys_last N.eqb N_eqb_iff) in Hpk. apply Hpk.
    apply in_map_iff. exists o. now split. }
  split; [exact Hrej|]. destruct Hrej as [e ->]. reflexivity.
Qed.

Lemma order_id_must_be_new_witness :
  exec Anonymous 1700000005000000 1
    (insert_orders (orders.only_tracking (Supplied (Some "B2"))))
    (state_after empty_db
       (exec Anonymous 1700000000000000 1
          (insert_orders (orders.only_tracking (Supplied (Some "A1"))))
          empty_db))
  = Rejected (unique_violation "orders_pkey").
Proof.
  destruct (order_id_must_be_new Anonymous 1700000005000000 1
              (orders.only_tracking (Supplied (Some "B2")))
              (state_after empty_db
                 (exec Anonymous 1700000000000000 1
                    (insert_orders (orders.only_tracking
                                      (Supplied (Some "A1"))))
                    empty_db))
              (orders.set_tracking (Some "A1")
                 (orders.defaults 1 1700000000000000)))
    as [[e He] _].
  - left. reflexivity.
  - reflexivity.
  - rewrite He. vm_compute in He. exact (eq_sym He).
Defined.

(** ** The order lifecycle and what statements leave alone *)

Lemma admin_passes (c : caller) (cmd : command) (r : anyrow) :
  class_of c = administrator ->
  rls_using pg_policy c cmd r = true /\ rls_check pg_policy c cmd r = true.
Proof.
  unfold class_of. destruct c as [|uid [s|]]; cbn [sql_eq is_true];
    [ | destruct (String.eqb s "admin") eqn:E | ]; intros Hclass;
    try discriminate Hclass; destruct r, cmd; cbn; rewrite ?E; simpl;
    rewrite ?orb_true_r; split; reflexivity.
Qed.

Lemma admin_targets {R : Type} (c : caller) (wrap : R -> anyrow)
    (cmd : command) (w : R -> bool) (r : R) :
  class_of c = administrator -> targets c wrap cmd w r = w r.
Proof.
  intros Hc. unfold targets.
  destruct (admin_passes c cmd (wrap r) Hc) as [-> _]. apply andb_true_r.
Qed.

Lemma with_orders_same (d : database) : with_orders (tbl_orders d) d = d.
Proof. now destruct d. Qed.

(** X7: the store orders no status before another: an administrator's
    UPDATE that sets the status to any of the eight values commits from
    every reachable state, whatever the statuses the selected orders
    have; those orders then carry the new status and keep their keys,
    tracking code and price, and the orders not selected are as they
    were. *)
Theorem any_status_can_follow_any :
  forall (c : caller) (now : timestamptz) (fresh : uuid)
         (where_ : orders.row -> bool) (d : database) (s : string),
    reachable d ->
    class_of c = administrator ->
    In s order_statuses ->
    exists d' : database,
      exec c now fresh
        (update_orders (orders.only_status (Supplied (Some s))) where_) d
      = Ok d'
      /\ Forall2 (fun o o' => if where_ o
                              then orders.status o' = Some s /\ agree o o'
                              else o' = o)
           (tbl_orders d) (tbl_orders d').
Proof.
  intros c now fresh where_ d s Hd Hc Hs.
  apply reachable_consistent in Hd.
  assert (Hcheck : status_check (Some s) = true).
  { apply status_check_iff. right. now exists s. }
  set (upd := updated c now order_row
                (orders.fill (orders.only_status (Supplied (Some s))))
                where_).
  assert (Hupd : forall o, upd o = if where_ o
                                   then orders.set_updated_at (Some now)
                                          (orders.set_status (Some s) o)
                                   else o).
  { intros o. unfold upd, updated.
    rewrite (admin_targets c order_row UPDATE where_ o Hc).
    destruct (where_ o); [|reflexivity]. now destruct o. }
  exists (with_orders (map upd (tbl_orders d)) d). split.
  - simpl. unfold update_rows. fold upd.
    replace (forallb _ (tbl_orders d)) with true.
    + apply commit_consistent.
      apply (consistent_agree d (tbl_orders d)).
      * now rewrite with_orders_same.
      * rewrite <- (map_id (tbl_orders d)) at 1. apply forall2_map.
        intros o. rewrite Hupd. destruct (where_ o); repeat split.
      * intros o' Hin. apply in_map_iff in Hin as (o & <- & Ho).
        rewrite Hupd. destruct (where_ o); [exact Hcheck|].
        now destruct (orders_row_ok o (orders_rows_ok d Hd o Ho))
          as (_ & _ & _ & H).
    + symmetry. apply forallb_forall. intros o _.
      destruct (admin_passes c UPDATE (order_row (upd o)) Hc) as [_ ->].
      apply orb_true_r.
  - simpl. induction (tbl_orders d) as [|o os IH]; simpl; constructor;
      [|exact IH].
    rewrite Hupd. destruct (where_ o); [|reflexivity].
    split; [reflexivity | repeat split].
Qed.

Lemma any_status_can_follow_any_witness :
  exists d' : database,
    exec (Authenticated 7 (Some "admin")) 1700000060000000 2
      (update_orders (orders.only_status (Supplied (Some "completed")))
         (fun _ => true))
      (state_after empty_db
         (exec Anonymous 1700000000000000 1 (insert_orders orders.nothing)
            empty_db))
    = Ok d'
    /\ map orders.status (tbl_orders d') = [Some "completed"].
Proof.
  destruct (any_status_can_follow_any (Authenticated 7 (Some "admin"))
              1700000060000000 2 (fun _ => true)
              (state_after empty_db
                 (exec Anonymous 1700000000000000 1
                    (insert_orders orders.nothing) empty_db))
              "completed") as (d' & Hexec & Hrows).
  - apply (reachable_exec empty_db _ Anonymous 1700000000000000 1
             (insert_orders orders.nothing) reachable_empty).
    vm_compute. reflexivity.
  - reflexivity.
  - do 7 right. now left.
  - exists d'. split; [exact Hexec|].
    inversion Hrows as [|o o' os os' [Hs _] Hrest Ho Ho']; subst.
    inversion Hrest; subst. simpl. now rewrite Hs.
Defined.

(** X8: a committed statement changes the table it is addressed to and
    no other, with one exception: a DELETE on [customers] may also remove
    orders.  In particular no statement on [orders] touches a fabric's
    stock. *)
Theorem other_tables_untouched :
  forall (c : caller) (now : timestamptz) (fresh : uuid) (st : statement)
         (d d' : database),
    exec c now fresh st d = Ok d' ->
    (table_of_statement st <> t_customers ->
     tbl_customers d' = tbl_customers d)
    /\ (table_of_statement st <> t_fabrics -> tbl_fabrics d' = tbl_fabrics d)
    /\ (table_of_statement st <> t_garments ->
        tbl_garments d' = tbl_garments d)
    /\ (table_of_statement st <> t_orders ->
        (forall w, st <> delete_customers w) ->
        tbl_orders d' = tbl_orders d).
Proof.
  intros c now fresh st d d' Hexec.
  destruct st; simpl in Hexec;
    first [ apply insert_row_ok in Hexec as [-> _]
          | apply update_rows_ok in Hexec as [-> _]
          | apply commit_ok in Hexec as [-> _] ];
    simpl; repeat split; intros Ht; try reflexivity; try (now elim Ht).
  intros Hw. now elim (Hw where_).
Qed.

Lemma other_tables_untouched_witness :
  tbl_fabrics
    (state_after empty_db
       (exec Anonymous 1700000000000000 1 (insert_orders orders.nothing)
          empty_db))
  = tbl_fabrics empty_db.
Proof.
  refine (proj1 (proj2
            (other_tables_untouched Anonymous 1700000000000000 1
               (insert_orders orders.nothing) empty_db _ _)) _).
  - vm_compute. reflexivity.
  - discriminate.
Defined.

(** X9: no order ever dangles: in every reachable state each reference
    of an order that is not NULL names a stored customer, fabric or
    garment. *)
Theorem references_always_resolve :
  forall (d : database) (o : orders.row),
    reachable d -> In o (tbl_orders d) ->
    (forall k, orders.customer_id o = Some k ->
               exists cu, In cu (tbl_customers d)
                          /\ customers.id cu = Some k)
    /\ (forall k, orders.fabric_id o = Some k ->
                  exists f, In f (tbl_fabrics d) /\ fabrics.id f = Some k)
    /\ (forall k, orders.garment_id o = Some k ->
                  exists g, In g (tbl_garments d)
                            /\ garments.id g = Some k).
Proof.
  intros d o Hd Ho. apply reachable_consistent in Hd.
  destruct Hd as [_ _ _ _ _ _ _ _ _ Hcf Hff Hgf].
  rewrite forallb_forall in Hcf, Hff, Hgf.
  specialize (Hcf o Ho). specialize (Hff o Ho). specialize (Hgf o Ho).
  repeat split; intros k Hk; rewrite Hk in *.
  - apply references_in, in_map_iff in Hcf as (x & Hx & Hin). now exists x.
  - apply references_in, in_map_iff in Hff as (x & Hx & Hin). now exists x.
  - apply references_in, in_map_iff in Hgf as (x & Hx & Hin). now exists x.
Qed.

Lemma references_always_resolve_witness :
  exists cu,
    In cu
      (tbl_customers
         (state_after
            (state_after empty_db
               (exec Anonymous 1700000000000000 20
                  (insert_customers
                     (customers.mk (F := supplied) Omitted
                        (Supplied (Some "Asha")) (Supplied (Some "555"))
                        (Supplied (Some "asha@example.org")) Omitted
                        Omitted Omitted))
                  empty_db))
            (exec Anonymous 1700000001000000 21
               (insert_orders
                  (orders.mk (F := supplied) Omitted (Supplied (Some 20%N))
                     Omitted Omitted Omitted Omitted Omitted Omitted
                     Omitted Omitted Omitted Omitted Omitted Omitted))
               (state_after empty_db
                  (exec Anonymous 1700000000000000 20
                     (insert_customers
                        (customers.mk (F := supplied) Omitted
                           (Supplied (Some "Asha")) (Supplied (Some "555"))
                           (Supplied (Some "asha@example.org")) Omitted
                           Omitted Omitted))
                     empty_db)))))
    /\ customers.id cu = Some 20%N.
Proof.
  set (cust := customers.mk (F := supplied) Omitted
                 (Supplied (Some "Asha")) (Supplied (Some "555"))
                 (Supplied (Some "asha@example.org")) Omitted Omitted
                 Omitted).
  set (ord := orders.mk (F := supplied) Omitted (Supplied (Some 20%N))
                Omitted Omitted Omitted Omitted Omitted Omitted Omitted
                Omitted Omitted Omitted Omitted Omitted).
  set (d1 := state_after empty_db
               (exec Anonymous 1700000000000000 20 (insert_customers cust)
                  empty_db)).
  set (d2 := state_after d1
               (exec Anonymous 1700000001000000 21 (insert_orders ord) d1)).
  assert (Hd2 : reachable d2).
  { apply (reachable_exec d1 d2 Anonymous 1700000001000000 21
             (insert_orders ord)); [|vm_compute; reflexivity].
    apply (reachable_exec empty_db d1 Anonymous 1700000000000000 20
             (insert_customers cust) reachable_empty).
    vm_compute. reflexivity. }
  refine (proj1 (references_always_resolve d2
                   (set_tracking_id 1700000001000000
                      (orders.fill ord (orders.defaults 21 1700000001000000)))
                   Hd2 _) 20%N _).
  - left. reflexivity.
  - reflexivity.
Defined.

(** ** Inserts that commit *)

Lemma unique_keys_snoc {K : Type} (eqb : K -> K -> bool)
    (eqb_eq : forall x y, eqb x y = true <-> x = y) (k : K)
    (ks : list (option K)) :
  unique_keys eqb ks = true -> ~ In (Some k) ks ->
  unique_keys eqb (ks ++ [Some k]) = true.
Proof.
  induction ks as [|[x|] ks IH]; simpl; intros Hu Hk.
  - reflexivity.
  - apply andb_true_iff in Hu as [Hx Hu].
    rewrite IH by tauto. rewrite andb_true_r.
    apply negb_true_iff in Hx. apply negb_true_iff.
    rewrite existsb_app, Hx. simpl. rewrite orb_false_r.
    destruct (eqb x k) eqn:E; [|reflexivity].
    apply eqb_eq in E as ->. elim Hk. now left.
  - apply IH; tauto.
Qed.

Lemma references_app (k : option uuid) (ids more : list (option uuid)) :
  references k ids = true -> references k (ids ++ more) = true.
Proof.
  destruct k as [k|]; [|reflexivity]. simpl. rewrite existsb_app.
  intros H. apply orb_true_iff. now left.
Qed.

Lemma forallb_references_app {A : Type} (f : A -> option uuid)
    (ids more : list (option uuid)) (l : list A) :
  forallb (fun x => references (f x) ids) l = true ->
  forallb (fun x => references (f x) (ids ++ more)) l = true.
Proof.
  rewrite !forallb_forall. intros H x Hx. now apply references_app, H.
Qed.

Lemma in_snoc {A : Type} (P : A -> Prop) (l : list A) (x : A) :
  (forall r, In r l -> P r) -> P x -> forall r, In r (l ++ [x]) -> P r.
Proof.
  intros Hl Hx r Hr. apply in_app_or in Hr as [Hr | [<- | []]]; auto.
Qed.

(** X10: anyone can register a customer: an INSERT that gives a name, a
    phone and an email and leaves the id to the generator commits from
    every reachable state in which the generated id is unused, and
    appends the row with that id. *)
Theorem customer_insert_commits :
  forall (c : caller) (now : timestamptz) (fresh : uuid)
         (v : customers.values) (d : database) (n p e : string),
    reachable d ->
    customers.id v = Omitted ->
    ~ In (Some fresh) (map customers.id (tbl_customers d)) ->
    customers.name v = Supplied (Some n) ->
    customers.phone v = Supplied (Some p) ->
    customers.email v = Supplied (Some e) ->
    exists (d' : database) (new : customers.row),
      exec c now fresh (insert_customers v) d = Ok d'
      /\ tbl_customers d' = tbl_customers d ++ [new]
      /\ customers.id new = Some fresh
      /\ customers.name new = Some n
      /\ customers.phone new = Some p
      /\ customers.email new = Some e.
Proof.
  intros c now fresh v d n p e Hd Hid Hfresh Hn Hp He.
  apply reachable_consistent in Hd.
  destruct Hd as [Hcr Hfr Hgr Hor Hcp Hfp Hgp Hop Htk Hcf Hff Hgf].
  exists (with_customers
            (tbl_customers d
             ++ [customers.fill v (customers.defaults fresh now)]) d),
    (customers.fill v (customers.defaults fresh now)).
  split; [|split; [reflexivity|]].
  - simpl. unfold insert_row. rewrite rls_insert_customers.
    apply commit_consistent. constructor; simpl; try assumption.
    + apply in_snoc; [exact Hcr|].
      unfold customers_row_violations. cbn. now rewrite Hid, Hn, Hp, He.
    + rewrite map_app. cbn. rewrite Hid. cbn.
      now apply (unique_keys_snoc N.eqb N_eqb_iff).
    + rewrite map_app. now apply forallb_references_app.
  - cbn. now rewrite Hid, Hn, Hp, He.
Qed.

Lemma customer_insert_commits_witness :
  exists (d' : database) (new : customers.row),
    exec Anonymous 1700000000000000 20
      (insert_customers
         (customers.mk (F := supplied) Omitted (Supplied (Some "Asha"))
            (Supplied (Some "555")) (Supplied (Some "asha@example.org"))
            Omitted Omitted Omitted))
      empty_db = Ok d'
    /\ tbl_customers d' = tbl_customers empty_db ++ [new]
    /\ customers.id new = Some 20%N
    /\ customers.name new = Some "Asha"
    /\ customers.phone new = Some "555"
    /\ customers.email new = Some "asha@example.org".
Proof.
  apply customer_insert_commits; try reflexivity.
  - apply reachable_empty.
  - intros [].
Defined.

(** X11: the only obstacles to placing an order.  An INSERT into
    [orders] that leaves the id and the tracking code to the store
    commits from every reachable state, for every caller, provided the
    generated id and the code of the current clock second are unused,
    each reference it gives names a stored row, its status (or the
    default) passes the check and it does not set the price to NULL. *)
Theorem order_insert_commits :
  forall (c : caller) (now : timestamptz) (fresh : uuid)
         (v : orders.values) (d : database),
    reachable d ->
    orders.id v = Omitted ->
    ~ In (Some fresh) (map orders.id (tbl_orders d)) ->
    no_tracking_supplied v ->
    ~ In (Some ("RT" ++ Pg.lpad (Pg.epoch_text now) 10 "0")%string)
         (map orders.tracking_id (tbl_orders d)) ->
    references (or_else (orders.customer_id v) None)
      (map customers.id (tbl_customers d)) = true ->
    references (or_else (orders.fabric_id v) None)
      (map fabrics.id (tbl_fabrics d)) = true ->
    references (or_else (orders.garment_id v) None)
      (map garments.id (tbl_garments d)) = true ->
    status_check (or_else (orders.status v) (Some "confirmed")) = true ->
    orders.price v <> Supplied None ->
    exists (d' : database) (new : orders.row),
      exec c now fresh (insert_orders v) d = Ok d'
      /\ tbl_orders d' = tbl_orders d ++ [new]
      /\ orders.id new = Some fresh
      /\ orders.tracking_id new
         = Some ("RT" ++ Pg.lpad (Pg.epoch_text now) 10 "0")%string.
Proof.
  intros c now fresh v d Hd Hid Hfresh Hno Hcode Hcu Hfa Hga Hst Hpr.
  apply reachable_consistent in Hd.
  destruct Hd as [Hcr Hfr Hgr Hor Hcp Hfp Hgp Hop Htk Hcf Hff Hgf].
  pose proof (derived_code now fresh v Hno) as Htrack.
  set (new := set_tracking_id now
                (orders.fill v (orders.defaults fresh now))) in *.
  assert (Hshape : new = orders.set_tracking (orders.tracking_id new)
                           (orders.fill v (orders.defaults fresh now)))
    by apply set_tracking_id_shape.
  assert (Hnid : orders.id new = Some fresh)
    by (rewrite Hshape; cbn; now rewrite Hid).
  exists (with_orders (tbl_orders d ++ [new]) d), new.
  split; [|split; [reflexivity | split; assumption]].
  rewrite exec_insert_orders. fold new. apply commit_consistent.
  constructor; simpl; try assumption.
  - apply in_snoc; [exact Hor|].
    unfold orders_row_violations. rewrite Hnid, Htrack.
    rewrite Hshape. cbn. rewrite Hst.
    destruct (orders.price v) as [|[x|]]; [reflexivity | reflexivity|].
    now elim Hpr.
  - rewrite map_app. simpl. rewrite Hnid.
    now apply (unique_keys_snoc N.eqb N_eqb_iff).
  - rewrite map_app. simpl. rewrite Htrack.
    now apply (unique_keys_snoc String.eqb string_eqb_iff).
  - rewrite forallb_app, Hcf. simpl. rewrite andb_true_r.
    rewrite Hshape. cbn. exact Hcu.
  - rewrite forallb_app, Hff. simpl. rewrite andb_true_r.
    rewrite Hshape. cbn. exact Hfa.
  - rewrite forallb_app, Hgf. simpl. rewrite andb_true_r.
    rewrite Hshape. cbn. exact Hga.
Qed.

Lemma order_insert_commits_witness :
  exists (d' : database) (new : orders.row),
    exec Anonymous 1700000000000000 1 (insert_orders orders.nothing)
      empty_db = Ok d'
    /\ tbl_orders d' = tbl_orders empty_db ++ [new]
    /\ orders.id new = Some 1%N
    /\ orders.tracking_id new
       = Some ("RT" ++ Pg.lpad (Pg.epoch_text 1700000000000000) 10 "0")%string.
Proof.
  apply order_insert_commits; try reflexivity.
  - apply reachable_empty.
  - intros [].
  - left. reflexivity.
  - intros [].
  - discriminate.
Defined.

(** * Further properties of the list screens *)

(** ** The filters *)

Lemma filter_filter {A : Type} (p q : A -> bool) (l : list A) :
  filter q (filter p l) = filter (fun x => p x && q x) l.
Proof.
  induction l as [|a l IH]; simpl; [reflexivity|].
  destruct (p a); simpl; [destruct (q a)|]; now rewrite IH.
Qed.

Lemma filter_idempotent {A : Type} (p : A -> bool) (l : list A) :
  filter p (filter p l) = filter p l.
Proof.
  rewrite filter_filter. apply filter_ext. intros x. now destruct (p x).
Qed.

(** The shape of the three filters: two optional steps. *)
Lemma two_filters_idempotent {A : Type} (search cat : bool)
    (p q : A -> bool) (l : list A) :
  (if cat
   then filter q
          (if search
           then filter p
                  (if cat
                   then filter q (if search then filter p l else l)
                   else if search then filter p l else l)
           else if cat
                then filter q (if search then filter p l else l)
                else if search then filter p l else l)
   else if search
        then filter p
               (if cat
                then filter q (if search then filter p l else l)
                else if search then filter p l else l)
        else if cat
             then filter q (if search then filter p l else l)
             else if search then filter p l else l)
  = (if cat
     then filter q (if search then filter p l else l)
     else if search then filter p l else l).
Proof.
  destruct search, cat; try reflexivity; try apply filter_idempotent.
  rewrite !filter_filter. apply filter_ext. intros x.
  now destruct (p x), (q x).
Qed.

Lemma two_filters_app {A : Type} (search cat : bool) (p q : A -> bool)
    (l l' : list A) :
  (if cat
   then filter q (if search then filter p (l ++ l') else l ++ l')
   else if search then filter p (l ++ l') else l ++ l')
  = (if cat
     then filter q (if search then filter p l else l)
     else if search then filter p l else l)
    ++ (if cat
        then filter q (if search then filter p l' else l')
        else if search then filter p l' else l').
Proof. destruct search, cat; now rewrite ?filter_app. Qed.

(** X12: on each of the three screens, whatever the host's
    [toLowerCase] is, the cleared filter (empty search term, category
    ['all']) shows the whole collection; filtering a filtered list again
    with the same term and category changes nothing; and the filter works
    row by row, keeping the order: the result on a collection put together
    from two parts is the two results put together. *)
Theorem filters_compose :
  forall (toLowerCase : string -> string) (term cat : string),
    (forall l : list Fabric.t,
        AdminFabrics.filterFabrics toLowerCase l "" "all" = l
        /\ AdminFabrics.filterFabrics toLowerCase
             (AdminFabrics.filterFabrics toLowerCase l term cat) term cat
           = AdminFabrics.filterFabrics toLowerCase l term cat
        /\ forall l',
             AdminFabrics.filterFabrics toLowerCase (l ++ l') term cat
             = AdminFabrics.filterFabrics toLowerCase l term cat
               ++ AdminFabrics.filterFabrics toLowerCase l' term cat)
    /\ (forall l : list Garment.t,
           Garments.filterGarments toLowerCase l "" "all" = l
           /\ Garments.filterGarments toLowerCase
                (Garments.filterGarments toLowerCase l term cat) term cat
              = Garments.filterGarments toLowerCase l term cat
           /\ forall l',
                Garments.filterGarments toLowerCase (l ++ l') term cat
                = Garments.filterGarments toLowerCase l term cat
                  ++ Garments.filterGarments toLowerCase l' term cat)
    /\ (forall l : list Garment.t,
           AdminProducts.filterGarments toLowerCase l "" "all" = l
           /\ AdminProducts.filterGarments toLowerCase
                (AdminProducts.filterGarments toLowerCase l term cat)
                term cat
              = AdminProducts.filterGarments toLowerCase l term cat
           /\ forall l',
                AdminProducts.filterGarments toLowerCase (l ++ l') term cat
                = AdminProducts.filterGarments toLowerCase l term cat
                  ++ AdminProducts.filterGarments toLowerCase l' term cat).
Proof.
  intros lc term cat.
  split; [|split]; intros l; (split; [reflexivity|]);
    (split; [apply two_filters_idempotent
            | intros l'; apply two_filters_app]).
Qed.

(** X13: the search ignores the letter case of the term.  Whatever the
    host's [toLowerCase] is, two terms with the same lower-case form,
    both empty or both not, select the same rows on every screen, under
    every category. *)
Theorem search_ignores_term_case :
  forall (toLowerCase : string -> string) (t1 t2 cat : string),
    toLowerCase t1 = toLowerCase t2 ->
    (t1 = "" <-> t2 = "") ->
    (forall l, AdminFabrics.filterFabrics toLowerCase l t1 cat
               = AdminFabrics.filterFabrics toLowerCase l t2 cat)
    /\ (forall l, Garments.filterGarments toLowerCase l t1 cat
                  = Garments.filterGarments toLowerCase l t2 cat)
    /\ (forall l, AdminProducts.filterGarments toLowerCase l t1 cat
                  = AdminProducts.filterGarments toLowerCase l t2 cat).
Proof.
  intros lc t1 t2 cat Ht Hempty.
  assert (Htruthy : Js.truthy t1 = Js.truthy t2).
  { destruct t1 as [|a1 r1], t2 as [|a2 r2]; simpl; try reflexivity.
    - discriminate (proj1 Hempty eq_refl).
    - discriminate (proj2 Hempty eq_refl). }
  split; [|split]; intros l;
    unfold AdminFabrics.filterFabrics, Garments.filterGarments,
      AdminProducts.filterGarments;
    now rewrite Ht, Htruthy.
Qed.

Lemma search_ignores_term_case_witness :
  AdminFabrics.filterFabrics AsciiText.toLowerCase
    [Fabric.mk "f1" "Premium Silk" "Silk" 2500 "Golden" 50 [] true
       "Luxurious silk fabric" "2024-01-01T00:00:00Z"]
    "SILK" "all"
  = AdminFabrics.filterFabrics AsciiText.toLowerCase
      [Fabric.mk "f1" "Premium Silk" "Silk" 2500 "Golden" 50 [] true
         "Luxurious silk fabric" "2024-01-01T00:00:00Z"]
      "silk" "all".
Proof.
  refine (proj1 (search_ignores_term_case AsciiText.toLowerCase
                   "SILK" "silk" "all" _ _) _).
  - reflexivity.
  - split; discriminate.
Defined.

(** ** The options of the category selectors *)

Lemma set_add_spec (acc : list string) (x : string) :
  NoDup acc ->
  NoDup (set_add acc x) /\ forall y, In y (set_add acc x) <-> In y acc \/ y = x.
Proof.
  intros Hnd. unfold set_add.
  destruct (existsb (String.eqb x) acc) eqn:E.
  - split; [exact Hnd|]. intros y. split; [now left|].
    intros [H | ->]; [exact H|].
    apply existsb_exists in E as (z & Hz & Hxz).
    now apply String.eqb_eq in Hxz as ->.
  - split.
    + apply NoDup_app; [exact Hnd | repeat constructor; intros [] |].
      intros y Hy [Heq | []]. subst y.
      assert (existsb (String.eqb x) acc = true)
        by (apply existsb_exists; exists x; split;
            [exact Hy | apply String.eqb_refl]).
      congruence.
    + intros y. rewrite in_app_iff. simpl. intuition.
Qed.

Lemma fold_set_add_spec (xs : list string) : forall acc : list string,
  NoDup acc ->
  NoDup (fold_left set_add xs acc)
  /\ forall y, In y (fold_left set_add xs acc) <-> In y acc \/ In y xs.
Proof.
  induction xs as [|x xs IH]; intros acc Hnd; simpl.
  - split; [exact Hnd | intros y; tauto].
  - destruct (set_add_spec acc x Hnd) as [Hnd' Hin'].
    destruct (IH (set_add acc x) Hnd') as [Hnd'' Hin''].
    split; [exact Hnd''|]. intros y. rewrite Hin'', Hin'.
    intuition.
Qed.

Lemma spread_set_spec (xs : list string) :
  NoDup (spread_set xs) /\ forall y, In y (spread_set xs) <-> In y xs.
Proof.
  destruct (fold_set_add_spec xs [] (NoDup_nil _)) as [Hnd Hin].
  split; [exact Hnd|]. intros y. unfold spread_set. rewrite Hin.
  simpl. tauto.
Qed.

(** X14: the material selector of the fabrics screen lists each material
    of the collection once and nothing else; choosing an option other
    than ['all'], with no search term, shows exactly the fabrics of that
    material, and at least one. *)
Theorem material_options :
  forall (toLowerCase : string -> string) (fabrics : list Fabric.t),
    NoDup (AdminFabricsPage.materials fabrics)
    /\ (forall m, In m (AdminFabricsPage.materials fabrics) <->
                  exists f, In f fabrics /\ Fabric.material f = m)
    /\ (forall m, In m (AdminFabricsPage.materials fabrics) -> m <> "all" ->
                  AdminFabrics.filterFabrics toLowerCase fabrics "" m <> []
                  /\ forall f,
                       In f (AdminFabrics.filterFabrics toLowerCase
                               fabrics "" m)
                       <-> In f fabrics /\ Fabric.material f = m).
Proof.
  intros lc fabrics. unfold AdminFabricsPage.materials.
  destruct (spread_set_spec (map Fabric.material fabrics)) as [Hnd Hin].
  assert (Hopt : forall m, In m (spread_set (map Fabric.material fabrics))
                           <-> exists f, In f fabrics
                                         /\ Fabric.material f = m).
  { intros m. rewrite Hin, in_map_iff.
    split; intros (f & H1 & H2); exists f; tauto. }
  split; [exact Hnd|]. split; [exact Hopt|].
  intros m Hm Hall.
  assert (Hres : forall f, In f (AdminFabrics.filterFabrics lc fabrics "" m)
                           <-> In f fabrics /\ Fabric.material f = m).
  { intros f. unfold AdminFabrics.filterFabrics. simpl Js.truthy. cbv iota.
    apply differs_iff in Hall. rewrite Hall, filter_In, String.eqb_eq.
    tauto. }
  split; [|exact Hres].
  apply Hopt in Hm as (f & Hf & Hmat). intros Hnil.
  pose proof (proj2 (Hres f) (conj Hf Hmat)) as Hin'.
  rewrite Hnil in Hin'. destruct Hin'.
Qed.

Lemma material_options_witness :
  AdminFabrics.filterFabrics AsciiText.toLowerCase
    [Fabric.mk "f1" "Premium Silk" "Silk" 2500 "Golden" 50 [] true
       "Luxurious silk fabric" "2024-01-01T00:00:00Z";
     Fabric.mk "f2" "Italian Wool" "Wool" 3200 "Navy Blue" 30 [] true
       "Premium Italian wool" "2024-01-01T00:00:00Z"]
    "" "Wool"
  <> [].
Proof.
  refine (proj1 (proj2 (proj2 (material_options _ _)) "Wool" _ _)).
  - right. left. reflexivity.
  - discriminate.
Defined.

(** ** The category cards of the products screen *)

Lemma countIn_cons (g : Garment.t) (l : list Garment.t) (c : string) :
  AdminProductsPage.countIn (g :: l) c
  = (if String.eqb (Garment.category g) c then 1 else 0)
    + AdminProductsPage.countIn l c.
Proof.
  unfold AdminProductsPage.countIn. simpl.
  now destruct (String.eqb (Garment.category g) c).
Qed.

Lemma list_sum_map_add {A : Type} (f g : A -> nat) (l : list A) :
  list_sum (map (fun x => f x + g x) l)
  = list_sum (map f l) + list_sum (map g l).
Proof. induction l as [|a l IH]; simpl; [reflexivity | lia]. Qed.

Lemma indicator_absent (x : string) (cs : list string) :
  ~ In x cs ->
  list_sum (map (fun c => if String.eqb x c then 1 else 0) cs) = 0.
Proof.
  induction cs as [|c cs IH]; simpl; [reflexivity|]. intros Hx.
  destruct (String.eqb_spec x c) as [-> | _]; [elim Hx; now left|].
  apply IH. tauto.
Qed.

Lemma indicator_once (x : string) (cs : list string) :
  NoDup cs -> In x cs ->
  list_sum (map (fun c => if String.eqb x c then 1 else 0) cs) = 1.
Proof.
  induction cs as [|c cs IH]; simpl; [intros _ []|].
  intros Hnd Hx. apply NoDup_cons_iff in Hnd as [Hc Hnd].
  destruct (String.eqb_spec x c) as [-> | Hne].
  - now rewrite indicator_absent.
  - apply IH; [exact Hnd|]. destruct Hx as [<- | Hx]; [now elim Hne|exact Hx].
Qed.

Lemma counts_add_up (cs : list string) (l : list Garment.t) :
  NoDup cs -> (forall g, In g l -> In (Garment.category g) cs) ->
  list_sum (map (AdminProductsPage.countIn l) cs) = List.length l.
Proof.
  intros Hnd. induction l as [|g l IH]; intros Hall.
  - unfold AdminProductsPage.countIn. simpl. clear Hnd Hall.
    induction cs; simpl; [reflexivity | exact IHcs].
  - rewrite (map_ext _ _ (countIn_cons g l)), list_sum_map_add.
    rewrite indicator_once, IH.
    + reflexivity.
    + intros g' Hg'. apply Hall. now right.
    + exact Hnd.
    + apply Hall. now left.
Qed.

Lemma in_firstn {A : Type} (n : nat) (l : list A) (x : A) :
  In x (firstn n l) -> In x l.
Proof.
  intros H. rewrite <- (firstn_skipn n l). apply in_or_app. now left.
Qed.

(** X15: the products screen shows at most three category cards, for
    distinct categories; each card counts the garments of its category
    and counts at least one; when the collection has no more than three
    categories the counts add up to the number of garments. *)
Theorem category_cards :
  forall garments : list Garment.t,
    List.length (AdminProductsPage.categoryCards garments) <= 3
    /\ NoDup (map fst (AdminProductsPage.categoryCards garments))
    /\ (forall c n, In (c, n) (AdminProductsPage.categoryCards garments) ->
                    1 <= n
                    /\ n = List.length
                             (filter (fun g => String.eqb
                                                 (Garment.category g) c)
                                garments))
    /\ (List.length (AdminProductsPage.categories garments) <= 3 ->
        list_sum (map snd (AdminProductsPage.categoryCards garments))
        = List.length garments).
Proof.
  intros garments. unfold AdminProductsPage.categoryCards,
    AdminProductsPage.categories.
  destruct (spread_set_spec (map Garment.category garments)) as [Hnd Hin].
  set (cats := spread_set (map Garment.category garments)) in *.
  split; [|split; [|split]].
  - rewrite length_map, length_firstn. lia.
  - rewrite map_map. simpl. rewrite map_id.
    rewrite <- (firstn_skipn 3 cats) in Hnd.
    now apply NoDup_app_remove_r in Hnd.
  - intros c n Hcard. apply in_map_iff in Hcard as (c' & [= <- <-] & Hc).
    split; [|reflexivity].
    apply in_firstn, Hin, in_map_iff in Hc as (g & Hg & Hing).
    unfold AdminProductsPage.countIn.
    assert (Hin' : In g (filter (fun g0 => String.eqb (Garment.category g0)
                                             (Garment.category g))
                           garments))
      by (apply filter_In; split; [exact Hing | apply String.eqb_refl]).
    rewrite <- Hg.
    destruct (filter _ garments); [destruct Hin' | simpl; lia].
  - intros Hlen. rewrite firstn_all2 by exact Hlen.
    rewrite map_map. simpl. apply counts_add_up; [exact Hnd|].
    intros g Hg. apply Hin. now apply in_map.
Qed.

Lemma category_cards_witness :
  list_sum
    (map snd
       (AdminProductsPage.categoryCards
          [Garment.mk "g1" "Classic Shirt" "Shirts" 1500 "" "" "{}" "";
           Garment.mk "g2" "Business Suit" "Suits" 8500 "" "" "{}" "";
           Garment.mk "g3" "Linen Shirt" "Shirts" 1700 "" "" "{}" ""]))
  = 3.
Proof.
  refine (proj2 (proj2 (proj2 (category_cards _))) _).
  vm_compute. lia.
Defined.

(** ** [toggleFeatured] and the statistics cards *)

Lemma toggle_absent (l : list Fabric.t) (i : string) :
  ~ In i (map Fabric.id l) ->
  map (fun f => if String.eqb (Fabric.id f) i then AdminFabrics.flip f else f)
    l = l.
Proof.
  induction l as [|f l IH]; simpl; [reflexivity|]. intros Hi.
  destruct (String.eqb_spec (Fabric.id f) i) as [E | _];
    [elim Hi; now left|].
  rewrite IH; [reflexivity | tauto].
Qed.

Lemma featured_after_toggle (l : list Fabric.t) (f0 : Fabric.t) :
  NoDup (map Fabric.id l) -> In f0 l ->
  AdminFabricsPage.featuredCount
    (map (fun f => if String.eqb (Fabric.id f) (Fabric.id f0)
                   then AdminFabrics.flip f else f) l)
  + (if Fabric.featured f0 then 1 else 0)
  = AdminFabricsPage.featuredCount l
    + (if Fabric.featured f0 then 0 else 1).
Proof.
  unfold AdminFabricsPage.featuredCount.
  induction l as [|f l IH]; simpl; [intros _ []|].
  intros Hnd Hin. apply NoDup_cons_iff in Hnd as [Hf Hnd].
  destruct Hin as [-> | Hin].
  - rewrite String.eqb_refl, toggle_absent by exact Hf.
    cbn [AdminFabrics.flip Fabric.featured filter].
    destruct (Fabric.featured f0); simpl; lia.
  - destruct (String.eqb_spec (Fabric.id f) (Fabric.id f0)) as [E | _].
    + elim Hf. rewrite E. now apply in_map.
    + simpl. specialize (IH Hnd Hin).
      destruct (Fabric.featured f); simpl; lia.
Qed.

(** X16: in a collection whose ids are distinct, a [toggleFeatured] that
    the store accepts moves the "Featured" figure by exactly one, up when
    the fabric was not featured and down when it was, and leaves the
    "Total Fabrics" and "Total Stock" figures as they are. *)
Theorem toggle_moves_featured_by_one :
  forall (fabrics : list Fabric.t) (f0 : Fabric.t),
    NoDup (map Fabric.id fabrics) ->
    In f0 fabrics ->
    let after := AdminFabrics.toggleFeatured fabrics (Fabric.id f0) None in
    (if Fabric.featured f0
     then S (AdminFabricsPage.featuredCount after)
          = AdminFabricsPage.featuredCount fabrics
     else AdminFabricsPage.featuredCount after
          = S (AdminFabricsPage.featuredCount fabrics))
    /\ AdminFabricsPage.totalFabrics after
       = AdminFabricsPage.totalFabrics fabrics
    /\ AdminFabricsPage.totalStock after
       = AdminFabricsPage.totalStock fabrics.
Proof.
  intros fabrics f0 Hnd Hin after. subst after.
  rewrite (toggle_map fabrics f0 Hin).
  split; [|split].
  - pose proof (featured_after_toggle fabrics f0 Hnd Hin) as H.
    destruct (Fabric.featured f0); lia.
  - unfold AdminFabricsPage.totalFabrics. apply length_map.
  - unfold AdminFabricsPage.totalStock. f_equal. rewrite map_map.
    apply map_ext. intros f.
    now destruct (String.eqb (Fabric.id f) (Fabric.id f0)).
Qed.

Lemma toggle_moves_featured_by_one_witness :
  S (AdminFabricsPage.featuredCount
       (AdminFabrics.toggleFeatured
          [Fabric.mk "f1" "Premium Silk" "Silk" 2500 "Golden" 50 [] true
             "Luxurious silk fabric" "2024-01-01T00:00:00Z";
           Fabric.mk "f2" "Italian Wool" "Wool" 3200 "Navy Blue" 30 [] true
             "Premium Italian wool" "2024-01-01T00:00:00Z"]
          "f2" None))
  = AdminFabricsPage.featuredCount
      [Fabric.mk "f1" "Premium Silk" "Silk" 2500 "Golden" 50 [] true
         "Luxurious silk fabric" "2024-01-01T00:00:00Z";
       Fabric.mk "f2" "Italian Wool" "Wool" 3200 "Navy Blue" 30 [] true
         "Premium Italian wool" "2024-01-01T00:00:00Z"].
Proof.
  refine (proj1
            (toggle_moves_featured_by_one
               [Fabric.mk "f1" "Premium Silk" "Silk" 2500 "Golden" 50 []
                  true "Luxurious silk fabric" "2024-01-01T00:00:00Z";
                Fabric.mk "f2" "Italian Wool" "Wool" 3200 "Navy Blue" 30 []
                  true "Premium Italian wool" "2024-01-01T00:00:00Z"]
               (Fabric.mk "f2" "Italian Wool" "Wool" 3200 "Navy Blue" 30 []
                  true "Premium Italian wool" "2024-01-01T00:00:00Z")
               _ _)).
  - repeat constructor; simpl; intuition discriminate.
  - right. left. reflexivity.
Defined.

(** ** Adding a fabric or a garment *)

(** X17: the outcomes of [handleAddFabric].  A form without a name, a
    material or a color changes nothing whatever the store would answer,
    and raises the alert for required fields.  With the three filled in, a
    store error changes nothing and raises the alert for a failed add; a
    successful answer puts the returned fabric first, in front of the
    collection as it was, closes the dialog and blanks the form, with no
    alert; submitting again from there is refused by the first rule. *)
Theorem handleAddFabric_outcomes :
  forall (s : AdminFabricsPage.state),
    (AdminFabricsPage.name (AdminFabricsPage.newFabric s) = ""
     \/ AdminFabricsPage.material (AdminFabricsPage.newFabric s) = ""
     \/ AdminFabricsPage.color (AdminFabricsPage.newFabric s) = "" ->
     forall r,
       AdminFabricsPage.handleAddFabric s r
       = (s, Some "Please fill in all required fields"))
    /\ (AdminFabricsPage.name (AdminFabricsPage.newFabric s) <> "" ->
        AdminFabricsPage.material (AdminFabricsPage.newFabric s) <> "" ->
        AdminFabricsPage.color (AdminFabricsPage.newFabric s) <> "" ->
        (forall e,
            AdminFabricsPage.handleAddFabric s (AdminFabricsPage.failed e)
            = (s, Some "Error adding fabric. Please try again."))
        /\ (forall data,
               AdminFabricsPage.handleAddFabric s
                 (AdminFabricsPage.inserted data)
               = (AdminFabricsPage.mkstate
                    (data :: AdminFabricsPage.fabrics s) false
                    (AdminFabricsPage.mkform "" "" 0 "" 0 "" false [""]),
                  None)
               /\ forall r',
                    AdminFabricsPage.handleAddFabric
                      (fst (AdminFabricsPage.handleAddFabric s
                              (AdminFabricsPage.inserted data))) r'
                    = (fst (AdminFabricsPage.handleAddFabric s
                              (AdminFabricsPage.inserted data)),
                       Some "Please fill in all required fields"))).
Proof.
  intros s. unfold AdminFabricsPage.handleAddFabric,
    AdminFabricsPage.incomplete.
  split.
  - intros H r. destruct H as [H | [H | H]]; rewrite H; simpl;
      rewrite ?orb_true_r; reflexivity.
  - intros Hn Hm Hc.
    apply truthy_iff in Hn, Hm, Hc. rewrite Hn, Hm, Hc. simpl.
    split; [reflexivity|]. intros data. split; reflexivity.
Qed.

Lemma handleAddFabric_outcomes_witness :
  AdminFabricsPage.handleAddFabric
    (AdminFabricsPage.mkstate
       [Fabric.mk "f1" "Premium Silk" "Silk" 2500 "Golden" 50 [] true
          "Luxurious silk fabric" "2024-01-01T00:00:00Z"]
       true
       (AdminFabricsPage.mkform "Tweed" "Wool" 900 "Grey" 5 "" false [""]))
    (AdminFabricsPage.inserted
       (Fabric.mk "f9" "Tweed" "Wool" 900 "Grey" 5 [] false ""
          "2024-02-01T00:00:00Z"))
  = (AdminFabricsPage.mkstate
       [Fabric.mk "f9" "Tweed" "Wool" 900 "Grey" 5 [] false ""
          "2024-02-01T00:00:00Z";
        Fabric.mk "f1" "Premium Silk" "Silk" 2500 "Golden" 50 [] true
          "Luxurious silk fabric" "2024-01-01T00:00:00Z"]
       false
       (AdminFabricsPage.mkform "" "" 0 "" 0 "" false [""]),
     None).
Proof.
  refine (proj1 (proj2 (proj2 (handleAddFabric_outcomes _) _ _ _) _));
    discriminate.
Defined.

(** X18: the outcomes of [handleAddGarment].  A form without a name or a
    category changes nothing whatever the store would answer, and raises
    the alert for required fields.  With the two filled in, a store error
    changes nothing and raises the alert for a failed add; a successful
    answer puts the returned garment first, in front of the collection as
    it was, closes the dialog and blanks the form, with no alert;
    submitting again from there is refused by the first rule. *)
Theorem handleAddGarment_outcomes :
  forall (s : AdminProductsPage.state),
    (AdminProductsPage.name (AdminProductsPage.newGarment s) = ""
     \/ AdminProductsPage.category (AdminProductsPage.newGarment s) = "" ->
     forall r,
       AdminProductsPage.handleAddGarment s r
       = (s, Some "Please fill in all required fields"))
    /\ (AdminProductsPage.name (AdminProductsPage.newGarment s) <> "" ->
        AdminProductsPage.category (AdminProductsPage.newGarment s) <> "" ->
        (forall e,
            AdminProductsPage.handleAddGarment s (AdminProductsPage.failed e)
            = (s, Some "Error adding garment. Please try again."))
        /\ (forall data,
               AdminProductsPage.handleAddGarment s
                 (AdminProductsPage.inserted data)
               = (AdminProductsPage.mkstate
                    (data :: AdminProductsPage.garments s) false
                    (AdminProductsPage.mkform "" "" 0 "" "" "{}"),
                  None)
               /\ forall r',
                    AdminProductsPage.handleAddGarment
                      (fst (AdminProductsPage.handleAddGarment s
                              (AdminProductsPage.inserted data))) r'
                    = (fst (AdminProductsPage.handleAddGarment s
                              (AdminProductsPage.inserted data)),
                       Some "Please fill in all required fields"))).
Proof.
  intros s. unfold AdminProductsPage.handleAddGarment,
    AdminProductsPage.incomplete.
  split.
  - intros H r. destruct H as [H | H]; rewrite H; simpl;
      rewrite ?orb_true_r; reflexivity.
  - intros Hn Hc.
    apply truthy_iff in Hn, Hc. rewrite Hn, Hc. simpl.
    split; [reflexivity|]. intros data. split; reflexivity.
Qed.

Lemma handleAddGarment_outcomes_witness :
  AdminProductsPage.handleAddGarment
    (AdminProductsPage.mkstate
       [Garment.mk "g1" "Classic Shirt" "Shirts" 1500 "Timeless" "" "{}"
          "2024-01-01T00:00:00Z"]
       true
       (AdminProductsPage.mkform "Linen Kurta" "Kurtas" 1800 "" "" "{}"))
    (AdminProductsPage.inserted
       (Garment.mk "g9" "Linen Kurta" "Kurtas" 1800 "" "" "{}"
          "2024-02-01T00:00:00Z"))
  = (AdminProductsPage.mkstate
       [Garment.mk "g9" "Linen Kurta" "Kurtas" 1800 "" "" "{}"
          "2024-02-01T00:00:00Z";
        Garment.mk "g1" "Classic Shirt" "Shirts" 1500 "Timeless" "" "{}"
          "2024-01-01T00:00:00Z"]
       false
       (AdminProductsPage.mkform "" "" 0 "" "" "{}"),
     None).
Proof.
  refine (proj1 (proj2 (proj2 (handleAddGarment_outcomes _) _ _) _));
    discriminate.
Defined.

Lemma rls_insert_fabrics_admin (c : caller) (r : fabrics.row) :
  class_of c = administrator ->
  rls_check pg_policy c INSERT (fabric_row r) = true.
Proof. intros Hc. now destruct (admin_passes c INSERT (fabric_row r) Hc). Qed.

(** X19: the store takes what the add-fabric form sends.  Whatever the
    host's [trim] is, for an administrator the INSERT that a storable
    payload amounts to commits from every reachable state in which the
    generated id is unused, also when name, material or color are empty
    strings (an empty string is not NULL: only the screen's own guard
    keeps such a fabric out).  The stored row carries the generated id,
    the form's name, material, price, color, stock, featured flag and
    description, the image entries that [trim] does not empty, and the
    clock as [created_at] and [updated_at]; the other tables stay as they
    are. *)
Theorem add_fabric_commits :
  forall (trim : string -> string) (json : list string -> jsonb)
         (c : caller) (now : timestamptz) (fresh : uuid)
         (f : AdminFabricsPage.form) (d : database),
    reachable d ->
    class_of c = administrator ->
    AdminFabricsPage.storable (AdminFabricsPage.payload trim f) = true ->
    ~ In (Some fresh) (map fabrics.id (tbl_fabrics d)) ->
    exec c now fresh
      (insert_fabrics (AdminFabricsPage.insert_values trim json f)) d
    = Ok (mkdb (tbl_customers d)
            (tbl_fabrics d
             ++ [fabrics.mk (F := option) (Some fresh)
                   (Some (AdminFabricsPage.name f))
                   (Some (AdminFabricsPage.material f))
                   (Some (AdminFabricsPage.price_per_meter f))
                   (Some (AdminFabricsPage.color f))
                   (Some (AdminFabricsPage.stock f))
                   (Some (json (filter
                                  (fun img => negb (String.eqb (trim img) ""))
                                  (AdminFabricsPage.images_json f))))
                   (Some (AdminFabricsPage.featured f))
                   (Some (AdminFabricsPage.description f))
                   (Some now) (Some now)])
            (tbl_garments d) (tbl_orders d)).
Proof.
  intros trim json c now fresh f d Hd Hc _ Hfresh.
  apply reachable_consistent in Hd.
  destruct Hd as [Hcr Hfr Hgr Hor Hcp Hfp Hgp Hop Htk Hcf Hff Hgf].
  set (new := fabrics.fill (AdminFabricsPage.insert_values trim json f)
                (fabrics.defaults fresh now)).
  simpl. unfold insert_row. fold new.
  rewrite (rls_insert_fabrics_admin c new Hc).
  change (commit (with_fabrics (tbl_fabrics d ++ [new]) d)
          = Ok (with_fabrics (tbl_fabrics d ++ [new]) d)).
  apply commit_consistent. constructor; simpl; try assumption.
  - apply in_snoc; [exact Hfr | reflexivity].
  - rewrite map_app. simpl.
    now apply (unique_keys_snoc N.eqb N_eqb_iff).
  - rewrite map_app. now apply forallb_references_app.
Qed.

Lemma add_fabric_commits_witness :
  exec (Authenticated 7 (Some "admin")) 1700000000000000 10
    (insert_fabrics
       (AdminFabricsPage.insert_values AsciiText.trim
          (fun imgs => String.concat "," imgs)
          (AdminFabricsPage.mkform "Tweed" "Wool" 900 "Grey" 5 "" false
             ["  "; "https://example.org/tweed.jpg"])))
    empty_db
  = Ok (mkdb []
          [fabrics.mk (F := option) (Some 10%N) (Some "Tweed") (Some "Wool")
             (Some 900%Z) (Some "Grey") (Some 5%Z)
             (Some "https://example.org/tweed.jpg") (Some false) (Some "")
             (Some 1700000000000000%Z) (Some 1700000000000000%Z)]
          [] []).
Proof.
  refine (add_fabric_commits AsciiText.trim
            (fun imgs => String.concat "," imgs)
            (Authenticated 7 (Some "admin")) 1700000000000000 10
            (AdminFabricsPage.mkform "Tweed" "Wool" 900 "Grey" 5 "" false
               ["  "; "https://example.org/tweed.jpg"])
            empty_db reachable_empty eq_refl eq_refl _).
  intros [].
Defined.

(** ** More on orders *)

(** X20: a tracking code given by the caller must be new as well: an
    INSERT whose non-empty code is the code of a stored order is
    rejected and leaves the store as it is. *)
Theorem supplied_code_must_be_new :
  forall (c : caller) (now : timestamptz) (fresh : uuid)
         (v : orders.values) (d : database) (code : string),
    orders.tracking_id v = Supplied (Some code) ->
    code <> "" ->
    In (Some code) (map orders.tracking_id (tbl_orders d)) ->
    (exists e, exec c now fresh (insert_orders v) d = Rejected e)
    /\ state_after d (exec c now fresh (insert_orders v) d) = d.
Proof.
  intros c now fresh v d code Hv Hne Hused.
  assert (Hrej : exists e, exec c now fresh (insert_orders v) d = Rejected e).
  { apply not_ok_rejected. intros d' Hexec.
    pose proof (exec_consistent _ _ _ _ _ _ Hexec) as Hc.
    rewrite exec_insert_orders in Hexec. apply commit_ok in Hexec as [-> _].
    pose proof (orders_tracking_id_key _ Hc) as Htk. simpl in Htk.
    rewrite map_app in Htk. simpl in Htk.
    assert (Hfill : orders.tracking_id
                      (orders.fill v (orders.defaults fresh now))
                    = Some code) by (cbn; now rewrite Hv).
    rewrite (set_tracking_id_given now _ code Hfill Hne), Hfill in Htk.
    now apply (unique_keys_last String.eqb string_eqb_iff) in Htk. }
  split; [exact Hrej|]. destruct Hrej as [e ->]. reflexivity.
Qed.

Lemma supplied_code_must_be_new_witness :
  exec Anonymous 1700000005000000 2
    (insert_orders (orders.only_tracking (Supplied (Some "A1"))))
    (state_after empty_db
       (exec Anonymous 1700000000000000 1
          (insert_orders (orders.only_tracking (Supplied (Some "A1"))))
          empty_db))
  = Rejected (unique_violation "orders_tracking_id_key").
Proof.
  destruct (supplied_code_must_be_new Anonymous 1700000005000000 2
              (orders.only_tracking (Supplied (Some "A1")))
              (state_after empty_db
                 (exec Anonymous 1700000000000000 1
                    (insert_orders (orders.only_tracking
                                      (Supplied (Some "A1"))))
                    empty_db))
              "A1") as [[e He] _].
  - reflexivity.
  - discriminate.
  - left. reflexivity.
  - rewrite He. vm_compute in He. exact (eq_sym He).
Defined.

(** X21: the [updated_at] trigger fires on UPDATE only: an order INSERT
    that names [updated_at] or [created_at] stores the values it names,
    for every caller; left out, both are the clock of the statement. *)
Theorem insert_keeps_given_timestamps :
  forall (c : caller) (now : timestamptz) (fresh : uuid)
         (v : orders.values) (d d' : database),
    exec c now fresh (insert_orders v) d = Ok d' ->
    exists new : orders.row,
      tbl_orders d' = tbl_orders d ++ [new]
      /\ orders.updated_at new = or_else (orders.updated_at v) (Some now)
      /\ orders.created_at new = or_else (orders.created_at v) (Some now).
Proof.
  intros c now fresh v d d' Hexec.
  rewrite exec_insert_orders in Hexec. apply commit_ok in Hexec as [-> _].
  eexists. split; [reflexivity|].
  rewrite set_tracking_id_shape. split; reflexivity.
Qed.

Lemma insert_keeps_given_timestamps_witness :
  exists new : orders.row,
    tbl_orders
      (state_after empty_db
         (exec Anonymous 1700000000000000 1
            (insert_orders
               (orders.only_updated_at (Supplied (Some 9000000000000000%Z))))
            empty_db))
    = tbl_orders empty_db ++ [new]
    /\ orders.updated_at new = Some 9000000000000000%Z.
Proof.
  destruct (insert_keeps_given_timestamps Anonymous 1700000000000000 1
              (orders.only_updated_at (Supplied (Some 9000000000000000%Z)))
              empty_db
              (state_after empty_db
                 (exec Anonymous 1700000000000000 1
                    (insert_orders
                       (orders.only_updated_at
                          (Supplied (Some 9000000000000000%Z))))
                    empty_db)))
    as (new & Hrows & Hup & _).
  - vm_compute. reflexivity.
  - exists new. split; [exact Hrows | exact Hup].
Defined.

(** X22: nothing references an order, so an administrator can always
    delete orders: the DELETE commits from every reachable state and
    removes exactly the orders its WHERE clause selects. *)
Theorem admin_delete_orders_commits :
  forall (c : caller) (now : timestamptz) (fresh : uuid)
         (w : orders.row -> bool) (d : database),
    reachable d ->
    class_of c = administrator ->
    exec c now fresh (delete_orders w) d
    = Ok (with_orders (filter (fun o => negb (w o)) (tbl_orders d)) d).
Proof.
  intros c now fresh w d Hd Hc. apply reachable_consistent in Hd.
  simpl. unfold remaining.
  rewrite (filter_ext _ (fun o => negb (w o)));
    [|intros o; now rewrite (admin_targets c order_row DELETE w o Hc)].
  apply commit_consistent.
  destruct Hd as [Hcr Hfr Hgr Hor Hcp Hfp Hgp Hop Htk Hcf Hff Hgf].
  constructor; simpl; try assumption.
  - intros r Hr. apply filter_In in Hr as [Hr _]. auto.
  - now apply unique_keys_filter.
  - now apply unique_keys_filter.
  - apply forallb_forall. intros o Ho. apply filter_In in Ho as [Ho _].
    rewrite forallb_forall in Hcf. auto.
  - apply forallb_forall. intros o Ho. apply filter_In in Ho as [Ho _].
    rewrite forallb_forall in Hff. auto.
  - apply forallb_forall. intros o Ho. apply filter_In in Ho as [Ho _].
    rewrite forallb_forall in Hgf. auto.
Qed.

Lemma admin_delete_orders_commits_witness :
  exec (Authenticated 7 (Some "admin")) 1700000060000000 2
    (delete_orders (fun _ => true))
    (state_after empty_db
       (exec Anonymous 1700000000000000 1 (insert_orders orders.nothing)
          empty_db))
  = Ok empty_db.
Proof.
  refine (admin_delete_orders_commits (Authenticated 7 (Some "admin"))
            1700000060000000 2 (fun _ => true)
            (state_after empty_db
               (exec Anonymous 1700000000000000 1
                  (insert_orders orders.nothing) empty_db)) _ eq_refl).
  apply (reachable_exec empty_db _ Anonymous 1700000000000000 1
           (insert_orders orders.nothing) reachable_empty).
  vm_compute. reflexivity.
Defined.

(** ** The decisions of the policies in force *)

(** X23: what the policies in force allow, for every caller and request:
    an administrator everything; any other caller the INSERT of a
    customer or an order; a signed-in caller besides the SELECT of the
    customer row whose id is theirs and of the orders whose customer is
    them; and nothing else. *)
Theorem decisions_in_force :
  forall (c : caller) (q : request),
    authorized pg_policy c q
    = match class_of c, q with
      | administrator, _ => true
      | _, req_insert (customer_row _) => true
      | _, req_insert (order_row _) => true
      | end_user uid, req_select (customer_row r) =>
          key_eqb N.eqb uid (customers.id r)
      | end_user uid, req_select (order_row o) =>
          key_eqb N.eqb uid (orders.customer_id o)
      | _, _ => false
      end.
Proof.
  intros c q. rewrite authorized_in_force.
  destruct (class_of c), q as [r | r | r r' | r]; try destruct r;
    try destruct r'; reflexivity.
Qed.
